(** * Azoteq IQS550/572/525 touch controller driver (iqs5xx.c)

    A shallow embedding of the bus layer, the bootloader protocol, the
    hex-record firmware parser, the flash programmer and the bring-up
    sequence of [drivers/input/touchscreen/iqs5xx.c], with the properties
    the specification states about them.

    Integers are [Z] with the wrap-around of the C types written out
    ([u8], [u16]); [int] error codes are negative [Z].  The driver runs
    against a [world]: the private data of the driver ([bl_status],
    [input]), the trace of everything it did to the outside (bus
    transfers, reset line, sleeps, locks, allocations), and the platform
    it runs on, which answers the [n]-th bus transfer through an oracle. *)

From Stdlib Require Import ZArith String Ascii List Bool Lia.
Import ListNotations.
Open Scope Z_scope.

(** ** Constants of the driver *)

Definition EPERM : Z := 1.
Definition ENOENT : Z := 2.
Definition EIO : Z := 5.
Definition ENOMEM : Z := 12.
Definition EINVAL : Z := 22.
Definition ENAMETOOLONG : Z := 36.

Definition IQS5XX_FW_FILE_LEN : Z := 64.
Definition IQS5XX_NUM_RETRIES : nat := 10.
Definition IQS5XX_NUM_POINTS : Z := 256.
Definition IQS5XX_NUM_CONTACTS : Z := 5.
Definition IQS5XX_WR_BYTES_MAX : Z := 2.

Definition IQS5XX_PROD_NUM_IQS550 : Z := 40.
Definition IQS5XX_PROD_NUM_IQS572 : Z := 58.
Definition IQS5XX_PROD_NUM_IQS525 : Z := 52.
Definition IQS5XX_PROJ_NUM_A000 : Z := 0.
Definition IQS5XX_PROJ_NUM_B000 : Z := 15.
Definition IQS5XX_MAJOR_VER_MIN : Z := 2.

Definition IQS5XX_RESUME : Z := 0x00.
Definition IQS5XX_SUSPEND : Z := 0x01.

Definition IQS5XX_SW_INPUT_EVENT : Z := 0x10.
Definition IQS5XX_SETUP_COMPLETE : Z := 0x40.
Definition IQS5XX_EVENT_MODE : Z := 0x01.
Definition IQS5XX_TP_EVENT : Z := 0x04.

Definition IQS5XX_FLIP_X : Z := 0x01.
Definition IQS5XX_FLIP_Y : Z := 0x02.
Definition IQS5XX_SWITCH_XY_AXIS : Z := 0x04.

Definition IQS5XX_PROD_NUM : Z := 0x0000.
Definition IQS5XX_SYS_CTRL1 : Z := 0x0432.
Definition IQS5XX_SYS_CFG0 : Z := 0x058E.
Definition IQS5XX_SYS_CFG1 : Z := 0x058F.
Definition IQS5XX_TOTAL_RX : Z := 0x063D.
Definition IQS5XX_TOTAL_TX : Z := 0x063E.
Definition IQS5XX_XY_CFG0 : Z := 0x0669.
Definition IQS5XX_X_RES : Z := 0x066E.
Definition IQS5XX_Y_RES : Z := 0x0670.
Definition IQS5XX_CHKSM : Z := 0x83C0.
Definition IQS5XX_APP : Z := 0x8400.
Definition IQS5XX_CSTM : Z := 0xBE00.
Definition IQS5XX_PMAP_END : Z := 0xBFFF.
Definition IQS5XX_END_COMM : Z := 0xEEEE.

Definition IQS5XX_CHKSM_LEN : Z := IQS5XX_APP - IQS5XX_CHKSM.
Definition IQS5XX_APP_LEN : Z := IQS5XX_CSTM - IQS5XX_APP.
Definition IQS5XX_CSTM_LEN : Z := IQS5XX_PMAP_END + 1 - IQS5XX_CSTM.
Definition IQS5XX_PMAP_LEN : Z := IQS5XX_PMAP_END + 1 - IQS5XX_CHKSM.

Definition IQS5XX_REC_HDR_LEN : nat := 4.
Definition IQS5XX_REC_LEN_MAX : Z := 255.
Definition IQS5XX_REC_TYPE_DATA : Z := 0x00.
Definition IQS5XX_REC_TYPE_EOF : Z := 0x01.

Definition IQS5XX_BL_ADDR_MASK : Z := 0x40.
Definition IQS5XX_BL_CMD_VER : Z := 0x00.
Definition IQS5XX_BL_CMD_READ : Z := 0x01.
Definition IQS5XX_BL_CMD_EXEC : Z := 0x02.
Definition IQS5XX_BL_CMD_CRC : Z := 0x03.
Definition IQS5XX_BL_BLK_LEN_MAX : Z := 64.
Definition IQS5XX_BL_ID : Z := 0x0200.
Definition IQS5XX_BL_STATUS_RESET : Z := 0x00.
Definition IQS5XX_BL_STATUS_AVAIL : Z := 0xA5.
Definition IQS5XX_BL_STATUS_NONE : Z := 0xEE.
Definition IQS5XX_BL_CRC_PASS : Z := 0x00.
Definition IQS5XX_BL_ATTEMPTS : nat := 3.

(** ** Machine integers and byte helpers *)

Definition u8 (z : Z) : Z := z mod 256.
Definition u16 (z : Z) : Z := z mod 65536.

(** [put_unaligned_be16] and [get_unaligned_be16]. *)
Definition put_be16 (v : Z) : list Z := [u8 (Z.shiftr (u16 v) 8); u8 v].
Definition get_be16 (hi lo : Z) : Z := Z.lor (Z.shiftl (u8 hi) 8) (u8 lo).

(** The bytes a pointer [p + off] of length [len] sees in a memory [p]. *)
Definition mem : Type := Z -> Z.
Definition mem_read (p : mem) (off : Z) (len : nat) : list Z :=
  map (fun k => p (off + Z.of_nat k)) (seq 0 len).

(** [memcpy(dst + off, src, length src)]: C does not check the bounds of
    [dst], so neither does the model; offsets past the end of a buffer
    are the memory that follows it. *)
Definition memcpy (dst : mem) (off : Z) (src : list Z) : mem :=
  fun k =>
    if (off <=? k) && (k <? off + Z.of_nat (length src))
    then nth (Z.to_nat (k - off)) src 0
    else dst k.

(** ** The world the driver runs in *)

Record i2c_msg := {
  msg_addr : Z;
  msg_rd : bool;          (* I2C_M_RD *)
  msg_len : Z;
  msg_buf : list Z        (* the bytes sent; empty for a read *)
}.

(** What the adapter answers to one [i2c_transfer]: its return value and
    the bytes it delivered into the read buffer, if any. *)
Record reply := { ret : Z; rx : list Z }.

Inductive event :=
| EvXfer (msgs : list i2c_msg)        (* i2c_transfer *)
| EvGpio (v : Z)                      (* gpiod_set_value_cansleep(reset_gpio, v) *)
| EvSleep (us : Z)                    (* usleep_range(us, _), msleep(us / 1000) *)
| EvMutexLock
| EvMutexUnlock
| EvDisableIrq
| EvEnableIrq
| EvKzalloc
| EvKfree
| EvFwRequest (name : string)         (* reject_firmware *)
| EvFwRelease                         (* release_firmware *)
| EvInputAllocate                     (* devm_input_allocate_device *)
| EvAbsSetMax (axis_y : bool) (v : Z) (* input_abs_set_max *)
| EvMtInitSlots                       (* input_mt_init_slots *)
| EvInputRegister                     (* input_register_device *)
| EvInputMutexLock                    (* mutex_lock(&input->mutex) *)
| EvInputMutexUnlock.                 (* mutex_unlock(&input->mutex) *)

Record touchscreen_properties := {
  max_x : Z;
  max_y : Z;
  invert_x : bool;
  invert_y : bool;
  swap_x_y : bool
}.

(** The kernel services and the hardware the driver calls but does not
    define are parameters of the model. *)
Record platform := {
  client_addr : Z;                          (* client->addr *)
  bus : nat -> reply;                       (* answer to the n-th transfer *)
  kzalloc_ok : bool;                        (* kzalloc returns non-NULL *)
  firmware : string -> option (list Z);     (* reject_firmware: fw->data, if any *)
  input_alloc_ok : bool;                    (* devm_input_allocate_device *)
  props : touchscreen_properties;           (* touchscreen_parse_properties *)
  mt_init_slots_ret : Z;                    (* input_mt_init_slots *)
  input_register_ret : Z                    (* input_register_device *)
}.

Record world := {
  plat : platform;
  nxfer : nat;                  (* transfers issued so far *)
  trace : list event;           (* newest first *)
  bl_status : Z;                (* iqs5xx->bl_status *)
  input : bool                  (* iqs5xx->input != NULL *)
}.

Definition emit (e : event) (w : world) : world :=
  {| plat := plat w; nxfer := nxfer w; trace := e :: trace w;
     bl_status := bl_status w; input := input w |}.

Definition set_bl_status (v : Z) (w : world) : world :=
  {| plat := plat w; nxfer := nxfer w; trace := trace w;
     bl_status := v; input := input w |}.

Definition set_input (b : bool) (w : world) : world :=
  {| plat := plat w; nxfer := nxfer w; trace := trace w;
     bl_status := bl_status w; input := b |}.

(** The driver's functions are state transformers over the world. *)
Definition M (A : Type) : Type := world -> A * world.
Definition pure {A} (a : A) : M A := fun w => (a, w).
Definition bind {A B} (c : M A) (k : A -> M B) : M B :=
  fun w => let (a, w') := c w in k a w'.
Definition act (e : event) : M unit := fun w => (tt, emit e w).
Definition get {A} (f : world -> A) : M A := fun w => (f w, w).

Notation "x <- c ;; k" := (bind c (fun x => k))
  (at level 61, c at next level, right associativity).
Notation "c ;;; k" := (bind c (fun _ => k))
  (at level 61, right associativity).

(** The bytes a successful read of [len] bytes leaves in the buffer. *)
Definition rx_bytes (len : nat) (r : reply) : list Z :=
  firstn len (map u8 (rx r) ++ repeat 0 len).

(** [i2c_transfer] belongs to the kernel's I2C core: it returns the number
    of messages transferred or a negative error.  What it returns is a
    parameter, the platform's [bus]; the transfer is recorded in the
    trace. *)
Definition i2c_transfer (msgs : list i2c_msg) : M reply := fun w =>
  (bus (plat w) (nxfer w),
   {| plat := plat w; nxfer := S (nxfer w); trace := EvXfer msgs :: trace w;
      bl_status := bl_status w; input := input w |}).

(** Modelled from the spec: [i2c_master_send] of the kernel's I2C core,
    the bus transport's [write(address, bytes)]: one write message, the
    byte count on success and the error of the transfer otherwise. *)
Definition i2c_master_send (addr : Z) (buf : list Z) : M Z :=
  r <- i2c_transfer [{| msg_addr := addr; msg_rd := false;
                        msg_len := Z.of_nat (length buf); msg_buf := buf |}] ;;
  pure (if ret r =? 1 then Z.of_nat (length buf) else ret r).

Definition usleep_range (us : Z) : M unit := act (EvSleep us).
Definition msleep (ms : Z) : M unit := act (EvSleep (ms * 1000)).

(** ** Bus transport *)

Fixpoint read_burst_loop (n : nat) (msgs : list i2c_msg) (len : nat) (last : Z)
  : M (Z + list Z) :=
  match n with
  | O => pure (inl last)
  | S n' =>
      r <- i2c_transfer msgs ;;
      if ret r =? 2 then pure (inr (rx_bytes len r))
      else usleep_range 200 ;;; read_burst_loop n' msgs len (ret r)
  end.

Definition iqs5xx_read_burst (reg : Z) (len : nat) : M (Z * list Z) :=
  addr <- get (fun w => client_addr (plat w)) ;;
  o <- read_burst_loop IQS5XX_NUM_RETRIES
         [ {| msg_addr := addr; msg_rd := false; msg_len := 2;
              msg_buf := put_be16 reg |};
           {| msg_addr := addr; msg_rd := true; msg_len := Z.of_nat len;
              msg_buf := [] |} ] len 0 ;;
  match o with
  | inr val => pure (0, val)
  | inl r => pure (if r >=? 0 then - EIO else r, [])
  end.

Definition iqs5xx_read_word (reg : Z) : M (Z * Z) :=
  ev <- iqs5xx_read_burst reg 2 ;;
  let '(error, val_buf) := ev in
  if error =? 0 then pure (0, get_be16 (nth 0 val_buf 0) (nth 1 val_buf 0))
  else pure (error, 0).

Definition iqs5xx_read_byte (reg : Z) : M (Z * Z) :=
  ev <- iqs5xx_read_burst reg 1 ;;
  let '(error, val) := ev in pure (error, nth 0 val 0).

Fixpoint write_burst_loop (n : nat) (addr : Z) (mbuf : list Z) (last : Z)
  : M (option Z) :=
  match n with
  | O => pure (Some last)
  | S n' =>
      r <- i2c_master_send addr mbuf ;;
      if r =? Z.of_nat (length mbuf) then pure None
      else usleep_range 200 ;;; write_burst_loop n' addr mbuf r
  end.

Definition iqs5xx_write_burst (reg : Z) (val : list Z) : M Z :=
  if Z.of_nat (length val) >? IQS5XX_WR_BYTES_MAX then pure (- EINVAL)
  else
    addr <- get (fun w => client_addr (plat w)) ;;
    o <- write_burst_loop IQS5XX_NUM_RETRIES addr (put_be16 reg ++ val) 0 ;;
    match o with
    | None => pure 0
    | Some r => pure (if r >=? 0 then - EIO else r)
    end.

Definition iqs5xx_write_word (reg val : Z) : M Z :=
  iqs5xx_write_burst reg (put_be16 val).

Definition iqs5xx_write_byte (reg val : Z) : M Z :=
  iqs5xx_write_burst reg [u8 val].

Definition iqs5xx_reset : M unit :=
  act (EvGpio 1) ;;; usleep_range 200 ;;; act (EvGpio 0).

(** ** Bootloader protocol *)

(** The [msg_fail] label: a short transfer becomes [-EIO]. *)
Definition msg_fail (r : Z) : Z := if r >=? 0 then - EIO else r.

Definition bl_msg (addr : Z) (rd : bool) (len : Z) (buf : list Z) : i2c_msg :=
  {| msg_addr := Z.lxor addr IQS5XX_BL_ADDR_MASK; msg_rd := rd;
     msg_len := len; msg_buf := buf |}.

Definition iqs5xx_bl_cmd (bl_cmd bl_addr : Z) : M Z :=
  addr <- get (fun w => client_addr (plat w)) ;;
  if negb ((bl_cmd =? IQS5XX_BL_CMD_VER) || (bl_cmd =? IQS5XX_BL_CMD_CRC)
           || (bl_cmd =? IQS5XX_BL_CMD_EXEC) || (bl_cmd =? IQS5XX_BL_CMD_READ))
  then pure (- EINVAL)
  else
    let mbuf := if bl_cmd =? IQS5XX_BL_CMD_READ
                then bl_cmd :: put_be16 bl_addr else [bl_cmd] in
    r <- i2c_transfer [bl_msg addr false (Z.of_nat (length mbuf)) mbuf] ;;
    if negb (ret r =? 1) then pure (msg_fail (ret r))
    else if bl_cmd =? IQS5XX_BL_CMD_VER then
      r2 <- i2c_transfer [bl_msg addr true 2 []] ;;
      if negb (ret r2 =? 1) then pure (msg_fail (ret r2))
      else
        let mbuf := rx_bytes 2 r2 in
        if negb (get_be16 (nth 0 mbuf 0) (nth 1 mbuf 0) =? IQS5XX_BL_ID)
        then pure (- EINVAL) else pure 0
    else if bl_cmd =? IQS5XX_BL_CMD_CRC then
      msleep 50 ;;;
      r2 <- i2c_transfer [bl_msg addr true 1 []] ;;
      if negb (ret r2 =? 1) then pure (msg_fail (ret r2))
      else
        let mbuf := rx_bytes 1 r2 in
        if negb (nth 0 mbuf 0 =? IQS5XX_BL_CRC_PASS)
        then pure (- EIO) else pure 0
    else if bl_cmd =? IQS5XX_BL_CMD_EXEC then
      usleep_range 10000 ;;; pure 0
    else pure 0.

(** The inner loop of [iqs5xx_bl_open]: [inr error] is the [return error]
    inside the loop, [inl error] the loop running to its end. *)
Fixpoint bl_open_probe (j : nat) (last : Z) : M (Z + Z) :=
  match j with
  | O => pure (inl last)
  | S j' =>
      error <- iqs5xx_bl_cmd IQS5XX_BL_CMD_VER 0 ;;
      if (error =? 0) || (error =? - EINVAL) then pure (inr error)
      else bl_open_probe j' error
  end.

Fixpoint bl_open_attempt (i : nat) (last : Z) : M Z :=
  match i with
  | O => pure last
  | S i' =>
      iqs5xx_reset ;;;
      o <- bl_open_probe IQS5XX_NUM_RETRIES last ;;
      match o with
      | inr error => pure error
      | inl error => bl_open_attempt i' error
      end
  end.

Definition iqs5xx_bl_open : M Z := bl_open_attempt IQS5XX_BL_ATTEMPTS 0.

(** The loop [for (i = 0; i < pmap_len; i += IQS5XX_BL_BLK_LEN_MAX)] of
    [iqs5xx_bl_write]; [fuel] bounds the number of iterations and is never
    the reason the loop stops (see [bl_write_loop_fuel]). *)
Fixpoint bl_write_loop (fuel : nat) (addr bl_addr : Z) (pmap_data : mem)
    (pmap_len i : Z) : M Z :=
  match fuel with
  | O => pure 0
  | S fuel' =>
      if i <? pmap_len then
        let mbuf := put_be16 (bl_addr + i) ++ mem_read pmap_data i 64 in
        r <- i2c_transfer [bl_msg addr false 66 mbuf] ;;
        if negb (ret r =? 1) then pure (msg_fail (ret r))
        else usleep_range 10000 ;;;
             bl_write_loop fuel' addr bl_addr pmap_data pmap_len
               (i + IQS5XX_BL_BLK_LEN_MAX)
      else pure 0
  end.

Definition iqs5xx_bl_write (bl_addr : Z) (pmap_data : mem) (pmap_len : Z)
  : M Z :=
  if negb (pmap_len mod IQS5XX_BL_BLK_LEN_MAX =? 0) then pure (- EINVAL)
  else
    addr <- get (fun w => client_addr (plat w)) ;;
    bl_write_loop (Z.to_nat pmap_len) addr bl_addr pmap_data pmap_len 0.

(** [memcmp(bl_data, pmap_data + i, 64) == 0]. *)
Definition block_eqb (a b : list Z) : bool :=
  forallb (fun p => fst p =? snd p) (combine a b).

Fixpoint bl_verify_loop (fuel : nat) (addr bl_addr : Z) (pmap_data : mem)
    (pmap_len i : Z) : M Z :=
  match fuel with
  | O => pure 0
  | S fuel' =>
      if i <? pmap_len then
        e <- iqs5xx_bl_cmd IQS5XX_BL_CMD_READ (u16 (bl_addr + i)) ;;
        if negb (e =? 0) then pure e
        else
          r <- i2c_transfer [bl_msg addr true 64 []] ;;
          if negb (ret r =? 1) then pure (msg_fail (ret r))
          else if negb (block_eqb (rx_bytes 64 r) (mem_read pmap_data i 64))
          then pure (- EIO)
          else bl_verify_loop fuel' addr bl_addr pmap_data pmap_len
                 (i + IQS5XX_BL_BLK_LEN_MAX)
      else pure 0
  end.

Definition iqs5xx_bl_verify (bl_addr : Z) (pmap_data : mem) (pmap_len : Z)
  : M Z :=
  if negb (pmap_len mod IQS5XX_BL_BLK_LEN_MAX =? 0) then pure (- EINVAL)
  else
    addr <- get (fun w => client_addr (plat w)) ;;
    bl_verify_loop (Z.to_nat pmap_len) addr bl_addr pmap_data pmap_len 0.

(** ** Power state *)

Definition iqs5xx_set_state (state : Z) : M Z :=
  st <- get bl_status ;;
  if st =? IQS5XX_BL_STATUS_RESET then pure 0
  else
    act EvMutexLock ;;;
    act EvDisableIrq ;;;
    error1 <- iqs5xx_write_byte IQS5XX_SYS_CTRL1 state ;;
    error2 <- iqs5xx_write_byte IQS5XX_END_COMM 0 ;;
    usleep_range 50 ;;;
    act EvEnableIrq ;;;
    act EvMutexUnlock ;;;
    if negb (error1 =? 0) then pure error1 else pure error2.

Definition iqs5xx_open : M Z := iqs5xx_set_state IQS5XX_RESUME.
Definition iqs5xx_close : M unit :=
  iqs5xx_set_state IQS5XX_SUSPEND ;;; pure tt.

(** [iqs5xx_suspend] and [iqs5xx_resume]; [users] is [input->users], read
    under the input device's own mutex. *)
Definition iqs5xx_suspend (users : bool) : M Z :=
  inp <- get input ;;
  if negb inp then pure 0
  else
    act EvInputMutexLock ;;;
    error <- (if users then iqs5xx_set_state IQS5XX_SUSPEND else pure 0) ;;
    act EvInputMutexUnlock ;;;
    pure error.

Definition iqs5xx_resume (users : bool) : M Z :=
  inp <- get input ;;
  if negb inp then pure 0
  else
    act EvInputMutexLock ;;;
    error <- (if users then iqs5xx_set_state IQS5XX_RESUME else pure 0) ;;
    act EvInputMutexUnlock ;;;
    pure error.

(** ** Firmware image parser *)

(** Modelled from the spec: [hex_to_bin] and [hex2bin] of the kernel's
    lib/hexdump.c, which the parser calls to "decode ... from its
    hexadecimal text encoding"; a character that is no hexadecimal digit
    fails the conversion with [-EINVAL].  The bytes converted before the
    failure are not kept: the parser never reads them after an error. *)
Definition hex_to_bin (ch : Z) : Z :=
  if (48 <=? ch) && (ch <=? 57) then ch - 48
  else
    let ch := if (65 <=? ch) && (ch <=? 90) then ch + 32 else ch in
    if (97 <=? ch) && (ch <=? 102) then ch - 97 + 10 else -1.

Fixpoint hex2bin (src : list Z) (count : nat) : option (list Z) :=
  match count with
  | O => Some []
  | S count' =>
      let hi := hex_to_bin (nth 0 src 0) in
      let lo := hex_to_bin (nth 1 src 0) in
      if (hi <? 0) || (lo <? 0) then None
      else match hex2bin (skipn 2 src) count' with
           | Some dst => Some (Z.lor (Z.shiftl hi 4) lo :: dst)
           | None => None
           end
  end.

(** [chksm = 0; chksm += b ...; chksm = ~chksm + 1] on a [u8]. *)
Definition sum_u8 (acc : Z) (bytes : list Z) : Z :=
  fold_left (fun c b => u8 (c + b)) bytes acc.

Definition rec_checksum (rec_hdr rec_data : list Z) : Z :=
  let chksm := sum_u8 (sum_u8 0 rec_hdr) rec_data in
  u8 (Z.lnot chksm + 1).

(** One hex record as the loop body decodes it, up to and including its
    recorded checksum byte; [rec_end] is [pos] after the record. *)
Record ihex_rec := {
  rec_hdr : list Z;
  rec_len : Z;
  rec_addr : Z;
  rec_type : Z;
  rec_data : list Z;
  rec_chksm : Z;
  rec_end : nat
}.

(** [sizeof(struct iqs5xx_ihex_rec)]: start, len[2], addr[4], type[2], data[2]. *)
Definition sizeof_rec : nat := 11.

(** The first half of the loop body: the size checks, the start marker and
    the three [hex2bin] conversions.  [inl error] is a [break] with that
    error. *)
Definition decode_record (data : list Z) (pos : nat) : Z + ihex_rec :=
  let size := length data in
  if (size <? pos + sizeof_rec)%nat then inl (- EINVAL)
  else
    let rec := skipn pos data in
    let pos := (pos + sizeof_rec)%nat in
    if negb (nth 0 rec 0 =? 58) then inl (- EINVAL)
    else
      match hex2bin (skipn 1 rec) IQS5XX_REC_HDR_LEN with
      | None => inl (- EINVAL)
      | Some hdr =>
          let len := nth 0 hdr 0 in
          let addr := get_be16 (nth 1 hdr 0) (nth 2 hdr 0) in
          let type := nth 3 hdr 0 in
          if (size <? pos + Z.to_nat len * 2)%nat then inl (- EINVAL)
          else
            let pos := (pos + Z.to_nat len * 2)%nat in
            match hex2bin (skipn 9 rec) (Z.to_nat len) with
            | None => inl (- EINVAL)
            | Some dat =>
                match hex2bin (skipn (9 + Z.to_nat len * 2) rec) 1 with
                | None => inl (- EINVAL)
                | Some ck =>
                    inr {| rec_hdr := hdr; rec_len := len; rec_addr := addr;
                           rec_type := type; rec_data := dat;
                           rec_chksm := nth 0 ck 0; rec_end := pos |}
                end
            end
      end.

(** The second half of the loop body: the checksum comparison and the
    switch on the record type.  [inl error] is a [break]; [inr pmap] is
    the image after the record. *)
Definition apply_record (r : ihex_rec) (pmap : mem) : Z + mem :=
  let chksm := rec_checksum (rec_hdr r) (rec_data r) in
  if negb (chksm =? rec_chksm r) && (rec_addr r <? IQS5XX_CSTM)
  then inl (- EINVAL)
  else if rec_type r =? IQS5XX_REC_TYPE_DATA then
    if (rec_addr r <? IQS5XX_CHKSM) || (rec_addr r >? IQS5XX_PMAP_END)
    then inl (- EINVAL)
    else inr (memcpy pmap (rec_addr r - IQS5XX_CHKSM) (rec_data r))
  else if rec_type r =? IQS5XX_REC_TYPE_EOF then inr pmap
  else inl (- EINVAL).

(** [while (pos < fw->size) { if (fw->data[pos] == ':') break; pos++; }],
    on the bytes from [pos] on. *)
Fixpoint skip_to_start (rest : list Z) (pos : nat) : nat :=
  match rest with
  | [] => pos
  | c :: rest' => if c =? 58 then pos else skip_to_start rest' (S pos)
  end.

(** The [do ... while (rec_type != IQS5XX_REC_TYPE_EOF)] loop.  [None] is
    the fuel running out, which [parse_loop_total] excludes. *)
Fixpoint parse_loop (fuel : nat) (data : list Z) (pos : nat) (pmap : mem)
  : option (Z * mem) :=
  match fuel with
  | O => None
  | S fuel' =>
      match decode_record data pos with
      | inl error => Some (error, pmap)
      | inr r =>
          match apply_record r pmap with
          | inl error => Some (error, pmap)
          | inr pmap' =>
              let pos' := skip_to_start (skipn (rec_end r) data) (rec_end r) in
              if negb (rec_type r =? IQS5XX_REC_TYPE_EOF)
              then parse_loop fuel' data pos' pmap'
              else Some (0, pmap')
          end
      end
  end.

(** Modelled from the spec: [reject_firmware] and [release_firmware] of
    the kernel's firmware loader.  The "firmware source input ... supplied
    by name" is the platform's [firmware] table; a name it does not hold
    fails the request with [-ENOENT]. *)
Definition reject_firmware (name : string) : M (Z * list Z) :=
  act (EvFwRequest name) ;;;
  fw <- get (fun w => firmware (plat w) name) ;;
  match fw with
  | None => pure (- ENOENT, [])
  | Some data => pure (0, data)
  end.

Definition release_firmware : M unit := act EvFwRelease.

(** [iqs5xx_fw_file_parse]: the loop runs on [fw->data] with the fuel its
    size allows for ([parse_loop_total]: the fuel never runs out). *)
Definition iqs5xx_fw_file_parse (fw_file : string) (pmap : mem)
  : M (Z * mem) :=
  ef <- reject_firmware fw_file ;;
  let '(error, data) := ef in
  if negb (error =? 0) then pure (error, pmap)
  else
    let res := match parse_loop (S (length data)) data 0 pmap with
               | Some res => res
               | None => (- EINVAL, pmap)
               end in
    release_firmware ;;; pure res.

(** ** Device bring-up *)

Definition bxor (v : Z) (c : bool) (mask : Z) : Z :=
  if c then Z.lxor v mask else v.

Definition iqs5xx_axis_init : M Z :=
  inp <- get input ;;
  alloc <- (if negb inp then
              act EvInputAllocate ;;;
              ok <- get (fun w => input_alloc_ok (plat w)) ;;
              if ok then (fun w => (true, set_input true w)) else pure false
            else pure true) ;;
  if negb alloc then pure (- ENOMEM)
  else
    prop <- get (fun w => props (plat w)) ;;
    ev <- iqs5xx_read_byte IQS5XX_TOTAL_RX ;;
    let '(error, val) := ev in
    if negb (error =? 0) then pure error else
    let max_x_hw := u16 ((val - 1) * IQS5XX_NUM_POINTS) in
    ev <- iqs5xx_read_byte IQS5XX_TOTAL_TX ;;
    let '(error, val) := ev in
    if negb (error =? 0) then pure error else
    let max_y_hw := u16 ((val - 1) * IQS5XX_NUM_POINTS) in
    ev <- iqs5xx_read_byte IQS5XX_XY_CFG0 ;;
    let '(error, val) := ev in
    if negb (error =? 0) then pure error else
    let '(max_x_hw, max_y_hw) :=
      if negb (Z.land val IQS5XX_SWITCH_XY_AXIS =? 0)
      then (max_y_hw, max_x_hw) else (max_x_hw, max_y_hw) in
    let val := bxor val (swap_x_y prop) IQS5XX_SWITCH_XY_AXIS in
    let val := bxor val (invert_x prop)
                 (if swap_x_y prop then IQS5XX_FLIP_Y else IQS5XX_FLIP_X) in
    let val := bxor val (invert_y prop)
                 (if swap_x_y prop then IQS5XX_FLIP_X else IQS5XX_FLIP_Y) in
    error <- iqs5xx_write_byte IQS5XX_XY_CFG0 val ;;
    if negb (error =? 0) then pure error else
    if max_x prop >? max_x_hw then pure (- EINVAL) else
    ex <- (if max_x prop =? 0 then
             ev <- iqs5xx_read_word IQS5XX_X_RES ;;
             let '(error, v) := ev in
             if negb (error =? 0) then pure (error, 0)
             else act (EvAbsSetMax (swap_x_y prop) v) ;;; pure (0, v)
           else pure (0, u16 (max_x prop))) ;;
    let '(error, mx) := ex in
    if negb (error =? 0) then pure error else
    if max_y prop >? max_y_hw then pure (- EINVAL) else
    ey <- (if max_y prop =? 0 then
             ev <- iqs5xx_read_word IQS5XX_Y_RES ;;
             let '(error, v) := ev in
             if negb (error =? 0) then pure (error, 0)
             else act (EvAbsSetMax (negb (swap_x_y prop)) v) ;;; pure (0, v)
           else pure (0, u16 (max_y prop))) ;;
    let '(error, my) := ey in
    if negb (error =? 0) then pure error else
    error <- iqs5xx_write_word
               (if swap_x_y prop then IQS5XX_Y_RES else IQS5XX_X_RES) mx ;;
    if negb (error =? 0) then pure error else
    error <- iqs5xx_write_word
               (if swap_x_y prop then IQS5XX_X_RES else IQS5XX_Y_RES) my ;;
    if negb (error =? 0) then pure error else
    act EvMtInitSlots ;;;
    get (fun w => mt_init_slots_ret (plat w)).

(** The identity block [struct iqs5xx_dev_id_info] as [iqs5xx_dev_init]
    reads it out of [buf]: a zero is prepended when the first byte read is
    nonzero. *)
Record iqs5xx_dev_id_info := {
  prod_num : Z;
  proj_num : Z;
  major_ver : Z;
  minor_ver : Z;
  id_bl_status : Z
}.

Definition dev_id_of_buf (rxd : list Z) : iqs5xx_dev_id_info :=
  let buf := 0 :: rxd in
  let p := skipn (if nth 1 buf 0 >? 0 then 0%nat else 1%nat) buf in
  {| prod_num := get_be16 (nth 0 p 0) (nth 1 p 0);
     proj_num := get_be16 (nth 2 p 0) (nth 3 p 0);
     major_ver := nth 4 p 0;
     minor_ver := nth 5 p 0;
     id_bl_status := nth 6 p 0 |}.

Definition iqs5xx_dev_init : M Z :=
  ev <- iqs5xx_read_burst IQS5XX_PROD_NUM 7 ;;
  let '(error, rxd) := ev in
  if negb (error =? 0) then iqs5xx_bl_open
  else
    let dev_id_info := dev_id_of_buf rxd in
    if negb ((prod_num dev_id_info =? IQS5XX_PROD_NUM_IQS550)
             || (prod_num dev_id_info =? IQS5XX_PROD_NUM_IQS572)
             || (prod_num dev_id_info =? IQS5XX_PROD_NUM_IQS525))
    then pure (- EINVAL)
    else if proj_num dev_id_info =? IQS5XX_PROJ_NUM_A000 then iqs5xx_bl_open
    else if negb (proj_num dev_id_info =? IQS5XX_PROJ_NUM_B000)
    then pure (- EINVAL)
    else if major_ver dev_id_info <? IQS5XX_MAJOR_VER_MIN then iqs5xx_bl_open
    else if negb ((id_bl_status dev_id_info =? IQS5XX_BL_STATUS_AVAIL)
                  || (id_bl_status dev_id_info =? IQS5XX_BL_STATUS_NONE))
    then pure (- EINVAL)
    else
      error <- iqs5xx_axis_init ;;
      if negb (error =? 0) then pure error else
      ev <- iqs5xx_read_byte IQS5XX_SYS_CFG0 ;;
      let '(error, val) := ev in
      if negb (error =? 0) then pure error else
      let val := Z.lor val IQS5XX_SETUP_COMPLETE in
      let val := Z.land val (Z.lnot IQS5XX_SW_INPUT_EVENT) in
      error <- iqs5xx_write_byte IQS5XX_SYS_CFG0 val ;;
      if negb (error =? 0) then pure error else
      error <- iqs5xx_write_byte IQS5XX_SYS_CFG1
                 (Z.lor IQS5XX_TP_EVENT IQS5XX_EVENT_MODE) ;;
      if negb (error =? 0) then pure error else
      error <- iqs5xx_write_byte IQS5XX_END_COMM 0 ;;
      if negb (error =? 0) then pure error else
      (fun w => (tt, set_bl_status (id_bl_status dev_id_info) w)) ;;;
      msleep 100 ;;;
      pure 0.

(** ** Flash programmer *)

(** [kzalloc(IQS5XX_PMAP_LEN)]: a zeroed buffer. *)
Definition kzalloc_pmap : mem := fun _ => 0.

(** Steps 2 to 6 of the flash sequence, from the liveness probe to the
    Execute command; the result is [error] as it stands at [err_reset]. *)
Definition flash_steps (pmap : mem) : M Z :=
  error <- iqs5xx_bl_cmd IQS5XX_BL_CMD_VER 0 ;;
  error <- (if negb (error =? 0) then iqs5xx_bl_open else pure 0) ;;
  if negb (error =? 0) then pure error else
  error <- iqs5xx_bl_write IQS5XX_CHKSM pmap IQS5XX_PMAP_LEN ;;
  if negb (error =? 0) then pure error else
  error <- iqs5xx_bl_cmd IQS5XX_BL_CMD_CRC 0 ;;
  if negb (error =? 0) then pure error else
  error <- iqs5xx_bl_verify IQS5XX_CSTM
             (fun k => pmap (IQS5XX_CHKSM_LEN + IQS5XX_APP_LEN + k))
             IQS5XX_CSTM_LEN ;;
  if negb (error =? 0) then pure error else
  iqs5xx_bl_cmd IQS5XX_BL_CMD_EXEC 0.

(** From the [err_reset] label to [mutex_unlock]. *)
Definition flash_resync (error : Z) : M Z :=
  (if negb (error =? 0) then iqs5xx_reset ;;; usleep_range 10000
   else pure tt) ;;;
  error <- iqs5xx_dev_init ;;
  st <- get bl_status ;;
  let error := if (error =? 0) && (st =? IQS5XX_BL_STATUS_RESET)
               then - EINVAL else error in
  act EvEnableIrq ;;;
  act EvMutexUnlock ;;;
  pure error.

Definition iqs5xx_fw_file_write (fw_file : string) : M Z :=
  st <- get bl_status ;;
  if st =? IQS5XX_BL_STATUS_NONE then pure (- EPERM) else
  act EvKzalloc ;;;
  ok <- get (fun w => kzalloc_ok (plat w)) ;;
  if negb ok then pure (- ENOMEM) else
  ep <- iqs5xx_fw_file_parse fw_file kzalloc_pmap ;;
  let '(error, pmap) := ep in
  if negb (error =? 0) then act EvKfree ;;; pure error else
  act EvMutexLock ;;;
  act EvDisableIrq ;;;
  (fun w => (tt, set_bl_status IQS5XX_BL_STATUS_RESET w)) ;;;
  error <- flash_steps pmap ;;
  error <- flash_resync error ;;
  act EvKfree ;;;
  pure error.

(** ** The [fw_file] control *)

(** The C string a [char] buffer holds: its bytes up to the first NUL. *)
Fixpoint cstring (s : string) : string :=
  match s with
  | EmptyString => EmptyString
  | String c s' => if Ascii.eqb c "000"%char then EmptyString
                   else String c (cstring s')
  end.

Definition newline : ascii := "010"%char.

(** [buf[len - 1]] for [0 < len <= length buf]. *)
Definition last_char (buf : string) : option ascii :=
  String.get (String.length buf - 1) buf.

(** The end of [fw_file_store], after [iqs5xx_fw_file_write] returned
    [error]: the input device is registered if it was not there before. *)
Definition fw_file_store_finish (input_reg : bool) (count : nat) (error : Z)
  : M Z :=
  if negb (error =? 0) then pure error else
  if input_reg then
    act EvInputRegister ;;;
    error <- get (fun w => input_register_ret (plat w)) ;;
    if negb (error =? 0) then pure error else pure (Z.of_nat count)
  else pure (Z.of_nat count).

(** [fw_file_store(dev, attr, buf, count)] with [count] the length of
    [buf]; the result is the [ssize_t] returned. *)
Definition fw_file_store (buf : string) : M Z :=
  let count := String.length buf in
  let len := count in
  input_reg <- get (fun w => negb (input w)) ;;
  if (len =? 0)%nat then pure (- EINVAL) else
  let len := match last_char buf with
             | Some c => if Ascii.eqb c newline then (len - 1)%nat else len
             | None => len
             end in
  if Z.of_nat len >? IQS5XX_FW_FILE_LEN then pure (- ENAMETOOLONG) else
  let fw_file := cstring (substring 0 len buf) in
  error <- iqs5xx_fw_file_write fw_file ;;
  fw_file_store_finish input_reg count error.

(** ** Concrete platforms and images used in the examples below *)

Definition bytes_of_string (s : string) : list Z :=
  map (fun c => Z.of_N (N_of_ascii c)) (list_ascii_of_string s).

(** A bus that answers from a script, then with [dflt]. *)
Definition script_bus (script : list reply) (dflt : reply) : nat -> reply :=
  fun n => nth n script dflt.

Definition ack : reply := {| ret := 1; rx := [] |}.
Definition nak : reply := {| ret := -6; rx := [] |}.          (* -ENXIO *)
Definition rd1 (bytes : list Z) : reply := {| ret := 1; rx := bytes |}.
Definition rd2 (bytes : list Z) : reply := {| ret := 2; rx := bytes |}.

Definition no_props : touchscreen_properties :=
  {| max_x := 0; max_y := 0; invert_x := false; invert_y := false;
     swap_x_y := false |}.

(** A board at address 0x74 holding one firmware file, "fw.hex". *)
Definition board (b : nat -> reply) (fw : string) : platform :=
  {| client_addr := 0x74; bus := b; kzalloc_ok := true;
     firmware := fun name => if String.eqb name "fw.hex"
                             then Some (bytes_of_string fw) else None;
     input_alloc_ok := true; props := no_props;
     mt_init_slots_ret := 0; input_register_ret := 0 |}.

Definition boot (p : platform) (st : Z) (inp : bool) : world :=
  {| plat := p; nxfer := 0; trace := []; bl_status := st; input := inp |}.

(** The replies of a B000 device with current firmware to
    [iqs5xx_dev_init]: identity block, axis set-up, system configuration. *)
Definition normal_boot_replies : list reply :=
  [ rd2 [0; 40; 0; 15; 2; 0; 0xA5];
    rd2 [10]; rd2 [10]; rd2 [0]; ack;
    rd2 [3; 0]; rd2 [3; 0]; ack; ack;
    rd2 [0]; ack; ack; ack ].

Definition eof_only_image : string := ":00FFFF0101".

Definition demo_board : platform := board (script_bus [] ack) eof_only_image.

(** A file name of exactly 64 characters. *)
Definition name64 : string :=
  "0123456789abcdef0123456789abcdef0123456789abcdef0123456789abcdef".

(** An end-of-file record at the vendor's address 0xFFFF whose checksum
    byte (00) is not the one its bytes sum to (01). *)
Definition bad_eof_image : string := ":00FFFF0100".

(** A two-byte data record at 0xBFFF, the last address of the image, with
    its correct checksum, followed by the end-of-file record. *)
Definition overrun_image : string :=
  ":02BFFF00AABBDB" ++ String newline ":00FFFF0101".

(** A two-byte data record with a wrong checksum byte, at 0x8400 (the
    application region) and at 0xBE00 (the customization region). *)
Definition bad_app_image : string :=
  ":02840000AABB00" ++ String newline ":00FFFF0101".
Definition bad_cstm_image : string :=
  ":02BE0000AABB00" ++ String newline ":00FFFF0101".

(** The first record of each of these images, as [decode_record] reads it. *)
Definition bad_eof_rec : ihex_rec :=
  {| rec_hdr := [0; 0xFF; 0xFF; 1]; rec_len := 0; rec_addr := 0xFFFF;
     rec_type := 1; rec_data := []; rec_chksm := 0; rec_end := 11 |}.
Definition overrun_rec : ihex_rec :=
  {| rec_hdr := [2; 0xBF; 0xFF; 0]; rec_len := 2; rec_addr := 0xBFFF;
     rec_type := 0; rec_data := [0xAA; 0xBB]; rec_chksm := 0xDB;
     rec_end := 15 |}.
Definition bad_app_rec : ihex_rec :=
  {| rec_hdr := [2; 0x84; 0; 0]; rec_len := 2; rec_addr := 0x8400;
     rec_type := 0; rec_data := [0xAA; 0xBB]; rec_chksm := 0;
     rec_end := 15 |}.
Definition bad_cstm_rec : ihex_rec :=
  {| rec_hdr := [2; 0xBE; 0; 0]; rec_len := 2; rec_addr := 0xBE00;
     rec_type := 0; rec_data := [0xAA; 0xBB]; rec_chksm := 0;
     rec_end := 15 |}.

(** A flash in which the bootloader answers the liveness probe, takes all
    241 blocks and then reports a failed CRC; after the reset pulse the
    device comes up with its firmware and identifies itself. *)
Definition crc_fail_bus : nat -> reply :=
  script_bus ([ack; rd1 [2; 0]] ++ repeat ack 241 ++ [ack; rd1 [1]]
              ++ normal_boot_replies) nak.
Definition crc_fail_world : world :=
  boot (board crc_fail_bus eof_only_image) IQS5XX_BL_STATUS_AVAIL true.

(** A flash in which the very first block write is not acknowledged. *)
Definition write_fail_bus : nat -> reply :=
  script_bus ([ack; rd1 [2; 0]; nak] ++ normal_boot_replies) nak.
Definition write_fail_world : world :=
  boot (board write_fail_bus eof_only_image) IQS5XX_BL_STATUS_AVAIL true.

(** ** Vocabulary of the statements *)

(** The record [r] with another recorded checksum byte. *)
Definition with_chksm (r : ihex_rec) (c : Z) : ihex_rec :=
  {| rec_hdr := rec_hdr r; rec_len := rec_len r; rec_addr := rec_addr r;
     rec_type := rec_type r; rec_data := rec_data r; rec_chksm := c;
     rec_end := rec_end r |}.

(** A record the type switch lets through: end-of-file, or data at an
    address of the image. *)
Definition well_placed (r : ihex_rec) : Prop :=
  rec_type r = IQS5XX_REC_TYPE_EOF \/
  (rec_type r = IQS5XX_REC_TYPE_DATA /\
   IQS5XX_CHKSM <= rec_addr r <= IQS5XX_PMAP_END).

(** The number of times the reset line was asserted in a trace. *)
Fixpoint resets (tr : list event) : nat :=
  match tr with
  | [] => 0
  | EvGpio v :: tr' => if v =? 1 then S (resets tr') else resets tr'
  | _ :: tr' => resets tr'
  end.

(** A Version probe on the bus: the one-byte write of the opcode. *)
Definition is_ver_probe (e : event) : bool :=
  match e with
  | EvXfer [m] =>
      negb (msg_rd m) &&
      match msg_buf m with [c] => c =? IQS5XX_BL_CMD_VER | _ => false end
  | _ => false
  end.

Definition probes (tr : list event) : nat := length (filter is_ver_probe tr).

(** The adapter did not get the transfer through, and did not say
    [-EINVAL] either. *)
Definition silent (r : reply) : Prop := ret r <> 1 /\ ret r <> - EINVAL.

(** A Version answer that is not the bootloader ID 0x0200. *)
Definition wrong_id (r : reply) : Prop :=
  let mbuf := rx_bytes 2 r in
  get_be16 (nth 0 mbuf 0) (nth 1 mbuf 0) <> IQS5XX_BL_ID.

(** The flash address carried by a block-write message (a 66-byte write:
    two address bytes and a 64-byte block), and the addresses of all the
    block writes of a trace. *)
Definition block_write_addr (e : event) : option Z :=
  match e with
  | EvXfer [m] =>
      if negb (msg_rd m) && (msg_len m =? 66)
      then Some (get_be16 (nth 0 (msg_buf m) 0) (nth 1 (msg_buf m) 0))
      else None
  | _ => None
  end.

Definition block_addrs (tr : list event) : list Z :=
  flat_map (fun e => match block_write_addr e with
                     | Some a => [a]
                     | None => []
                     end) tr.

(** The world in which the flash steps start: buffer allocated, firmware
    requested and released, lock taken, interrupt line disabled, stored
    status set to reset/unknown. *)
Definition flash_entry (fw_file : string) (w : world) : world :=
  set_bl_status IQS5XX_BL_STATUS_RESET
    (emit EvDisableIrq (emit EvMutexLock (emit EvFwRelease
       (emit (EvFwRequest fw_file) (emit EvKzalloc w))))).

(** The world in which the identification sequence starts after the flash
    steps returned [error]: after a reset pulse and 10 ms if they failed. *)
Definition after_steps (error : Z) (w : world) : world :=
  if error =? 0 then w
  else emit (EvSleep 10000)
         (emit (EvGpio 0) (emit (EvSleep 200) (emit (EvGpio 1) w))).

(** The driver's own data and its platform are the same in two worlds. *)
Definition same_driver (w w' : world) : Prop :=
  plat w' = plat w /\ bl_status w' = bl_status w /\ input w' = input w.

(** ** The interrupt handler *)

Definition IQS5XX_ABS_X : Z := 0x0016.

(** [struct iqs5xx_touch_data]: seven bytes per contact. *)
Record iqs5xx_touch_data := {
  abs_x : Z;
  abs_y : Z;
  strength : Z;
  area : Z
}.

Definition touch_of_bytes (b : list Z) : iqs5xx_touch_data :=
  {| abs_x := get_be16 (nth 0 b 0) (nth 1 b 0);
     abs_y := get_be16 (nth 2 b 0) (nth 3 b 0);
     strength := get_be16 (nth 4 b 0) (nth 5 b 0);
     area := nth 6 b 0 |}.

(** What the handler reports for one slot: nothing but the release of the
    slot when the pressure is zero ([input_mt_report_slot_state] returns
    false), else position and pressure. *)
Definition slot_report (t : iqs5xx_touch_data) : option (Z * Z * Z) :=
  if negb (strength t =? 0) then Some (abs_x t, abs_y t, strength t)
  else None.

(** The loop over [touch_data[i]], [i < n]. *)
Fixpoint touch_slots (n : nat) (touch_data : list Z)
  : list (option (Z * Z * Z)) :=
  match n with
  | O => []
  | S n' => slot_report (touch_of_bytes (firstn 7 touch_data))
            :: touch_slots n' (skipn 7 touch_data)
  end.

(** [iqs5xx_irq]: the result is [IRQ_HANDLED] or not, together with the
    slots handed to the input core before the frame was synchronised. *)
Definition iqs5xx_irq : M (bool * list (option (Z * Z * Z))) :=
  st <- get bl_status ;;
  if st =? IQS5XX_BL_STATUS_RESET then pure (false, [])
  else
    ev <- iqs5xx_read_burst IQS5XX_ABS_X 35 ;;
    let '(error, touch_data) := ev in
    if negb (error =? 0) then pure (false, [])
    else
      let frame := touch_slots (Z.to_nat IQS5XX_NUM_CONTACTS) touch_data in
      error <- iqs5xx_write_byte IQS5XX_END_COMM 0 ;;
      if negb (error =? 0) then pure (false, frame)
      else usleep_range 50 ;;; pure (true, frame).

(** ** Vocabulary of the further statements *)

(** A computation keeps a relation [R] between the world it starts in and
    the world it ends in, on a client at bus address [a]. *)
Definition keeps {A} (a : Z) (R : world -> world -> Prop) (c : M A) : Prop :=
  forall w, client_addr (plat w) = a -> R w (snd (c w)).

(** [w'] continues [w] on the same platform with events of the class [P]. *)
Definition extends (P : event -> bool) (w w' : world) : Prop :=
  plat w' = plat w /\
  exists new, trace w' = new ++ trace w /\ forallb P new = true.

(** Classes of events. *)
Definition to_addr (a : Z) (e : event) : bool :=
  match e with
  | EvXfer msgs => forallb (fun m => msg_addr m =? a) msgs
  | _ => true
  end.

Definition is_gpio (e : event) : bool :=
  match e with EvGpio _ => true | _ => false end.

Definition bus_or_sleep (e : event) : bool :=
  match e with EvXfer _ | EvSleep _ => true | _ => false end.

(** Register traffic: transfers to the client's own address, and sleeps. *)
Definition reg_event (a : Z) (e : event) : bool :=
  bus_or_sleep e && to_addr a e.

(** Bootloader traffic: transfers to the address with the mask bit
    flipped, and sleeps. *)
Definition bl_event (a : Z) (e : event) : bool :=
  bus_or_sleep e && to_addr (Z.lxor a IQS5XX_BL_ADDR_MASK) e.

Definition bl_open_event (a : Z) (e : event) : bool :=
  is_gpio e || bl_event a e.

(** The Execute command on the bus. *)
Definition is_exec (e : event) : bool :=
  match e with
  | EvXfer [m] =>
      negb (msg_rd m) &&
      match msg_buf m with [c] => c =? IQS5XX_BL_CMD_EXEC | _ => false end
  | _ => false
  end.

Definition is_block_write (e : event) : bool :=
  match block_write_addr e with Some _ => true | None => false end.

Definition count (f : event -> bool) (tr : list event) : nat :=
  length (filter f tr).

(** Events of the driver's own bookkeeping: the lock, the interrupt line,
    the image buffer. *)
Definition is_lock (e : event) : bool :=
  match e with EvMutexLock => true | _ => false end.
Definition is_unlock (e : event) : bool :=
  match e with EvMutexUnlock => true | _ => false end.
Definition is_disable_irq (e : event) : bool :=
  match e with EvDisableIrq => true | _ => false end.
Definition is_enable_irq (e : event) : bool :=
  match e with EvEnableIrq => true | _ => false end.
Definition is_kzalloc (e : event) : bool :=
  match e with EvKzalloc => true | _ => false end.
Definition is_kfree (e : event) : bool :=
  match e with EvKfree => true | _ => false end.

Definition no_bookkeeping (e : event) : bool :=
  negb (is_lock e || is_unlock e || is_disable_irq e || is_enable_irq e
        || is_kzalloc e || is_kfree e).

(** The stored status is one of the three the driver knows. *)
Definition valid_status (st : Z) : Prop :=
  st = IQS5XX_BL_STATUS_RESET \/ st = IQS5XX_BL_STATUS_AVAIL \/
  st = IQS5XX_BL_STATUS_NONE.

(** The driver's invariant: a known status, and an input device whenever
    the status is not reset/unknown. *)
Definition driver_inv (w : world) : Prop :=
  valid_status (bl_status w) /\
  (bl_status w <> IQS5XX_BL_STATUS_RESET -> input w = true).

(** What bring-up may do to the driver's data: nothing to the status, or
    store one of the two identified statuses with the input device
    allocated; an allocated input device stays. *)
Definition settles (w w' : world) : Prop :=
  plat w' = plat w /\
  (input w = true -> input w' = true) /\
  (bl_status w' = bl_status w \/
   ((bl_status w' = IQS5XX_BL_STATUS_AVAIL \/
     bl_status w' = IQS5XX_BL_STATUS_NONE) /\ input w' = true)).

(** The identity block passes the checks of [iqs5xx_dev_init]. *)
Definition identity_ok (d : iqs5xx_dev_id_info) : Prop :=
  (prod_num d = IQS5XX_PROD_NUM_IQS550 \/
   prod_num d = IQS5XX_PROD_NUM_IQS572 \/
   prod_num d = IQS5XX_PROD_NUM_IQS525) /\
  proj_num d = IQS5XX_PROJ_NUM_B000 /\
  IQS5XX_MAJOR_VER_MIN <= major_ver d /\
  (id_bl_status d = IQS5XX_BL_STATUS_AVAIL \/
   id_bl_status d = IQS5XX_BL_STATUS_NONE).

(** A well-formed byte list. *)
Definition bytes_ok (l : list Z) : Prop := Forall (fun b => 0 <= b < 256) l.

Definition sum_bytes (l : list Z) : Z := fold_right Z.add 0 l.

(** A flash that goes through, on a device that was found in bootloader
    mode (status reset/unknown, no input device yet): liveness probe, 241
    blocks, CRC pass, the eight blocks of the customization region read
    back as written (all zero for [eof_only_image]), Execute, and a normal
    boot. *)
Definition flash_ok_bus : nat -> reply :=
  script_bus ([ack; rd1 [2; 0]] ++ repeat ack 241 ++ [ack; rd1 [0]]
              ++ concat (repeat [ack; rd1 []] 8) ++ [ack]
              ++ normal_boot_replies) nak.
Definition flash_ok_world : world :=
  boot (board flash_ok_bus eof_only_image) IQS5XX_BL_STATUS_RESET false.

Definition is_sleep (e : event) : bool :=
  match e with EvSleep _ => true | _ => false end.

(** On a platform satisfying [C], the computation returns a value
    satisfying [Q] (and stays on that platform). *)
Definition returns {A} (C : platform -> Prop) (Q : A -> Prop) (c : M A)
  : Prop :=
  forall w, C (plat w) -> Q (fst (c w)) /\ plat (snd (c w)) = plat w.

(** The kernel's convention for [int] results: 0 or a negative error. *)
Definition errno (e : Z) : Prop := e <= 0.

(** The input core keeps to the convention. *)
Definition input_core_ok (p : platform) : Prop :=
  errno (mt_init_slots_ret p) /\ errno (input_register_ret p).

(** The events of writing the [n] blocks of an image from offset [i] on,
    newest first: each block is one 66-byte message followed by 10 ms. *)
Fixpoint block_events (a bl_addr : Z) (pmap_data : mem) (i : Z) (n : nat)
  : list event :=
  match n with
  | O => []
  | S n' =>
      block_events a bl_addr pmap_data (i + 64) n'
      ++ [EvSleep 10000;
          EvXfer [bl_msg a false 66
                    (put_be16 (bl_addr + i) ++ mem_read pmap_data i 64)]]
  end.

(** The device reads back the [n] blocks from offset [i] on as they are in
    the image: for each block the Read command and the 64-byte read get
    through, and the bytes are the image's. *)
Definition readback_ok (p : platform) (n0 : nat) (pmap_data : mem) (i : Z)
    (n : nat) : Prop :=
  forall k, (k < n)%nat ->
    ret (bus p (n0 + 2 * k)) = 1 /\
    ret (bus p (n0 + 2 * k + 1)) = 1 /\
    rx_bytes 64 (bus p (n0 + 2 * k + 1))
      = mem_read pmap_data (i + 64 * Z.of_nat k) 64.

(** Bootloader traffic that neither writes a block nor executes. *)
Definition quiet_bl (e : event) : bool :=
  negb (is_exec e) && negb (is_block_write e).

(** What a slot may carry to the input core: a position and a non-zero
    pressure, each a 16-bit value. *)
Definition report_ok (s : option (Z * Z * Z)) : Prop :=
  match s with
  | Some (x, y, p) => 0 <= x < 65536 /\ 0 <= y < 65536 /\ 0 < p < 65536
  | None => True
  end.

(** One finger at (10, 20) with pressure 5 in the first of the five
    contacts, on an identified device. *)
Definition touch_world : world :=
  boot (board (script_bus [rd2 [0; 10; 0; 20; 0; 5; 1]; ack] nak)
          eof_only_image)
       IQS5XX_BL_STATUS_AVAIL true.

(** ** Vocabulary of the statements on whole runs *)

(** Where the loop of the parser stands after [n] records that were
    accepted and were not the end-of-file record, and the image it holds
    there; [None] when one of them is refused or ends the loop. *)
Fixpoint parse_reaches (n : nat) (data : list Z) (pos : nat) (pmap : mem)
  : option (nat * mem) :=
  match n with
  | O => Some (pos, pmap)
  | S n' =>
      match decode_record data pos with
      | inl _ => None
      | inr r =>
          match apply_record r pmap with
          | inl _ => None
          | inr pmap' =>
              if negb (rec_type r =? IQS5XX_REC_TYPE_EOF)
              then parse_reaches n' data
                     (skip_to_start (skipn (rec_end r) data) (rec_end r))
                     pmap'
              else None
          end
      end
  end.

(** The events of one reset pulse, of one unanswered Version probe and of
    one cycle of the open sequence in which no probe gets through, newest
    first. *)
Definition reset_pulse : list event := [EvGpio 0; EvSleep 200; EvGpio 1].

Definition probe_event (a : Z) : event :=
  EvXfer [bl_msg a false 1 [IQS5XX_BL_CMD_VER]].

Definition open_cycle (a : Z) : list event :=
  repeat (probe_event a) 10 ++ reset_pulse.

(** A block inside the flash region 0x83C0..0xBFFF. *)
Definition in_pmap (a : Z) : Prop :=
  IQS5XX_CHKSM <= a /\ a + IQS5XX_BL_BLK_LEN_MAX <= IQS5XX_PMAP_END + 1.

(** [w'] continues [w] on the same platform, and every block written on
    the way lies inside the flash region. *)
Definition blocks_in_pmap (w w' : world) : Prop :=
  plat w' = plat w /\
  exists new, trace w' = new ++ trace w /\ Forall in_pmap (block_addrs new).

Definition not_block (e : event) : bool := negb (is_block_write e).

(** The events of reading back [n] blocks from offset [i] on, newest
    first: for each block the Read command with the block's address, then
    the 64-byte read. *)
Definition read_cmd_event (a bl_addr i : Z) : event :=
  EvXfer [bl_msg a false 3
            (IQS5XX_BL_CMD_READ :: put_be16 (u16 (bl_addr + i)))].

Definition read_block_event (a : Z) : event := EvXfer [bl_msg a true 64 []].

Fixpoint verify_events (a bl_addr i : Z) (n : nat) : list event :=
  match n with
  | O => []
  | S n' =>
      verify_events a bl_addr (i + 64) n'
      ++ [read_block_event a; read_cmd_event a bl_addr i]
  end.

(** A data record in the customization region and one in the application
    region, each with a wrong checksum byte. *)
Definition lenient_then_bad_image : string :=
  ":02BE0000AABB00" ++ String newline ":02840000AABB00".

(** A board on which no transfer gets through. *)
Definition dead_world : world :=
  boot (board (script_bus [] nak) eof_only_image) IQS5XX_BL_STATUS_AVAIL true.

(** * Properties *)

(** ** Running out of fuel never decides a result *)

Lemma skip_to_start_ge (rest : list Z) (pos : nat) :
  (pos <= skip_to_start rest pos)%nat.
Proof.
  revert pos; induction rest as [|c rest IH]; intros pos; simpl.
  - lia.
  - destruct (c =? 58); [lia|]. specialize (IH (S pos)). lia.
Qed.

Lemma decode_record_end (data : list Z) (pos : nat) (r : ihex_rec) :
  decode_record data pos = inr r ->
  (pos + sizeof_rec <= rec_end r /\ rec_end r <= length data)%nat.
Proof.
  unfold decode_record.
  destruct (Nat.ltb_spec (length data) (pos + sizeof_rec)); [discriminate|].
  destruct (negb _); [discriminate|].
  destruct (hex2bin (skipn 1 _) _) as [hdr|]; [|discriminate].
  destruct (Nat.ltb_spec (length data)
              (pos + sizeof_rec + Z.to_nat (nth 0 hdr 0) * 2));
    [discriminate|].
  destruct (hex2bin (skipn 9 _) _); [|discriminate].
  destruct (hex2bin _ 1); [|discriminate].
  intros [= <-]; simpl. lia.
Qed.

(** The parser's loop always comes to a result within the fuel
    [iqs5xx_fw_file_parse] gives it. *)
Lemma parse_loop_total (fuel : nat) :
  forall data pos pmap,
    (length data - pos < fuel)%nat ->
    parse_loop fuel data pos pmap <> None.
Proof.
  induction fuel as [|fuel IH]; intros data pos pmap Hf; [lia|].
  simpl.
  destruct (decode_record data pos) as [e|r] eqn:Hd; [discriminate|].
  destruct (apply_record r pmap) as [e|pmap']; [discriminate|].
  destruct (negb _); [|discriminate].
  apply IH.
  pose proof (decode_record_end _ _ _ Hd) as [H1 H2].
  pose proof (skip_to_start_ge (skipn (rec_end r) data) (rec_end r)).
  unfold sizeof_rec in *. lia.
Qed.

Lemma parse_total (data : list Z) (pmap : mem) :
  exists res, parse_loop (S (length data)) data 0 pmap = Some res.
Proof.
  destruct (parse_loop (S (length data)) data 0 pmap) as [res|] eqn:E.
  - now exists res.
  - exfalso. revert E. apply parse_loop_total. lia.
Qed.

Lemma bl_write_loop_fuel (fuel extra : nat) :
  forall addr bl_addr pmap_data pmap_len i w,
    pmap_len <= i + 64 * Z.of_nat fuel ->
    bl_write_loop (fuel + extra) addr bl_addr pmap_data pmap_len i w =
    bl_write_loop fuel addr bl_addr pmap_data pmap_len i w.
Proof.
  induction fuel as [|fuel IH]; intros addr bl_addr pmap_data pmap_len i w Hi.
  - destruct extra; simpl; [reflexivity|].
    destruct (Z.ltb_spec i pmap_len); [lia|reflexivity].
  - simpl. destruct (Z.ltb_spec i pmap_len); [|reflexivity].
    unfold bind, i2c_transfer.
    destruct (negb _); [reflexivity|].
    unfold usleep_range, act. apply IH.
    unfold IQS5XX_BL_BLK_LEN_MAX. lia.
Qed.

Lemma bl_verify_loop_fuel (fuel extra : nat) :
  forall addr bl_addr pmap_data pmap_len i w,
    pmap_len <= i + 64 * Z.of_nat fuel ->
    bl_verify_loop (fuel + extra) addr bl_addr pmap_data pmap_len i w =
    bl_verify_loop fuel addr bl_addr pmap_data pmap_len i w.
Proof.
  induction fuel as [|fuel IH]; intros addr bl_addr pmap_data pmap_len i w Hi.
  - destruct extra; simpl; [reflexivity|].
    destruct (Z.ltb_spec i pmap_len); [lia|reflexivity].
  - simpl. destruct (Z.ltb_spec i pmap_len); [|reflexivity].
    unfold bind.
    destruct (iqs5xx_bl_cmd _ _ w) as [e w1].
    destruct (negb (e =? 0)); [reflexivity|].
    unfold i2c_transfer.
    destruct (negb (ret _ =? 1)); [reflexivity|].
    destruct (negb (block_eqb _ _)); [reflexivity|].
    apply IH. unfold IQS5XX_BL_BLK_LEN_MAX. lia.
Qed.

(** ** Guards that return before anything is done *)

(** C7: a length that is no multiple of the 64-byte block size makes the
    block-wise write and the read-back verify return [-EINVAL] at once; the
    world is the one they were given, so no bus write, respectively no bus
    read, took place. *)
Theorem bl_write_verify_length_guard (w : world) (bl_addr : Z) (pmap_data : mem)
    (pmap_len : Z) :
  pmap_len mod IQS5XX_BL_BLK_LEN_MAX <> 0 ->
  iqs5xx_bl_write bl_addr pmap_data pmap_len w = (- EINVAL, w) /\
  iqs5xx_bl_verify bl_addr pmap_data pmap_len w = (- EINVAL, w).
Proof.
  intros H. unfold iqs5xx_bl_write, iqs5xx_bl_verify.
  destruct (Z.eqb_spec (pmap_len mod IQS5XX_BL_BLK_LEN_MAX) 0) as [E|_];
    [contradiction|].
  split; reflexivity.
Qed.

Lemma bl_write_verify_length_guard_witness :
  iqs5xx_bl_write IQS5XX_CHKSM kzalloc_pmap (IQS5XX_PMAP_LEN - 1)
    (boot (board (script_bus [] ack) eof_only_image) 0 false)
  = (- EINVAL, boot (board (script_bus [] ack) eof_only_image) 0 false) /\
  iqs5xx_bl_verify IQS5XX_CSTM kzalloc_pmap (IQS5XX_CSTM_LEN - 1)
    (boot (board (script_bus [] ack) eof_only_image) 0 false)
  = (- EINVAL, boot (board (script_bus [] ack) eof_only_image) 0 false).
Proof.
  split.
  - apply (bl_write_verify_length_guard
             (boot (board (script_bus [] ack) eof_only_image) 0 false)
             IQS5XX_CHKSM kzalloc_pmap (IQS5XX_PMAP_LEN - 1)).
    vm_compute. discriminate.
  - apply (bl_write_verify_length_guard
             (boot (board (script_bus [] ack) eof_only_image) 0 false)
             IQS5XX_CSTM kzalloc_pmap (IQS5XX_CSTM_LEN - 1)).
    vm_compute. discriminate.
Defined.

(** C6: with the stored status saying that the device has no bootloader,
    the flash operation returns [-EPERM] and leaves the world as it was:
    no allocation, no firmware request, no parsing, no bus transfer. *)
Theorem fw_file_write_needs_bootloader (w : world) (fw_file : string) :
  bl_status w = IQS5XX_BL_STATUS_NONE ->
  iqs5xx_fw_file_write fw_file w = (- EPERM, w).
Proof.
  intros H. unfold iqs5xx_fw_file_write, bind, get. rewrite H. reflexivity.
Qed.

Lemma fw_file_write_needs_bootloader_witness :
  iqs5xx_fw_file_write "fw.hex"
    (boot (board (script_bus [] ack) eof_only_image) IQS5XX_BL_STATUS_NONE true)
  = (- EPERM,
     boot (board (script_bus [] ack) eof_only_image) IQS5XX_BL_STATUS_NONE true).
Proof.
  apply (fw_file_write_needs_bootloader
           (boot (board (script_bus [] ack) eof_only_image)
                 IQS5XX_BL_STATUS_NONE true) "fw.hex").
  reflexivity.
Defined.

(** ** The fw_file control: newline and length limit *)

Lemma length_app_newline (s : string) :
  String.length (s ++ String newline "") = S (String.length s).
Proof. induction s as [|c s IH]; simpl; [reflexivity|now rewrite IH]. Qed.

Lemma get_app_newline (s : string) :
  String.get (String.length s) (s ++ String newline "") = Some newline.
Proof. induction s as [|c s IH]; simpl; [reflexivity|exact IH]. Qed.

Lemma substring_app_prefix (s t : string) :
  substring 0 (String.length s) (s ++ t) = s.
Proof.
  induction s as [|c s IH]; simpl.
  - destruct t; reflexivity.
  - now rewrite IH.
Qed.

Lemma substring_all (s : string) : substring 0 (String.length s) s = s.
Proof.
  induction s as [|c s IH]; simpl; [reflexivity|now rewrite IH].
Qed.

Lemma last_char_app_newline (s : string) :
  last_char (s ++ String newline "") = Some newline.
Proof.
  unfold last_char. rewrite length_app_newline.
  replace (S (String.length s) - 1)%nat with (String.length s) by lia.
  apply get_app_newline.
Qed.

(** C10: the handler rejects a zero-length write with [-EINVAL] before it
    looks for a newline; it strips exactly one trailing newline and only
    then applies the 64-character limit.  So a buffer [s] followed by a
    newline starts a flash with the name [s] when [s] has at most 64
    characters (65 bytes written; a lone newline gives the empty name),
    and is refused with [-ENAMETOOLONG] when [s] is longer; a buffer of
    more than 64 bytes that does not end in a newline is refused with
    [-ENAMETOOLONG], a shorter one starts a flash under its own name. *)
Theorem fw_file_store_newline_then_limit (w : world) :
  fw_file_store "" w = (- EINVAL, w) /\
  (forall s, (String.length s <= 64)%nat ->
     fw_file_store (s ++ String newline "") w =
     (error <- iqs5xx_fw_file_write (cstring s) ;;
      fw_file_store_finish (negb (input w)) (S (String.length s)) error) w) /\
  (forall s, (64 < String.length s)%nat ->
     fw_file_store (s ++ String newline "") w = (- ENAMETOOLONG, w)) /\
  (forall buf, last_char buf <> Some newline ->
     (64 < String.length buf)%nat ->
     fw_file_store buf w = (- ENAMETOOLONG, w)) /\
  (forall buf, last_char buf <> Some newline ->
     (0 < String.length buf <= 64)%nat ->
     fw_file_store buf w =
     (error <- iqs5xx_fw_file_write (cstring buf) ;;
      fw_file_store_finish (negb (input w)) (String.length buf) error) w).
Proof.
  repeat split.
  - intros s Hs. unfold fw_file_store.
    rewrite last_char_app_newline, length_app_newline.
    unfold bind at 1, get. simpl Nat.eqb. cbv iota.
    rewrite Ascii.eqb_refl.
    replace (S (String.length s) - 1)%nat with (String.length s) by lia.
    destruct (Z.gtb_spec (Z.of_nat (String.length s)) IQS5XX_FW_FILE_LEN)
      as [G|_]; [unfold IQS5XX_FW_FILE_LEN in G; lia|].
    rewrite substring_app_prefix. reflexivity.
  - intros s Hs. unfold fw_file_store.
    rewrite last_char_app_newline, length_app_newline.
    unfold bind at 1, get. simpl Nat.eqb. cbv iota.
    rewrite Ascii.eqb_refl.
    replace (S (String.length s) - 1)%nat with (String.length s) by lia.
    destruct (Z.gtb_spec (Z.of_nat (String.length s)) IQS5XX_FW_FILE_LEN)
      as [_|G]; [reflexivity|unfold IQS5XX_FW_FILE_LEN in G; lia].
  - intros buf Hl Hn. unfold fw_file_store, bind at 1, get.
    destruct (Nat.eqb_spec (String.length buf) 0) as [E|_]; [lia|].
    assert (L : match last_char buf with
                | Some c => if Ascii.eqb c newline
                            then (String.length buf - 1)%nat
                            else String.length buf
                | None => String.length buf
                end = String.length buf).
    { destruct (last_char buf) as [c|]; [|reflexivity].
      destruct (Ascii.eqb_spec c newline) as [->|_];
        [now elim Hl|reflexivity]. }
    rewrite L.
    destruct (Z.gtb_spec (Z.of_nat (String.length buf)) IQS5XX_FW_FILE_LEN)
      as [_|G]; [reflexivity|unfold IQS5XX_FW_FILE_LEN in G; lia].
  - intros buf Hl Hn. unfold fw_file_store, bind at 1, get.
    destruct (Nat.eqb_spec (String.length buf) 0) as [E|_]; [lia|].
    assert (L : match last_char buf with
                | Some c => if Ascii.eqb c newline
                            then (String.length buf - 1)%nat
                            else String.length buf
                | None => String.length buf
                end = String.length buf).
    { destruct (last_char buf) as [c|]; [|reflexivity].
      destruct (Ascii.eqb_spec c newline) as [->|_];
        [now elim Hl|reflexivity]. }
    rewrite L.
    destruct (Z.gtb_spec (Z.of_nat (String.length buf)) IQS5XX_FW_FILE_LEN)
      as [G|_]; [unfold IQS5XX_FW_FILE_LEN in G; lia|].
    rewrite substring_all. reflexivity.
Qed.

Lemma fw_file_store_newline_then_limit_witness :
  fw_file_store (String newline "") (boot demo_board 0 false) =
    (error <- iqs5xx_fw_file_write "" ;;
     fw_file_store_finish true 1 error) (boot demo_board 0 false) /\
  fw_file_store (name64 ++ String newline "") (boot demo_board 0 false) =
    (error <- iqs5xx_fw_file_write name64 ;;
     fw_file_store_finish true 65 error) (boot demo_board 0 false) /\
  fw_file_store (name64 ++ String newline (String newline ""))
    (boot demo_board 0 false) = (- ENAMETOOLONG, boot demo_board 0 false) /\
  fw_file_store (name64 ++ "x") (boot demo_board 0 false) =
    (- ENAMETOOLONG, boot demo_board 0 false) /\
  fw_file_store "fw.hex" (boot demo_board 0 false) =
    (error <- iqs5xx_fw_file_write "fw.hex" ;;
     fw_file_store_finish true 6 error) (boot demo_board 0 false).
Proof.
  destruct (fw_file_store_newline_then_limit (boot demo_board 0 false))
    as (_ & H1 & H2 & H3 & H4).
  split; [apply (H1 ""%string); simpl; lia|].
  split; [apply (H1 name64); simpl; lia|].
  split; [apply (H2 (name64 ++ String newline "")%string); simpl; lia|].
  split; [apply (H3 (name64 ++ "x")%string);
          [vm_compute; discriminate|simpl; lia]|].
  apply (H4 "fw.hex"%string); [vm_compute; discriminate|simpl; lia].
Defined.

(** ** The parser: checksum leniency *)

(** C2, as stated, fails on the end-of-file record the vendor's tool
    writes at address 0xFFFF: the address lies outside 0xBE00..0xBFFF, the
    recorded checksum is wrong, and the parse succeeds. *)
Lemma checksum_mismatch_accepted_at_ffff :
  decode_record (bytes_of_string bad_eof_image) 0 = inr bad_eof_rec /\
  rec_checksum (rec_hdr bad_eof_rec) (rec_data bad_eof_rec)
    <> rec_chksm bad_eof_rec /\
  ~ (IQS5XX_CSTM <= rec_addr bad_eof_rec <= IQS5XX_PMAP_END) /\
  apply_record bad_eof_rec kzalloc_pmap = inr kzalloc_pmap /\
  fst (fst (iqs5xx_fw_file_parse "fw.hex" kzalloc_pmap
              (boot (board (script_bus [] ack) bad_eof_image) 0 false))) = 0.
Proof.
  split; [vm_compute; reflexivity|].
  split; [vm_compute; discriminate|].
  split; [intros [_ H]; vm_compute in H; apply H; reflexivity|].
  split; [reflexivity|vm_compute; reflexivity].
Qed.

(** ** The parser: where a data record is copied *)

(** What an accepted record changes in the image memory lies between its
    offset and its offset plus its payload length. *)
Lemma apply_record_frame (r : ihex_rec) (pmap pmap' : mem) (k : Z) :
  apply_record r pmap = inr pmap' ->
  pmap' k <> pmap k ->
  rec_type r = IQS5XX_REC_TYPE_DATA /\
  IQS5XX_CHKSM <= rec_addr r <= IQS5XX_PMAP_END /\
  rec_addr r - IQS5XX_CHKSM <= k
    < rec_addr r - IQS5XX_CHKSM + Z.of_nat (length (rec_data r)).
Proof.
  unfold apply_record.
  destruct (negb _ && _); [discriminate|].
  destruct (Z.eqb_spec (rec_type r) IQS5XX_REC_TYPE_DATA) as [Ht|_].
  - destruct (Z.ltb_spec (rec_addr r) IQS5XX_CHKSM); [discriminate|].
    destruct (Z.gtb_spec (rec_addr r) IQS5XX_PMAP_END); [discriminate|].
    simpl. intros [= <-]. unfold memcpy.
    destruct (Z.leb_spec (rec_addr r - IQS5XX_CHKSM) k);
      destruct (Z.ltb_spec k (rec_addr r - IQS5XX_CHKSM
                              + Z.of_nat (length (rec_data r))));
      simpl; intros Hk; try (now elim Hk).
    repeat split; lia.
  - destruct (rec_type r =? IQS5XX_REC_TYPE_EOF); [|discriminate].
    intros [= <-] Hk. now elim Hk.
Qed.

(** C8 does not hold of the code: the address of a data record is checked
    against 0x83C0..0xBFFF, its length is not.  The two-byte record at
    0xBFFF of [overrun_image] is accepted (type data, address in range,
    checksum right, length 2 of at most 255) and the parse returns 0; its
    second byte lands at offset [IQS5XX_PMAP_LEN], one past the last byte
    of the buffer, which [kzalloc] had not handed out. *)
Theorem data_record_copy_overruns_pmap :
  decode_record (bytes_of_string overrun_image) 0 = inr overrun_rec /\
  rec_type overrun_rec = IQS5XX_REC_TYPE_DATA /\
  IQS5XX_CHKSM <= rec_addr overrun_rec <= IQS5XX_PMAP_END /\
  rec_len overrun_rec <= IQS5XX_REC_LEN_MAX /\
  rec_checksum (rec_hdr overrun_rec) (rec_data overrun_rec)
    = rec_chksm overrun_rec /\
  (let res := fst (iqs5xx_fw_file_parse "fw.hex" kzalloc_pmap
                     (boot (board (script_bus [] ack) overrun_image) 0 false))
   in fst res = 0 /\
      snd res (IQS5XX_PMAP_LEN - 1) = 0xAA /\
      snd res IQS5XX_PMAP_LEN = 0xBB /\
      snd res IQS5XX_PMAP_LEN <> kzalloc_pmap IQS5XX_PMAP_LEN).
Proof.
  split; [vm_compute; reflexivity|].
  split; [reflexivity|].
  split; [split; vm_compute; discriminate|].
  split; [vm_compute; discriminate|].
  split; [vm_compute; reflexivity|].
  cbv zeta.
  split; [vm_compute; reflexivity|].
  split; [vm_compute; reflexivity|].
  split; [vm_compute; reflexivity|vm_compute; discriminate].
Qed.

(** ** Bootloader open *)

Lemma msg_fail_silent (r : reply) :
  silent r -> (msg_fail (ret r) =? 0) || (msg_fail (ret r) =? - EINVAL) = false.
Proof.
  intros [H1 H2]. unfold msg_fail.
  destruct (Z.geb_spec (ret r) 0).
  - reflexivity.
  - destruct (Z.eqb_spec (ret r) 0); [lia|].
    destruct (Z.eqb_spec (ret r) (- EINVAL)); [contradiction|reflexivity].
Qed.

(** A Version probe the bus does not get through: one transfer, the
    [msg_fail] error. *)
Lemma bl_cmd_ver_no_answer (w : world) :
  ret (bus (plat w) (nxfer w)) <> 1 ->
  iqs5xx_bl_cmd IQS5XX_BL_CMD_VER 0 w =
  (msg_fail (ret (bus (plat w) (nxfer w))),
   {| plat := plat w; nxfer := S (nxfer w);
      trace := EvXfer [bl_msg (client_addr (plat w)) false 1 [0]] :: trace w;
      bl_status := bl_status w; input := input w |}).
Proof.
  intros H. unfold iqs5xx_bl_cmd, bind, get, i2c_transfer. simpl.
  destruct (Z.eqb_spec (ret (bus (plat w) (nxfer w))) 1); [contradiction|].
  reflexivity.
Qed.

(** A Version probe answered with another ID than 0x0200: two transfers,
    [-EINVAL]. *)
Lemma bl_cmd_ver_wrong_id (w : world) :
  ret (bus (plat w) (nxfer w)) = 1 ->
  ret (bus (plat w) (S (nxfer w))) = 1 ->
  (let mbuf := rx_bytes 2 (bus (plat w) (S (nxfer w))) in
   get_be16 (nth 0 mbuf 0) (nth 1 mbuf 0) <> IQS5XX_BL_ID) ->
  iqs5xx_bl_cmd IQS5XX_BL_CMD_VER 0 w =
  (- EINVAL,
   {| plat := plat w; nxfer := S (S (nxfer w));
      trace := EvXfer [bl_msg (client_addr (plat w)) true 2 []]
               :: EvXfer [bl_msg (client_addr (plat w)) false 1 [0]]
               :: trace w;
      bl_status := bl_status w; input := input w |}).
Proof.
  intros H1 H2 H3. unfold iqs5xx_bl_cmd, bind, get, i2c_transfer. simpl.
  rewrite H1. simpl. rewrite H2. simpl.
  cbv zeta in H3.
  destruct (Z.eqb_spec
              (get_be16 (nth 0 (rx_bytes 2 (bus (plat w) (S (nxfer w)))) 0)
                        (nth 1 (rx_bytes 2 (bus (plat w) (S (nxfer w)))) 0))
              IQS5XX_BL_ID); [contradiction|].
  reflexivity.
Qed.

Lemma bl_open_probe_silent (j : nat) :
  forall w last,
    (forall n, (nxfer w <= n < nxfer w + j)%nat -> silent (bus (plat w) n)) ->
    exists w',
      bl_open_probe j last w =
        (inl (match j with
              | O => last
              | S j' => msg_fail (ret (bus (plat w) (nxfer w + j')))
              end), w') /\
      same_driver w w' /\
      nxfer w' = (nxfer w + j)%nat /\
      resets (trace w') = resets (trace w) /\
      probes (trace w') = (probes (trace w) + j)%nat.
Proof.
  induction j as [|j IH]; intros w last Hs.
  - exists w. simpl. unfold pure, same_driver. repeat split; lia.
  - assert (S0 : silent (bus (plat w) (nxfer w))) by (apply Hs; lia).
    cbn [bl_open_probe]. unfold bind at 1.
    rewrite (bl_cmd_ver_no_answer w (proj1 S0)).
    rewrite (msg_fail_silent _ S0).
    set (w1 := {| plat := plat w; nxfer := S (nxfer w);
                  trace := EvXfer [bl_msg (client_addr (plat w)) false 1 [0]]
                           :: trace w;
                  bl_status := bl_status w; input := input w |}).
    destruct (IH w1 (msg_fail (ret (bus (plat w) (nxfer w)))))
      as (w' & E & (Hp & Hb & Hi) & Hn & Hr & Hq).
    { intros n Hn. apply Hs. simpl in Hn. lia. }
    assert (F1 : plat w1 = plat w) by reflexivity.
    assert (F2 : nxfer w1 = S (nxfer w)) by reflexivity.
    assert (F3 : resets (trace w1) = resets (trace w)) by reflexivity.
    assert (F4 : probes (trace w1) = S (probes (trace w))) by reflexivity.
    assert (F5 : bl_status w1 = bl_status w) by reflexivity.
    assert (F6 : input w1 = input w) by reflexivity.
    clearbody w1.
    exists w'. rewrite E.
    split; [|split; [|split; [|split]]].
    + do 2 f_equal. destruct j as [|j'].
      * now rewrite Nat.add_0_r.
      * rewrite F1, F2. do 3 f_equal. lia.
    + unfold same_driver. rewrite Hp, Hb, Hi. auto.
    + lia.
    + lia.
    + lia.
Qed.

Lemma iqs5xx_reset_eq (w : world) :
  iqs5xx_reset w =
  (tt, emit (EvGpio 0) (emit (EvSleep 200) (emit (EvGpio 1) w))).
Proof. reflexivity. Qed.

Lemma bl_open_attempt_silent (i : nat) :
  forall w last,
    (forall n, (nxfer w <= n < nxfer w + i * 10)%nat ->
               silent (bus (plat w) n)) ->
    exists w',
      bl_open_attempt i last w =
        (match i with
         | O => last
         | S _ => msg_fail (ret (bus (plat w) (nxfer w + i * 10 - 1)))
         end, w') /\
      same_driver w w' /\
      nxfer w' = (nxfer w + i * 10)%nat /\
      resets (trace w') = (resets (trace w) + i)%nat /\
      probes (trace w') = (probes (trace w) + i * 10)%nat.
Proof.
  induction i as [|i IH]; intros w last Hs.
  - exists w. cbn [bl_open_attempt]. unfold pure, same_driver.
    repeat split; lia.
  - cbn [bl_open_attempt]. unfold bind at 1. rewrite iqs5xx_reset_eq.
    set (w0 := emit (EvGpio 0) (emit (EvSleep 200) (emit (EvGpio 1) w))).
    assert (F1 : plat w0 = plat w) by reflexivity.
    assert (F2 : nxfer w0 = nxfer w) by reflexivity.
    assert (F3 : resets (trace w0) = S (resets (trace w))) by reflexivity.
    assert (F4 : probes (trace w0) = probes (trace w)) by reflexivity.
    assert (F5 : bl_status w0 = bl_status w) by reflexivity.
    assert (F6 : input w0 = input w) by reflexivity.
    clearbody w0.
    pose proof (bl_open_probe_silent 10 w0 last) as P. cbv iota in P.
    destruct P as (w1 & E & (Hp & Hb & Hi) & Hn & Hr & Hq).
    { intros n Hn. rewrite F1. apply Hs. lia. }
    unfold bind at 1. change IQS5XX_NUM_RETRIES with 10%nat. rewrite E.
    destruct (IH w1 (msg_fail (ret (bus (plat w0) (nxfer w0 + 9)))))
      as (w' & E' & (Hp' & Hb' & Hi') & Hn' & Hr' & Hq').
    { intros n Hn0. rewrite Hp, F1. apply Hs. lia. }
    exists w'. rewrite E'.
    split; [|split; [|split; [|split]]].
    + f_equal. destruct i as [|i'].
      * rewrite F1, F2. do 3 f_equal. lia.
      * rewrite Hp, Hn, F1, F2. do 3 f_equal. lia.
    + unfold same_driver. rewrite Hp', Hb', Hi', Hp, Hb, Hi. auto.
    + lia.
    + lia.
    + lia.
Qed.


(** ** Block writes *)

Lemma get_put_be16 (v : Z) :
  0 <= v < 65536 ->
  get_be16 (nth 0 (put_be16 v) 0) (nth 1 (put_be16 v) 0) = v.
Proof.
  intros Hv. unfold put_be16, get_be16, u8, u16. cbn [nth].
  rewrite (Z.mod_small v 65536) by lia.
  rewrite Z.shiftr_div_pow2 by lia.
  rewrite Z.shiftl_mul_pow2 by lia.
  change (2 ^ 8) with 256.
  assert (Hq : 0 <= v / 256 < 256).
  { split; [apply Z.div_pos; lia|apply Z.div_lt_upper_bound; lia]. }
  rewrite !(Z.mod_small (v / 256) 256) by lia.
  rewrite (Z.mod_small (v mod 256) 256) by (apply Z.mod_pos_bound; lia).
  rewrite <- Z.lxor_lor, <- Z.add_nocarry_lxor.
  - rewrite Z.mul_comm. symmetry. apply Z.div_mod. lia.
  - apply Z.bits_inj'. intros n Hn. rewrite Z.land_spec, Z.bits_0.
    change 256 with (2 ^ 8).
    destruct (Z.lt_ge_cases n 8).
    + rewrite Z.mul_pow2_bits_low by lia. reflexivity.
    + rewrite Z.mod_pow2_bits_high by lia. apply andb_false_r.
  - apply Z.bits_inj'. intros n Hn. rewrite Z.land_spec, Z.bits_0.
    change 256 with (2 ^ 8).
    destruct (Z.lt_ge_cases n 8).
    + rewrite Z.mul_pow2_bits_low by lia. reflexivity.
    + rewrite Z.mod_pow2_bits_high by lia. apply andb_false_r.
Qed.

Lemma block_addrs_app (a b : list event) :
  block_addrs (a ++ b) = block_addrs a ++ block_addrs b.
Proof. unfold block_addrs. apply flat_map_app. Qed.

(** Every block the loop writes starts at [bl_addr + i'] for an [i'] of the
    loop, and ends inside [bl_addr .. bl_addr + pmap_len]. *)
Lemma bl_write_loop_addrs (fuel : nat) :
  forall addr bl_addr pmap_data pmap_len i w,
    0 <= bl_addr -> bl_addr + pmap_len <= 65536 ->
    0 <= i -> i mod 64 = 0 -> pmap_len mod 64 = 0 ->
    exists new,
      trace (snd (bl_write_loop fuel addr bl_addr pmap_data pmap_len i w))
        = new ++ trace w /\
      Forall (fun a => bl_addr + i <= a /\ a + 64 <= bl_addr + pmap_len)
             (block_addrs new).
Proof.
  induction fuel as [|fuel IH];
    intros addr bl_addr pmap_data pmap_len i w Hb Hl Hi Hm Hlm.
  - exists []. split; [reflexivity|constructor].
  - cbn [bl_write_loop].
    destruct (Z.ltb_spec i pmap_len) as [Hlt|_];
      [|exists []; split; [reflexivity|constructor]].
    assert (Hstep : i + 64 <= pmap_len).
    { pose proof (Z.div_mod i 64 ltac:(lia)) as Di.
      pose proof (Z.div_mod pmap_len 64 ltac:(lia)) as Dl.
      rewrite Hm in Di. rewrite Hlm in Dl. lia. }
    set (ev := EvXfer [bl_msg addr false 66
                         (put_be16 (bl_addr + i) ++ mem_read pmap_data i 64)]).
    assert (Hev : block_addrs [ev] = [bl_addr + i]).
    { unfold block_addrs, ev. cbn [flat_map block_write_addr bl_msg msg_rd
                                   msg_len msg_buf negb andb Z.eqb Pos.eqb app].
      change (nth 0 (put_be16 (bl_addr + i) ++ mem_read pmap_data i 64) 0)
        with (nth 0 (put_be16 (bl_addr + i)) 0).
      change (nth 1 (put_be16 (bl_addr + i) ++ mem_read pmap_data i 64) 0)
        with (nth 1 (put_be16 (bl_addr + i)) 0).
      rewrite get_put_be16 by lia. reflexivity. }
    unfold bind at 1, i2c_transfer. fold ev.
    destruct (negb (ret (bus (plat w) (nxfer w)) =? 1)).
    + exists [ev]. split; [reflexivity|].
      rewrite Hev. constructor; [lia|constructor].
    + unfold bind at 1, usleep_range, act, emit. cbn [plat nxfer trace bl_status input].
      match goal with
      | |- context [bl_write_loop fuel addr bl_addr pmap_data pmap_len ?j ?w1] =>
          destruct (IH addr bl_addr pmap_data pmap_len j w1)
            as (new & Et & Hf)
      end; try assumption; try (unfold IQS5XX_BL_BLK_LEN_MAX; lia).
      { unfold IQS5XX_BL_BLK_LEN_MAX.
        rewrite <- Zplus_mod_idemp_l, Hm. reflexivity. }
      exists (new ++ [EvSleep 10000; ev]). split.
      * rewrite Et. cbn [trace]. rewrite <- app_assoc. reflexivity.
      * rewrite block_addrs_app.
        change [EvSleep 10000; ev] with ([EvSleep 10000] ++ [ev]).
        rewrite block_addrs_app, Hev. cbn [block_addrs flat_map block_write_addr app].
        apply Forall_app. split.
        -- eapply Forall_impl; [|exact Hf]. cbv beta.
           unfold IQS5XX_BL_BLK_LEN_MAX. intros a Ha. lia.
        -- constructor; [lia|constructor].
Qed.

Lemma bl_write_loop_nxfer (fuel : nat) :
  forall addr bl_addr pmap_data pmap_len i w,
    (nxfer w <=
     nxfer (snd (bl_write_loop fuel addr bl_addr pmap_data pmap_len i w)))%nat.
Proof.
  induction fuel as [|fuel IH]; intros addr bl_addr pmap_data pmap_len i w.
  - simpl. lia.
  - cbn [bl_write_loop]. destruct (i <? pmap_len); [|simpl; lia].
    unfold bind at 1, i2c_transfer.
    destruct (negb _); [simpl; lia|].
    unfold bind at 1, usleep_range, act, emit.
    cbn [plat nxfer trace bl_status input].
    match goal with
    | |- context [bl_write_loop fuel addr bl_addr pmap_data pmap_len ?j ?w1] =>
        pose proof (IH addr bl_addr pmap_data pmap_len j w1) as H
    end.
    cbn [nxfer] in H. lia.
Qed.

(** ** The flash operation *)

(** From [err_reset] on: the identification sequence is run, after a reset
    pulse and a 10 ms wait if a step had failed, and its result is turned
    into [-EINVAL] when it is 0 with the status still reset/unknown. *)
Lemma flash_resync_runs_dev_init (error : Z) (w : world) :
  flash_resync error w =
    (let (e1, w2) := iqs5xx_dev_init (after_steps error w) in
     (if (e1 =? 0) && (bl_status w2 =? IQS5XX_BL_STATUS_RESET)
      then - EINVAL else e1,
      emit EvMutexUnlock (emit EvEnableIrq w2))).
Proof.
  unfold flash_resync, after_steps. unfold bind at 1.
  destruct (error =? 0); cbn [negb].
  - unfold pure at 1. unfold bind at 1.
    destruct (iqs5xx_dev_init w) as [e1 w2]. reflexivity.
  - unfold bind at 1. rewrite iqs5xx_reset_eq.
    unfold usleep_range at 1, act at 1. unfold bind at 1.
    destruct (iqs5xx_dev_init _) as [e1 w2]. reflexivity.
Qed.

(** C4, as stated, fails for the calls that stop before the flash steps:
    with the stored status reset/unknown and a firmware name the platform
    does not hold, the flash returns [-ENOENT] after the allocation and
    the firmware request; no bus transfer is made, so the device is not
    identified again, and the stored status is still reset/unknown. *)
Lemma flash_parse_failure_skips_dev_init :
  let r := iqs5xx_fw_file_write "missing.hex"
             (boot demo_board IQS5XX_BL_STATUS_RESET false) in
  fst r = - ENOENT /\
  nxfer (snd r) = 0%nat /\
  trace (snd r) = [EvKfree; EvFwRequest "missing.hex"; EvKzalloc] /\
  bl_status (snd r) = IQS5XX_BL_STATUS_RESET.
Proof.
  cbv zeta. repeat split; vm_compute; reflexivity.
Qed.

(** C1 does not hold of the code: [error] is overwritten at
    [error = iqs5xx_dev_init(client)].  In [crc_fail_world] the steps stop
    at the CRC command with [-EIO]; in [write_fail_world] they stop at the
    first block write with the bus error -6.  Each time the reset pulse
    brings the device back with its firmware, the identification succeeds
    and stores the status 0xA5, and the flash operation returns 0. *)
Theorem flash_step_error_overwritten :
  fst (flash_steps kzalloc_pmap
         (set_bl_status IQS5XX_BL_STATUS_RESET crc_fail_world)) = - EIO /\
  nxfer (snd (flash_steps kzalloc_pmap
                (set_bl_status IQS5XX_BL_STATUS_RESET crc_fail_world)))
    = 245%nat /\
  fst (iqs5xx_fw_file_write "fw.hex" crc_fail_world) = 0 /\
  bl_status (snd (iqs5xx_fw_file_write "fw.hex" crc_fail_world))
    = IQS5XX_BL_STATUS_AVAIL /\
  fst (flash_steps kzalloc_pmap
         (set_bl_status IQS5XX_BL_STATUS_RESET write_fail_world)) = -6 /\
  fst (iqs5xx_fw_file_write "fw.hex" write_fail_world) = 0 /\
  resets (trace (snd (iqs5xx_fw_file_write "fw.hex" write_fail_world)))
    = 1%nat.
Proof.
  repeat split; vm_compute; reflexivity.
Qed.

(** * Further properties of the driver *)

(** ** Relations kept by every step *)

Section Keeps.
Variable a : Z.
Variable R : world -> world -> Prop.
Hypothesis R_refl : forall w, R w w.
Hypothesis R_trans : forall w1 w2 w3, R w1 w2 -> R w2 w3 -> R w1 w3.
Hypothesis R_plat : forall w w', R w w' -> plat w' = plat w.

Lemma keeps_pure {A} (x : A) : keeps a R (pure x).
Proof. intros w _. apply R_refl. Qed.

Lemma keeps_get {A} (f : world -> A) : keeps a R (get f).
Proof. intros w _. apply R_refl. Qed.

Lemma keeps_bind {A B} (c : M A) (k : A -> M B) :
  keeps a R c -> (forall x, keeps a R (k x)) -> keeps a R (bind c k).
Proof.
  intros Hc Hk w Ha. unfold bind.
  specialize (Hc w Ha). destruct (c w) as [x w1]. simpl in Hc.
  apply (R_trans _ _ _ Hc). apply Hk.
  now rewrite (R_plat _ _ Hc).
Qed.

(** The address a function reads from the client is [a]. *)
Lemma keeps_addr {A} (k : Z -> M A) :
  keeps a R (k a) ->
  keeps a R (bind (get (fun w => client_addr (plat w))) k).
Proof. intros Hk w Ha. unfold bind, get. rewrite Ha. now apply Hk. Qed.
End Keeps.

Lemma same_driver_refl (w : world) : same_driver w w.
Proof. unfold same_driver. auto. Qed.

Lemma same_driver_trans (w1 w2 w3 : world) :
  same_driver w1 w2 -> same_driver w2 w3 -> same_driver w1 w3.
Proof.
  unfold same_driver. intros (A1 & B1 & C1) (A2 & B2 & C2).
  rewrite A2, B2, C2. auto.
Qed.

Lemma same_driver_plat (w w' : world) : same_driver w w' -> plat w' = plat w.
Proof. now intros (H & _). Qed.

Lemma extends_refl (P : event -> bool) (w : world) : extends P w w.
Proof. split; [reflexivity|]. exists []. split; reflexivity. Qed.

Lemma extends_trans (P : event -> bool) (w1 w2 w3 : world) :
  extends P w1 w2 -> extends P w2 w3 -> extends P w1 w3.
Proof.
  intros (A1 & n1 & T1 & F1) (A2 & n2 & T2 & F2).
  split; [congruence|]. exists (n2 ++ n1). split.
  - rewrite T2, T1. apply app_assoc.
  - rewrite forallb_app, F1, F2. reflexivity.
Qed.

Lemma extends_plat (P : event -> bool) (w w' : world) :
  extends P w w' -> plat w' = plat w.
Proof. now intros (H & _). Qed.

Lemma extends_weaken (P Q : event -> bool) (w w' : world) :
  (forall e, P e = true -> Q e = true) -> extends P w w' -> extends Q w w'.
Proof.
  intros HPQ (A1 & n1 & T1 & F1). split; [assumption|].
  exists n1. split; [assumption|].
  rewrite forallb_forall in *. auto.
Qed.

Lemma settles_refl (w : world) : settles w w.
Proof. unfold settles. auto. Qed.

Lemma settles_trans (w1 w2 w3 : world) :
  settles w1 w2 -> settles w2 w3 -> settles w1 w3.
Proof.
  unfold settles. intros (A1 & I1 & S1) (A2 & I2 & S2).
  split; [congruence|]. split; [auto|].
  destruct S2 as [E2|[V2 J2]].
  - rewrite E2. destruct S1 as [E1|[V1 J1]]; [now left|right; auto].
  - right. auto.
Qed.

Lemma settles_plat (w w' : world) : settles w w' -> plat w' = plat w.
Proof. now intros (H & _). Qed.

Lemma same_driver_settles (w w' : world) : same_driver w w' -> settles w w'.
Proof.
  unfold same_driver, settles. intros (A1 & B1 & C1).
  rewrite C1. auto.
Qed.

Create HintDb keeps.
#[local] Hint Resolve same_driver_refl same_driver_trans same_driver_plat
  extends_refl extends_trans extends_plat
  settles_refl settles_trans settles_plat : keeps.

(** The events of the model. *)
Lemma keeps_same_act (a : Z) (e : event) : keeps a same_driver (act e).
Proof. intros w _. unfold same_driver. simpl. auto. Qed.

Lemma keeps_same_xfer (a : Z) (msgs : list i2c_msg) :
  keeps a same_driver (i2c_transfer msgs).
Proof. intros w _. unfold same_driver. simpl. auto. Qed.

Lemma keeps_ext_act (a : Z) (P : event -> bool) (e : event) :
  P e = true -> keeps a (extends P) (act e).
Proof.
  intros H w _. split; [reflexivity|]. exists [e]. simpl.
  now rewrite H.
Qed.

Lemma keeps_ext_xfer (a : Z) (P : event -> bool) (msgs : list i2c_msg) :
  P (EvXfer msgs) = true -> keeps a (extends P) (i2c_transfer msgs).
Proof.
  intros H w _. split; [reflexivity|]. exists [EvXfer msgs]. simpl.
  now rewrite H.
Qed.

(** One step through the code of a function. *)
Ltac keeps_step :=
  match goal with
  | |- keeps _ _ (bind (get (fun w => client_addr (plat w))) _) =>
      apply keeps_addr; cbv beta
  | |- keeps _ _ (bind _ _) =>
      apply keeps_bind; [solve [eauto with keeps]..| |intros ?]
  | |- keeps _ _ (pure _) => apply keeps_pure; solve [eauto with keeps]
  | |- keeps _ _ (get _) => apply keeps_get; solve [eauto with keeps]
  | |- keeps _ same_driver (act _) => apply keeps_same_act
  | |- keeps _ same_driver (i2c_transfer _) => apply keeps_same_xfer
  | |- keeps _ same_driver (usleep_range _) => apply keeps_same_act
  | |- keeps _ same_driver (msleep _) => apply keeps_same_act
  | |- keeps _ (extends _) (act _) =>
      apply keeps_ext_act; cbn; rewrite ?Z.eqb_refl; reflexivity
  | |- keeps _ (extends _) (usleep_range _) =>
      apply keeps_ext_act; reflexivity
  | |- keeps _ (extends _) (msleep _) =>
      apply keeps_ext_act; reflexivity
  | |- keeps _ (extends _) (i2c_transfer _) =>
      apply keeps_ext_xfer; cbn; rewrite ?Z.eqb_refl; reflexivity
  | |- keeps _ _ (if ?b then _ else _) => destruct b
  | |- keeps _ _ (match ?x with _ => _ end) => destruct x
  | |- keeps _ _ _ => solve [eauto with keeps]
  end.

Ltac keeps_auto := repeat keeps_step.

Lemma keeps_weaken {A} (a : Z) (R R' : world -> world -> Prop) (c : M A) :
  (forall w w', R w w' -> R' w w') -> keeps a R c -> keeps a R' c.
Proof. intros H Hc w Ha. apply H. now apply Hc. Qed.

(** *** The driver's data: untouched by bus and bootloader functions *)

Lemma read_burst_loop_same (a : Z) (n : nat) :
  forall msgs len last, keeps a same_driver (read_burst_loop n msgs len last).
Proof. induction n; intros; cbn [read_burst_loop]; keeps_auto. Qed.

Lemma read_burst_same (a reg : Z) (len : nat) :
  keeps a same_driver (iqs5xx_read_burst reg len).
Proof.
  unfold iqs5xx_read_burst. keeps_step. keeps_step.
  - apply read_burst_loop_same.
  - keeps_auto.
Qed.

Lemma write_burst_loop_same (a : Z) (n : nat) :
  forall addr mbuf last, keeps a same_driver (write_burst_loop n addr mbuf last).
Proof.
  induction n; intros; cbn [write_burst_loop]; unfold i2c_master_send;
    keeps_auto.
Qed.

Lemma write_burst_same (a reg : Z) (val : list Z) :
  keeps a same_driver (iqs5xx_write_burst reg val).
Proof.
  unfold iqs5xx_write_burst. keeps_step; [keeps_auto|].
  keeps_step. keeps_step; [apply write_burst_loop_same|keeps_auto].
Qed.

#[local] Hint Resolve read_burst_same write_burst_same : keeps.

Lemma read_word_same (a reg : Z) : keeps a same_driver (iqs5xx_read_word reg).
Proof. unfold iqs5xx_read_word. keeps_auto. Qed.

Lemma read_byte_same (a reg : Z) : keeps a same_driver (iqs5xx_read_byte reg).
Proof. unfold iqs5xx_read_byte. keeps_auto. Qed.

Lemma write_word_same (a reg val : Z) :
  keeps a same_driver (iqs5xx_write_word reg val).
Proof. unfold iqs5xx_write_word. keeps_auto. Qed.

Lemma write_byte_same (a reg val : Z) :
  keeps a same_driver (iqs5xx_write_byte reg val).
Proof. unfold iqs5xx_write_byte. keeps_auto. Qed.

Lemma reset_same (a : Z) : keeps a same_driver iqs5xx_reset.
Proof. unfold iqs5xx_reset. keeps_auto. Qed.

Lemma bl_cmd_same (a bl_cmd bl_addr : Z) :
  keeps a same_driver (iqs5xx_bl_cmd bl_cmd bl_addr).
Proof. unfold iqs5xx_bl_cmd. keeps_auto. Qed.

#[local] Hint Resolve read_word_same read_byte_same write_word_same
  write_byte_same reset_same bl_cmd_same : keeps.

Lemma bl_open_probe_same (a : Z) (j : nat) :
  forall last, keeps a same_driver (bl_open_probe j last).
Proof. induction j; intros; cbn [bl_open_probe]; keeps_auto. Qed.

Lemma bl_open_attempt_same (a : Z) (i : nat) :
  forall last, keeps a same_driver (bl_open_attempt i last).
Proof.
  induction i; intros; cbn [bl_open_attempt]; keeps_auto.
  apply bl_open_probe_same.
Qed.

Lemma bl_open_same (a : Z) : keeps a same_driver iqs5xx_bl_open.
Proof. apply bl_open_attempt_same. Qed.

Lemma bl_write_loop_same (a : Z) (fuel : nat) :
  forall addr bl_addr pmap_data pmap_len i,
    keeps a same_driver (bl_write_loop fuel addr bl_addr pmap_data pmap_len i).
Proof. induction fuel; intros; cbn [bl_write_loop]; keeps_auto. Qed.

Lemma bl_write_same (a bl_addr : Z) (pmap_data : mem) (pmap_len : Z) :
  keeps a same_driver (iqs5xx_bl_write bl_addr pmap_data pmap_len).
Proof.
  unfold iqs5xx_bl_write. keeps_step; [keeps_auto|].
  keeps_step. apply bl_write_loop_same.
Qed.

Lemma bl_verify_loop_same (a : Z) (fuel : nat) :
  forall addr bl_addr pmap_data pmap_len i,
    keeps a same_driver (bl_verify_loop fuel addr bl_addr pmap_data pmap_len i).
Proof. induction fuel; intros; cbn [bl_verify_loop]; keeps_auto. Qed.

Lemma bl_verify_same (a bl_addr : Z) (pmap_data : mem) (pmap_len : Z) :
  keeps a same_driver (iqs5xx_bl_verify bl_addr pmap_data pmap_len).
Proof.
  unfold iqs5xx_bl_verify. keeps_step; [keeps_auto|].
  keeps_step. apply bl_verify_loop_same.
Qed.

#[local] Hint Resolve bl_open_same bl_write_same bl_verify_same : keeps.

Lemma flash_steps_same (a : Z) (pmap : mem) :
  keeps a same_driver (flash_steps pmap).
Proof. unfold flash_steps. keeps_auto. Qed.

Lemma set_state_same (a state : Z) :
  keeps a same_driver (iqs5xx_set_state state).
Proof. unfold iqs5xx_set_state. keeps_auto. Qed.

Lemma irq_same (a : Z) : keeps a same_driver iqs5xx_irq.
Proof. unfold iqs5xx_irq. keeps_auto. Qed.

(** *** The events of each layer *)

Lemma read_burst_loop_events (a : Z) (n : nat) :
  forall msgs len last,
    reg_event a (EvXfer msgs) = true ->
    keeps a (extends (reg_event a)) (read_burst_loop n msgs len last).
Proof.
  induction n; intros msgs len last H; cbn [read_burst_loop]; keeps_auto.
  apply keeps_ext_xfer. exact H.
Qed.

Lemma read_burst_events (a reg : Z) (len : nat) :
  keeps a (extends (reg_event a)) (iqs5xx_read_burst reg len).
Proof.
  unfold iqs5xx_read_burst. keeps_step. keeps_step.
  - apply read_burst_loop_events. cbn. now rewrite Z.eqb_refl.
  - keeps_auto.
Qed.

Lemma write_burst_loop_events (a : Z) (n : nat) :
  forall mbuf last,
    keeps a (extends (reg_event a)) (write_burst_loop n a mbuf last).
Proof.
  induction n; intros; cbn [write_burst_loop]; unfold i2c_master_send;
    keeps_auto.
Qed.

Lemma write_burst_events (a reg : Z) (val : list Z) :
  keeps a (extends (reg_event a)) (iqs5xx_write_burst reg val).
Proof.
  unfold iqs5xx_write_burst. keeps_step; [keeps_auto|].
  keeps_step. keeps_step; [apply write_burst_loop_events|keeps_auto].
Qed.

#[local] Hint Resolve read_burst_events write_burst_events : keeps.

Lemma read_word_events (a reg : Z) :
  keeps a (extends (reg_event a)) (iqs5xx_read_word reg).
Proof. unfold iqs5xx_read_word. keeps_auto. Qed.

Lemma read_byte_events (a reg : Z) :
  keeps a (extends (reg_event a)) (iqs5xx_read_byte reg).
Proof. unfold iqs5xx_read_byte. keeps_auto. Qed.

Lemma write_word_events (a reg val : Z) :
  keeps a (extends (reg_event a)) (iqs5xx_write_word reg val).
Proof. unfold iqs5xx_write_word. keeps_auto. Qed.

Lemma write_byte_events (a reg val : Z) :
  keeps a (extends (reg_event a)) (iqs5xx_write_byte reg val).
Proof. unfold iqs5xx_write_byte. keeps_auto. Qed.

Lemma bl_cmd_events (a bl_cmd bl_addr : Z) :
  keeps a (extends (bl_event a)) (iqs5xx_bl_cmd bl_cmd bl_addr).
Proof. unfold iqs5xx_bl_cmd. keeps_auto. Qed.

#[local] Hint Resolve read_word_events read_byte_events write_word_events
  write_byte_events bl_cmd_events : keeps.

Lemma bl_write_loop_events (a : Z) (fuel : nat) :
  forall bl_addr pmap_data pmap_len i,
    keeps a (extends (bl_event a))
      (bl_write_loop fuel a bl_addr pmap_data pmap_len i).
Proof. induction fuel; intros; cbn [bl_write_loop]; keeps_auto. Qed.

Lemma bl_write_events (a bl_addr : Z) (pmap_data : mem) (pmap_len : Z) :
  keeps a (extends (bl_event a)) (iqs5xx_bl_write bl_addr pmap_data pmap_len).
Proof.
  unfold iqs5xx_bl_write. keeps_step; [keeps_auto|].
  keeps_step. apply bl_write_loop_events.
Qed.

Lemma bl_verify_loop_events (a : Z) (fuel : nat) :
  forall bl_addr pmap_data pmap_len i,
    keeps a (extends (bl_event a))
      (bl_verify_loop fuel a bl_addr pmap_data pmap_len i).
Proof. induction fuel; intros; cbn [bl_verify_loop]; keeps_auto. Qed.

Lemma bl_verify_events (a bl_addr : Z) (pmap_data : mem) (pmap_len : Z) :
  keeps a (extends (bl_event a)) (iqs5xx_bl_verify bl_addr pmap_data pmap_len).
Proof.
  unfold iqs5xx_bl_verify. keeps_step; [keeps_auto|].
  keeps_step. apply bl_verify_loop_events.
Qed.

#[local] Hint Resolve bl_write_events bl_verify_events : keeps.

Lemma bl_event_open (a : Z) (e : event) :
  bl_event a e = true -> bl_open_event a e = true.
Proof. unfold bl_open_event. intros ->. apply orb_true_r. Qed.

Lemma bl_cmd_open_events (a bl_cmd bl_addr : Z) :
  keeps a (extends (bl_open_event a)) (iqs5xx_bl_cmd bl_cmd bl_addr).
Proof.
  eapply keeps_weaken; [|apply bl_cmd_events].
  intros w w'. apply extends_weaken, bl_event_open.
Qed.

Lemma reset_events (a : Z) :
  keeps a (extends (bl_open_event a)) iqs5xx_reset.
Proof. unfold iqs5xx_reset. keeps_auto. Qed.

#[local] Hint Resolve bl_cmd_open_events reset_events : keeps.

Lemma bl_open_probe_events (a : Z) (j : nat) :
  forall last, keeps a (extends (bl_open_event a)) (bl_open_probe j last).
Proof. induction j; intros; cbn [bl_open_probe]; keeps_auto. Qed.

Lemma bl_open_attempt_events (a : Z) (i : nat) :
  forall last, keeps a (extends (bl_open_event a)) (bl_open_attempt i last).
Proof.
  induction i; intros; cbn [bl_open_attempt]; keeps_auto.
  apply bl_open_probe_events.
Qed.

Lemma bl_open_events (a : Z) :
  keeps a (extends (bl_open_event a)) iqs5xx_bl_open.
Proof. apply bl_open_attempt_events. Qed.

Lemma bl_write_open_events (a bl_addr : Z) (pmap_data : mem) (pmap_len : Z) :
  keeps a (extends (bl_open_event a))
    (iqs5xx_bl_write bl_addr pmap_data pmap_len).
Proof.
  eapply keeps_weaken; [|apply bl_write_events].
  intros w w'. apply extends_weaken, bl_event_open.
Qed.

Lemma bl_verify_open_events (a bl_addr : Z) (pmap_data : mem) (pmap_len : Z) :
  keeps a (extends (bl_open_event a))
    (iqs5xx_bl_verify bl_addr pmap_data pmap_len).
Proof.
  eapply keeps_weaken; [|apply bl_verify_events].
  intros w w'. apply extends_weaken, bl_event_open.
Qed.

#[local] Hint Resolve bl_open_events bl_write_open_events
  bl_verify_open_events : keeps.

Lemma flash_steps_events (a : Z) (pmap : mem) :
  keeps a (extends (bl_open_event a)) (flash_steps pmap).
Proof. unfold flash_steps. keeps_auto. Qed.

Lemma keeps_ext_weaken {A} (a : Z) (P Q : event -> bool) (c : M A) :
  (forall e, P e = true -> Q e = true) ->
  keeps a (extends P) c -> keeps a (extends Q) c.
Proof.
  intros H. apply keeps_weaken. intros w w'. now apply extends_weaken.
Qed.

Ltac class_incl :=
  let e := fresh "e" in
  intros e; destruct e; cbn; intros; solve [auto | discriminate].

(** A function whose events are known to lie in a smaller class. *)
Ltac keeps_via_class :=
  eapply keeps_ext_weaken; cycle 1;
  [solve [eauto with keeps]|solve [class_incl]].

Ltac keeps_more := repeat (keeps_step || keeps_via_class).

Lemma keeps_run {A} (a : Z) (R : world -> world -> Prop) (c : M A)
    (w w' : world) (x : A) :
  keeps a R c -> client_addr (plat w) = a -> c w = (x, w') -> R w w'.
Proof. intros H Ha E. specialize (H w Ha). now rewrite E in H. Qed.

(** *** Axis set-up and identification *)

Lemma set_input_events (a : Z) (P : event -> bool) (b : bool) :
  keeps a (extends P) (fun w => (b, set_input b w)).
Proof. intros w _. split; [reflexivity|]. exists []. now split. Qed.

#[local] Hint Resolve set_input_events : keeps.

Lemma axis_init_events (a : Z) :
  keeps a (extends no_bookkeeping) iqs5xx_axis_init.
Proof. unfold iqs5xx_axis_init. keeps_more. Qed.

Lemma axis_init_addr (a : Z) :
  keeps a (extends (to_addr a)) iqs5xx_axis_init.
Proof. unfold iqs5xx_axis_init. keeps_more. Qed.

(** Name the result of the computation the goal is about, with what the
    relation [R] says of it. *)
Ltac run_with R tac :=
  match goal with
  | Ha : client_addr (plat ?w0) = ?a |- ?c ?w = _ -> _ =>
      let H := fresh "H" in
      assert (H : keeps a R c) by tac;
      let Hs := fresh "Hs" in
      assert (Hs : R w (snd (c w))) by (apply H; exact Ha);
      clear H; revert Hs; generalize (c w)
  end.

Lemma axis_init_input (a : Z) (w w' : world) (x : Z) :
  client_addr (plat w) = a ->
  iqs5xx_axis_init w = (x, w') ->
  plat w' = plat w /\
  bl_status w' = bl_status w /\
  (input w = true -> input w' = true) /\
  (x = 0 -> input w' = true).
Proof.
  intros Ha. unfold iqs5xx_axis_init.
  unfold bind at 1, get at 1. unfold bind at 1.
  destruct (input w) eqn:Ei; cbn [negb].
  - unfold pure at 1. cbn [negb].
    run_with same_driver keeps_more.
    intros p (Hp & Hb & Hi) ->. cbn [fst snd] in *.
    rewrite Hi, Ei. auto.
  - unfold bind at 1, act at 1. unfold bind at 1, get at 1.
    cbn [plat emit].
    destruct (input_alloc_ok (plat w)); cbn [negb].
    + run_with same_driver keeps_more.
      intros p (Hp & Hb & Hi) ->. cbn [fst snd] in *.
      rewrite Hp, Hb, Hi. cbn. auto.
    + unfold pure. intros [= <- <-]. cbn. repeat split; auto; discriminate.
Qed.

(** Run the next call of the goal; it leaves the driver's data alone. *)
Ltac step_same Ha x w1 E Hs Ha1 :=
  unfold bind at 1;
  match goal with
  | |- (let (_, _) := ?c ?w in _) = _ -> _ =>
      destruct (c w) as [x w1] eqn:E;
      assert (Hs : same_driver w w1)
        by (eapply keeps_run; [|exact Ha|exact E]; eauto with keeps);
      assert (Ha1 : client_addr (plat w1) = client_addr (plat w))
        by (now rewrite (proj1 Hs))
  end.

Lemma dev_init_spec (a : Z) (w w' : world) (x : Z) :
  client_addr (plat w) = a ->
  iqs5xx_dev_init w = (x, w') ->
  plat w' = plat w /\
  (input w = true -> input w' = true) /\
  (bl_status w' = bl_status w \/
   (x = 0 /\ input w' = true /\
    exists rxd w1,
      iqs5xx_read_burst IQS5XX_PROD_NUM 7 w = ((0, rxd), w1) /\
      identity_ok (dev_id_of_buf rxd) /\
      bl_status w' = id_bl_status (dev_id_of_buf rxd))).
Proof.
  intros Ha. unfold iqs5xx_dev_init.
  step_same Ha r0 w0 E0 Hs0 Ha0. destruct r0 as [error rxd].
  destruct Hs0 as (Hp1 & Hb1 & Hi1).
  assert (Hopen : forall w2 e, iqs5xx_bl_open w0 = (e, w2) ->
            plat w2 = plat w /\ (input w = true -> input w2 = true) /\
            bl_status w2 = bl_status w).
  { intros w2 e Eo.
    destruct (keeps_run a same_driver iqs5xx_bl_open w0 w2 e) as (A & B & C);
      [apply bl_open_same|congruence|exact Eo|].
    rewrite A, B, C. rewrite Hp1, Hb1, Hi1. auto. }
  destruct (Z.eqb_spec error 0) as [->|Hne]; cbn [negb].
  2:{ intros Eo. destruct (Hopen _ _ Eo) as (A & B & C). auto. }
  set (d := dev_id_of_buf rxd).
  destruct (negb ((prod_num d =? IQS5XX_PROD_NUM_IQS550)
                  || (prod_num d =? IQS5XX_PROD_NUM_IQS572)
                  || (prod_num d =? IQS5XX_PROD_NUM_IQS525)) ) eqn:Eprod.
  { intros [= <- <-]. rewrite Hp1, Hb1, Hi1. auto. }
  destruct (Z.eqb_spec (proj_num d) IQS5XX_PROJ_NUM_A000) as [_|Hna].
  { intros Eo. destruct (Hopen _ _ Eo) as (A & B & C). auto. }
  destruct (Z.eqb_spec (proj_num d) IQS5XX_PROJ_NUM_B000) as [Hproj|_];
    cbn [negb].
  2:{ intros [= <- <-]. rewrite Hp1, Hb1, Hi1. auto. }
  destruct (Z.ltb_spec (major_ver d) IQS5XX_MAJOR_VER_MIN) as [_|Hmaj].
  { intros Eo. destruct (Hopen _ _ Eo) as (A & B & C). auto. }
  destruct (negb ((id_bl_status d =? IQS5XX_BL_STATUS_AVAIL)
                  || (id_bl_status d =? IQS5XX_BL_STATUS_NONE))) eqn:Est.
  { intros [= <- <-]. rewrite Hp1, Hb1, Hi1. auto. }
  assert (Hid : identity_ok d).
  { unfold identity_ok. apply negb_false_iff in Eprod.
    apply negb_false_iff in Est.
    rewrite !orb_true_iff, !Z.eqb_eq in Eprod.
    rewrite !orb_true_iff, !Z.eqb_eq in Est.
    split; [tauto|]. split; [assumption|]. split; [lia|assumption]. }
  unfold bind at 1.
  destruct (iqs5xx_axis_init w0) as [e2 w2] eqn:E2.
  destruct (axis_init_input a w0 w2 e2) as (Hp2 & Hb2 & Hi2 & Hz2);
    [congruence|exact E2|].
  assert (Ha2 : client_addr (plat w2) = a) by congruence.
  destruct (Z.eqb_spec e2 0) as [->|Hne2]; cbn [negb].
  2:{ intros [= <- <-]. rewrite Hp2, Hb2, Hp1, Hb1.
      repeat split; auto. intros Hin. apply Hi2. congruence. }
  specialize (Hz2 eq_refl).
  step_same Ha2 r3 w3 E3 Hs3 Ha3. destruct r3 as [e3 val].
  destruct Hs3 as (Hp3 & Hb3 & Hi3).
  destruct (negb (e3 =? 0)).
  { intros [= <- <-]. rewrite Hp3, Hb3, Hi3, Hp2, Hb2, Hp1, Hb1. auto. }
  step_same Ha3 e4 w4 E4 Hs4 Ha4. destruct Hs4 as (Hp4 & Hb4 & Hi4).
  destruct (negb (e4 =? 0)).
  { intros [= <- <-].
    rewrite Hp4, Hb4, Hi4, Hp3, Hb3, Hi3, Hp2, Hb2, Hp1, Hb1. auto. }
  step_same Ha4 e5 w5 E5 Hs5 Ha5. destruct Hs5 as (Hp5 & Hb5 & Hi5).
  destruct (negb (e5 =? 0)).
  { intros [= <- <-].
    rewrite Hp5, Hb5, Hi5, Hp4, Hb4, Hi4, Hp3, Hb3, Hi3, Hp2, Hb2, Hp1, Hb1.
    auto. }
  step_same Ha5 e6 w6 E6 Hs6 Ha6. destruct Hs6 as (Hp6 & Hb6 & Hi6).
  destruct (negb (e6 =? 0)).
  { intros [= <- <-].
    rewrite Hp6, Hb6, Hi6, Hp5, Hb5, Hi5, Hp4, Hb4, Hi4, Hp3, Hb3, Hi3,
      Hp2, Hb2, Hp1, Hb1. auto. }
  unfold bind at 1. unfold bind at 1, msleep, act, pure.
  intros [= <- <-]. cbn [plat bl_status input emit set_bl_status].
  rewrite Hp6, Hi6, Hp5, Hi5, Hp4, Hi4, Hp3, Hi3, Hp2, Hp1.
  repeat split; auto. right. repeat split; auto.
  exists rxd, w0. auto.
Qed.

Lemma fw_file_parse_same (a : Z) (fw_file : string) (pmap : mem) :
  keeps a same_driver (iqs5xx_fw_file_parse fw_file pmap).
Proof.
  unfold iqs5xx_fw_file_parse, reject_firmware, release_firmware.
  keeps_auto.
Qed.

#[local] Hint Resolve fw_file_parse_same flash_steps_same : keeps.

(** What the flash operation does to the driver's data: nothing when it
    stops before the flash steps (with an error), and otherwise what the
    identification does to a status of reset/unknown. *)
Lemma fw_file_write_spec (w w' : world) (fw_file : string) (x : Z) :
  iqs5xx_fw_file_write fw_file w = (x, w') ->
  plat w' = plat w /\
  ((x <> 0 /\ bl_status w' = bl_status w /\ input w' = input w) \/
   ((input w = true -> input w' = true) /\
    ((bl_status w' = IQS5XX_BL_STATUS_RESET /\ x <> 0) \/
     ((bl_status w' = IQS5XX_BL_STATUS_AVAIL \/
       bl_status w' = IQS5XX_BL_STATUS_NONE) /\ input w' = true)))).
Proof.
  assert (Ha : client_addr (plat w) = client_addr (plat w)) by reflexivity.
  unfold iqs5xx_fw_file_write.
  unfold bind at 1, get at 1.
  destruct (bl_status w =? IQS5XX_BL_STATUS_NONE).
  { intros [= <- <-]. split; [reflexivity|]. left.
    repeat split. discriminate. }
  unfold bind at 1, act at 1. unfold bind at 1, get at 1.
  cbn [plat emit].
  destruct (kzalloc_ok (plat w)); cbn [negb].
  2:{ intros [= <- <-]. split; [reflexivity|]. left.
      repeat split. discriminate. }
  set (wk := emit EvKzalloc w).
  assert (Hak : client_addr (plat wk) = client_addr (plat w)) by reflexivity.
  step_same Hak rp wp Ep Hsp Hap. destruct rp as [error pmap].
  destruct Hsp as (Hpp & Hbp & Hip).
  destruct (Z.eqb_spec error 0) as [->|Hne]; cbn [negb].
  2:{ unfold bind at 1, act at 1, pure. intros [= <- <-].
      cbn [plat bl_status input emit]. rewrite Hpp, Hbp, Hip.
      split; [reflexivity|]. left. auto. }
  unfold bind at 1, act at 1. unfold bind at 1, act at 1.
  unfold bind at 1.
  set (w0 := set_bl_status IQS5XX_BL_STATUS_RESET
               (emit EvDisableIrq (emit EvMutexLock wp))).
  assert (Ha0 : client_addr (plat w0) = client_addr (plat wk))
    by (cbn; now rewrite Hpp).
  step_same Ha0 e0 w4 E4 Hs4 Ha4. destruct Hs4 as (Hp4 & Hb4 & Hi4).
  unfold bind at 1. rewrite flash_resync_runs_dev_init.
  destruct (iqs5xx_dev_init (after_steps e0 w4)) as [e1 w2] eqn:Ei.
  assert (Hafter : plat (after_steps e0 w4) = plat w4 /\
                   bl_status (after_steps e0 w4) = bl_status w4 /\
                   input (after_steps e0 w4) = input w4).
  { unfold after_steps. destruct (e0 =? 0); auto. }
  destruct Hafter as (Hp5 & Hb5 & Hi5).
  destruct (dev_init_spec _ _ _ _ eq_refl Ei) as (Hp2 & Hi2 & Hst).
  unfold bind at 1, act at 1, pure. intros [= <- <-].
  cbn [plat bl_status input emit].
  split.
  { rewrite Hp2, Hp5, Hp4. cbn. now rewrite Hpp. }
  right. split.
  { intros Hin. apply Hi2. rewrite Hi5, Hi4. cbn. now rewrite Hip. }
  destruct Hst as [Hsame|(Hz & Hin & rxd & w1 & _ & Hid & Hset)].
  - left. rewrite Hsame, Hb5, Hb4. cbn. split; [reflexivity|].
    destruct (e1 =? 0) eqn:Ee; cbn.
    + discriminate.
    + now apply Z.eqb_neq.
  - right. split; [|exact Hin]. rewrite Hset. apply Hid.
Qed.

(** ** Invariants of the driver's data *)

Lemma driver_inv_same (w w' : world) :
  bl_status w' = bl_status w -> input w' = input w ->
  driver_inv w -> driver_inv w'.
Proof. unfold driver_inv. intros -> ->. auto. Qed.

Lemma fw_file_store_data (w w' : world) (buf : string) (x : Z) :
  fw_file_store buf w = (x, w') ->
  (bl_status w' = bl_status w /\ input w' = input w) \/
  exists fw_file e w1,
    iqs5xx_fw_file_write fw_file w = (e, w1) /\
    bl_status w' = bl_status w1 /\ input w' = input w1.
Proof.
  unfold fw_file_store. unfold bind at 1, get at 1.
  destruct (String.length buf =? 0)%nat; [intros [= <- <-]; auto|].
  destruct (Z.of_nat _ >? IQS5XX_FW_FILE_LEN); [intros [= <- <-]; auto|].
  unfold bind at 1.
  destruct (iqs5xx_fw_file_write _ w) as [e w1] eqn:E.
  intros Hf. right. eexists _, e, w1. split; [exact E|].
  revert Hf. unfold fw_file_store_finish.
  destruct (negb (e =? 0)); [intros [= <- <-]; auto|].
  destruct (negb (input w)); cbn [negb].
  - unfold bind at 1, act at 1. unfold bind at 1, get at 1.
    destruct (negb _); intros [= <- <-]; auto.
  - intros [= <- <-]; auto.
Qed.

(** X1: the stored status is always one of 0x00, 0xA5, 0xEE, and whenever
    it is not reset/unknown the input device is allocated (the guarantee
    the interrupt handler relies on).  Identification, the flash
    operation, the fw_file control, the power-state operation and the
    interrupt handler all keep this. *)
Theorem driver_inv_kept (w : world) :
  driver_inv w ->
  driver_inv (snd (iqs5xx_dev_init w)) /\
  (forall fw_file, driver_inv (snd (iqs5xx_fw_file_write fw_file w))) /\
  (forall buf, driver_inv (snd (fw_file_store buf w))) /\
  (forall state, driver_inv (snd (iqs5xx_set_state state w))) /\
  driver_inv (snd (iqs5xx_irq w)).
Proof.
  intros Hinv.
  assert (Hinit : driver_inv (snd (iqs5xx_dev_init w))).
  { destruct (iqs5xx_dev_init w) as [x w'] eqn:E.
    destruct (dev_init_spec _ _ _ _ eq_refl E) as (_ & Hi & Hst).
    destruct Hinv as [Hv Hin]. cbn [snd].
    destruct Hst as [Hsame|(_ & Hin' & rxd & w1 & _ & Hid & Hset)].
    - split; rewrite Hsame; [exact Hv|auto].
    - split; [|auto]. rewrite Hset. right. apply Hid. }
  assert (Hflash : forall fw_file,
             driver_inv (snd (iqs5xx_fw_file_write fw_file w))).
  { intros fw_file.
    destruct (iqs5xx_fw_file_write fw_file w) as [x w'] eqn:E.
    destruct (fw_file_write_spec _ _ _ _ E)
      as (_ & [(_ & Hb & Hi)|(_ & [(Hr & _)|(Hv & Hin)])]); cbn [snd].
    - now apply (driver_inv_same w).
    - split; [now left|]. intros Hn. now elim Hn.
    - split; [now right|auto]. }
  split; [exact Hinit|]. split; [exact Hflash|]. split; [|split].
  - intros buf. destruct (fw_file_store buf w) as [x w'] eqn:E. cbn [snd].
    destruct (fw_file_store_data _ _ _ _ E)
      as [(Hb & Hi)|(f & e & w1 & Ew & Hb & Hi)].
    + now apply (driver_inv_same w).
    + apply (driver_inv_same w1); try assumption.
      specialize (Hflash f). now rewrite Ew in Hflash.
  - intros state.
    destruct (set_state_same _ state w eq_refl) as (_ & Hb & Hi).
    now apply (driver_inv_same w).
  - destruct (irq_same _ w eq_refl) as (_ & Hb & Hi).
    now apply (driver_inv_same w).
Qed.

Lemma driver_inv_kept_witness :
  driver_inv (snd (iqs5xx_fw_file_write "fw.hex" flash_ok_world)) /\
  driver_inv (snd (iqs5xx_dev_init flash_ok_world)).
Proof.
  assert (H : driver_inv flash_ok_world).
  { split; [left; reflexivity|]. intros Hn. now elim Hn. }
  destruct (driver_inv_kept flash_ok_world H) as (H1 & H2 & _).
  split; [apply H2|exact H1].
Defined.

(** X2: a flash that returns 0 has stored an identified status (0xA5 or
    0xEE) and left the input device allocated, whatever the state before:
    the guarantee [fw_file_store] relies on when it registers the input
    device afterwards. *)
Theorem flash_success_allocates_input (w w' : world) (fw_file : string) :
  iqs5xx_fw_file_write fw_file w = (0, w') ->
  input w' = true /\
  (bl_status w' = IQS5XX_BL_STATUS_AVAIL \/
   bl_status w' = IQS5XX_BL_STATUS_NONE).
Proof.
  intros E.
  destruct (fw_file_write_spec _ _ _ _ E)
    as (_ & [(Hx & _)|(_ & [(_ & Hx)|(Hv & Hin)])]);
    try (now elim Hx). auto.
Qed.

Lemma flash_success_allocates_input_witness :
  input (snd (iqs5xx_fw_file_write "fw.hex" flash_ok_world)) = true /\
  (bl_status (snd (iqs5xx_fw_file_write "fw.hex" flash_ok_world))
     = IQS5XX_BL_STATUS_AVAIL \/
   bl_status (snd (iqs5xx_fw_file_write "fw.hex" flash_ok_world))
     = IQS5XX_BL_STATUS_NONE).
Proof.
  apply (flash_success_allocates_input flash_ok_world _ "fw.hex").
  rewrite (surjective_pairing (iqs5xx_fw_file_write "fw.hex" flash_ok_world))
    at 1.
  apply (f_equal2 pair); [vm_compute; reflexivity|reflexivity].
Defined.

(** X3: identification changes the stored status only on its normal
    path: then it returned 0, the input device is allocated, and the
    identity block it read names a known product (40, 58 or 52), project
    B000, a major version of at least 2 and a bootloader status of 0xA5 or
    0xEE, which is the status stored. *)
Theorem dev_init_stores_checked_identity (w w' : world) (x : Z) :
  iqs5xx_dev_init w = (x, w') ->
  bl_status w' <> bl_status w ->
  x = 0 /\ input w' = true /\
  exists rxd w1,
    iqs5xx_read_burst IQS5XX_PROD_NUM 7 w = ((0, rxd), w1) /\
    identity_ok (dev_id_of_buf rxd) /\
    bl_status w' = id_bl_status (dev_id_of_buf rxd).
Proof.
  intros E Hne.
  destruct (dev_init_spec _ _ _ _ eq_refl E) as (_ & _ & [Hs|H]);
    [contradiction|exact H].
Qed.

Lemma dev_init_stores_checked_identity_witness :
  exists rxd w1,
    iqs5xx_read_burst IQS5XX_PROD_NUM 7
      (boot (board (script_bus normal_boot_replies nak) eof_only_image) 0 false)
      = ((0, rxd), w1) /\
    identity_ok (dev_id_of_buf rxd) /\
    bl_status (snd (iqs5xx_dev_init
                      (boot (board (script_bus normal_boot_replies nak)
                                   eof_only_image) 0 false)))
      = id_bl_status (dev_id_of_buf rxd).
Proof.
  apply (dev_init_stores_checked_identity
           (boot (board (script_bus normal_boot_replies nak) eof_only_image)
                 0 false) _ 0).
  - rewrite (surjective_pairing (iqs5xx_dev_init _)) at 1.
    apply (f_equal2 pair); [vm_compute; reflexivity|reflexivity].
  - vm_compute. discriminate.
Defined.

(** ** What goes on the bus, and where *)

Lemma set_state_addr (a state : Z) :
  keeps a (extends (to_addr a)) (iqs5xx_set_state state).
Proof. unfold iqs5xx_set_state. keeps_more. Qed.

Lemma irq_addr (a : Z) : keeps a (extends (to_addr a)) iqs5xx_irq.
Proof. unfold iqs5xx_irq. keeps_more. Qed.

(** X4: register accesses, the power-state operation, the axis set-up and
    the interrupt handler address every bus message to the client's own
    address; the bootloader commands, the open sequence, the block write,
    the verify and the flash steps address every message to that address
    with the bit 0x40 flipped. *)
Theorem bus_address_discipline (w : world) :
  (forall reg len,
     extends (to_addr (client_addr (plat w))) w
       (snd (iqs5xx_read_burst reg len w))) /\
  (forall reg val,
     extends (to_addr (client_addr (plat w))) w
       (snd (iqs5xx_write_burst reg val w))) /\
  (forall state,
     extends (to_addr (client_addr (plat w))) w
       (snd (iqs5xx_set_state state w))) /\
  extends (to_addr (client_addr (plat w))) w (snd (iqs5xx_axis_init w)) /\
  extends (to_addr (client_addr (plat w))) w (snd (iqs5xx_irq w)) /\
  (forall bl_cmd bl_addr,
     extends (to_addr (Z.lxor (client_addr (plat w)) IQS5XX_BL_ADDR_MASK)) w
       (snd (iqs5xx_bl_cmd bl_cmd bl_addr w))) /\
  extends (to_addr (Z.lxor (client_addr (plat w)) IQS5XX_BL_ADDR_MASK)) w
    (snd (iqs5xx_bl_open w)) /\
  (forall bl_addr pmap_data pmap_len,
     extends (to_addr (Z.lxor (client_addr (plat w)) IQS5XX_BL_ADDR_MASK)) w
       (snd (iqs5xx_bl_write bl_addr pmap_data pmap_len w))) /\
  (forall bl_addr pmap_data pmap_len,
     extends (to_addr (Z.lxor (client_addr (plat w)) IQS5XX_BL_ADDR_MASK)) w
       (snd (iqs5xx_bl_verify bl_addr pmap_data pmap_len w))) /\
  (forall pmap,
     extends (to_addr (Z.lxor (client_addr (plat w)) IQS5XX_BL_ADDR_MASK)) w
       (snd (flash_steps pmap w))).
Proof.
  assert (Hreg : forall e, reg_event (client_addr (plat w)) e = true ->
                           to_addr (client_addr (plat w)) e = true)
    by class_incl.
  assert (Hbl : forall e, bl_open_event (client_addr (plat w)) e = true ->
            to_addr (Z.lxor (client_addr (plat w)) IQS5XX_BL_ADDR_MASK) e
            = true) by class_incl.
  assert (Hbl' : forall e, bl_event (client_addr (plat w)) e = true ->
            to_addr (Z.lxor (client_addr (plat w)) IQS5XX_BL_ADDR_MASK) e
            = true) by class_incl.
  repeat split.
  - exact (proj1 (read_burst_events _ reg len w eq_refl)).
  - apply (extends_weaken _ _ _ _ Hreg).
    apply (read_burst_events _ reg len w eq_refl).
  - exact (proj1 (write_burst_events _ reg val w eq_refl)).
  - apply (extends_weaken _ _ _ _ Hreg).
    apply (write_burst_events _ reg val w eq_refl).
  - exact (proj1 (set_state_addr _ state w eq_refl)).
  - apply (set_state_addr _ state w eq_refl).
  - exact (proj1 (axis_init_addr _ w eq_refl)).
  - apply (axis_init_addr _ w eq_refl).
  - exact (proj1 (irq_addr _ w eq_refl)).
  - apply (irq_addr _ w eq_refl).
  - exact (proj1 (bl_cmd_events _ bl_cmd bl_addr w eq_refl)).
  - apply (extends_weaken _ _ _ _ Hbl').
    apply (bl_cmd_events _ bl_cmd bl_addr w eq_refl).
  - exact (proj1 (bl_open_events _ w eq_refl)).
  - apply (extends_weaken _ _ _ _ Hbl).
    apply (bl_open_events _ w eq_refl).
  - exact (proj1 (bl_write_events _ bl_addr pmap_data pmap_len w eq_refl)).
  - apply (extends_weaken _ _ _ _ Hbl').
    apply (bl_write_events _ bl_addr pmap_data pmap_len w eq_refl).
  - exact (proj1 (bl_verify_events _ bl_addr pmap_data pmap_len w eq_refl)).
  - apply (extends_weaken _ _ _ _ Hbl').
    apply (bl_verify_events _ bl_addr pmap_data pmap_len w eq_refl).
  - exact (proj1 (flash_steps_events _ pmap w eq_refl)).
  - apply (extends_weaken _ _ _ _ Hbl).
    apply (flash_steps_events _ pmap w eq_refl).
Qed.

Lemma resets_extends (P : event -> bool) (w w' : world) :
  (forall e, P e = true -> is_gpio e = false) ->
  extends P w w' -> resets (trace w') = resets (trace w).
Proof.
  intros HP (_ & new & -> & Hf).
  induction new as [|e new IH]; [reflexivity|].
  cbn [forallb] in Hf. apply andb_true_iff in Hf. destruct Hf as [He Hf].
  specialize (HP e He). cbn [app].
  destruct e; cbn [resets]; try (now apply IH). discriminate.
Qed.

(** X5: when the bootloader answers the liveness probe, the flash steps
    do not run the open sequence: whatever happens in the later steps,
    the reset line is not touched before [err_reset]. *)
Theorem flash_steps_skip_open (w : world) (pmap : mem) :
  fst (iqs5xx_bl_cmd IQS5XX_BL_CMD_VER 0 w) = 0 ->
  resets (trace (snd (flash_steps pmap w))) = resets (trace w).
Proof.
  intros Hlive.
  assert (Hg : forall e, bl_event (client_addr (plat w)) e = true ->
                         is_gpio e = false) by class_incl.
  unfold flash_steps. unfold bind at 1.
  pose proof (bl_cmd_events _ IQS5XX_BL_CMD_VER 0 w eq_refl) as H1.
  destruct (iqs5xx_bl_cmd IQS5XX_BL_CMD_VER 0 w) as [e w1].
  cbn [fst snd] in *. subst e. cbn [Z.eqb negb].
  unfold bind at 1, pure at 1. cbn [Z.eqb negb].
  rewrite <- (resets_extends _ _ _ Hg H1).
  assert (Ha : client_addr (plat w1) = client_addr (plat w))
    by (now rewrite (proj1 H1)).
  match goal with
  | |- resets (trace (snd (?c w1))) = _ =>
      assert (H : keeps (client_addr (plat w)) 
                    (extends (bl_event (client_addr (plat w)))) c)
        by keeps_more;
      apply (resets_extends _ _ _ Hg (H w1 Ha))
  end.
Qed.

Lemma flash_steps_skip_open_witness :
  resets (trace (snd (flash_steps kzalloc_pmap flash_ok_world))) = 0%nat.
Proof.
  apply (flash_steps_skip_open flash_ok_world kzalloc_pmap).
  vm_compute. reflexivity.
Defined.

Lemma set_bl_status_events (a : Z) (P : event -> bool) (v : Z) :
  keeps a (extends P) (fun w => (tt, set_bl_status v w)).
Proof. intros w _. split; [reflexivity|]. exists []. now split. Qed.

#[local] Hint Resolve set_bl_status_events axis_init_events : keeps.

Lemma dev_init_events (a : Z) :
  keeps a (extends no_bookkeeping) iqs5xx_dev_init.
Proof. unfold iqs5xx_dev_init. keeps_more. Qed.

Lemma flash_steps_quiet (a : Z) (pmap : mem) :
  keeps a (extends no_bookkeeping) (flash_steps pmap).
Proof.
  eapply keeps_ext_weaken; [|apply flash_steps_events]. class_incl.
Qed.

Lemma fw_file_parse_events (a : Z) (fw_file : string) (pmap : mem) :
  keeps a (extends no_bookkeeping) (iqs5xx_fw_file_parse fw_file pmap).
Proof.
  unfold iqs5xx_fw_file_parse, reject_firmware, release_firmware.
  keeps_more.
Qed.

Lemma count_extends (P f : event -> bool) (w w' : world) :
  (forall e, P e = true -> f e = false) ->
  extends P w w' -> count f (trace w') = count f (trace w).
Proof.
  intros HP (_ & new & -> & Hf). unfold count.
  induction new as [|e new IH]; [reflexivity|].
  cbn [forallb] in Hf. apply andb_true_iff in Hf. destruct Hf as [He Hf].
  cbn [app filter]. rewrite (HP e He). now apply IH.
Qed.

Lemma no_bookkeeping_counts (e : event) :
  no_bookkeeping e = true ->
  is_lock e = false /\ is_unlock e = false /\ is_disable_irq e = false /\
  is_enable_irq e = false /\ is_kzalloc e = false /\ is_kfree e = false.
Proof. destruct e; cbn; intros; repeat split; solve [auto|discriminate]. Qed.

(** The six counters of a trace. *)
Lemma counts_quiet (w w' : world) :
  extends no_bookkeeping w w' ->
  count is_lock (trace w') = count is_lock (trace w) /\
  count is_unlock (trace w') = count is_unlock (trace w) /\
  count is_disable_irq (trace w') = count is_disable_irq (trace w) /\
  count is_enable_irq (trace w') = count is_enable_irq (trace w) /\
  count is_kzalloc (trace w') = count is_kzalloc (trace w) /\
  count is_kfree (trace w') = count is_kfree (trace w).
Proof.
  intros H. repeat split;
    (eapply count_extends; [|exact H]; intros e He;
     apply no_bookkeeping_counts in He; tauto).
Qed.

Lemma after_steps_quiet (error : Z) (w : world) :
  extends no_bookkeeping w (after_steps error w).
Proof.
  unfold after_steps. destruct (error =? 0).
  - apply extends_refl.
  - split; [reflexivity|].
    exists [EvSleep 10000; EvGpio 0; EvSleep 200; EvGpio 1].
    split; reflexivity.
Qed.

Lemma fw_file_write_counts (w w' : world) (fw_file : string) (x : Z) :
  iqs5xx_fw_file_write fw_file w = (x, w') ->
  (count is_lock (trace w') + count is_unlock (trace w)
   = count is_unlock (trace w') + count is_lock (trace w))%nat /\
  (count is_disable_irq (trace w') + count is_enable_irq (trace w)
   = count is_enable_irq (trace w') + count is_disable_irq (trace w))%nat /\
  (count is_kfree (trace w') =
   count is_kfree (trace w) +
   (if negb (bl_status w =? IQS5XX_BL_STATUS_NONE)%Z && kzalloc_ok (plat w)
    then 1 else 0))%nat.
Proof.
  assert (Ha : client_addr (plat w) = client_addr (plat w)) by reflexivity.
  unfold iqs5xx_fw_file_write.
  unfold bind at 1, get at 1.
  destruct (bl_status w =? IQS5XX_BL_STATUS_NONE); cbn [negb andb].
  { intros [= <- <-]. lia. }
  unfold bind at 1, act at 1. unfold bind at 1, get at 1.
  cbn [plat emit].
  destruct (kzalloc_ok (plat w)); cbn [negb].
  2:{ intros [= <- <-]. cbn [trace]. unfold count. cbn. lia. }
  set (wk := emit EvKzalloc w).
  unfold bind at 1.
  pose proof (fw_file_parse_events _ fw_file kzalloc_pmap wk Ha) as Hp.
  destruct (iqs5xx_fw_file_parse fw_file kzalloc_pmap wk)
    as [[error pmap] wp].
  cbn [snd] in Hp.
  destruct (counts_quiet _ _ Hp) as (P1 & P2 & P3 & P4 & P5 & P6).
  assert (Hap : client_addr (plat wp) = client_addr (plat w))
    by (now rewrite (proj1 Hp)).
  destruct (negb (error =? 0)).
  { unfold bind, act, pure. intros [= <- <-]. cbn [trace emit].
    unfold count in *. cbn [filter is_lock is_unlock is_disable_irq
                           is_enable_irq is_kfree length].
    rewrite P1, P2, P3, P4, P6. cbn. lia. }
  unfold bind at 1, act at 1. unfold bind at 1, act at 1.
  unfold bind at 1.
  set (w0 := set_bl_status IQS5XX_BL_STATUS_RESET
               (emit EvDisableIrq (emit EvMutexLock wp))).
  unfold bind at 1.
  pose proof (flash_steps_quiet _ pmap w0 Hap) as Hs.
  destruct (flash_steps pmap w0) as [e0 w4]. cbn [snd] in Hs.
  destruct (counts_quiet _ _ Hs) as (S1 & S2 & S3 & S4 & S5 & S6).
  unfold bind at 1. rewrite flash_resync_runs_dev_init.
  pose proof (after_steps_quiet e0 w4) as Hr.
  destruct (counts_quiet _ _ Hr) as (R1 & R2 & R3 & R4 & R5 & R6).
  assert (Ha5 : client_addr (plat (after_steps e0 w4))
                = client_addr (plat w)).
  { rewrite (proj1 Hr), (proj1 Hs). exact Hap. }
  pose proof (dev_init_events _ (after_steps e0 w4) Ha5) as Hi.
  destruct (iqs5xx_dev_init (after_steps e0 w4)) as [e1 w2].
  cbn [snd] in Hi.
  destruct (counts_quiet _ _ Hi) as (I1 & I2 & I3 & I4 & I5 & I6).
  unfold bind, act, pure. intros [= <- <-]. cbn [trace emit].
  unfold count in *.
  cbn [filter is_lock is_unlock is_disable_irq is_enable_irq is_kfree
       length].
  rewrite I1, I2, I3, I4, I6, R1, R2, R3, R4, R6, S1, S2, S3, S4, S6.
  unfold w0. cbn [trace set_bl_status emit filter is_lock is_unlock
                  is_disable_irq is_enable_irq is_kfree length].
  rewrite P1, P2, P3, P4, P6. cbn. lia.
Qed.

Lemma set_state_counts (w w' : world) (state x : Z) :
  iqs5xx_set_state state w = (x, w') ->
  (count is_lock (trace w') + count is_unlock (trace w)
   = count is_unlock (trace w') + count is_lock (trace w))%nat /\
  (count is_disable_irq (trace w') + count is_enable_irq (trace w)
   = count is_enable_irq (trace w') + count is_disable_irq (trace w))%nat.
Proof.
  assert (Ha : client_addr (plat w) = client_addr (plat w)) by reflexivity.
  unfold iqs5xx_set_state. unfold bind at 1, get at 1.
  destruct (bl_status w =? IQS5XX_BL_STATUS_RESET).
  { intros [= <- <-]. lia. }
  unfold bind at 1, act at 1. unfold bind at 1, act at 1.
  unfold bind at 1.
  set (w0 := emit EvDisableIrq (emit EvMutexLock w)).
  assert (Hq : forall e, reg_event (client_addr (plat w)) e = true ->
                         no_bookkeeping e = true) by class_incl.
  pose proof (extends_weaken _ _ _ _ Hq
                (write_byte_events _ IQS5XX_SYS_CTRL1 state w0 Ha)) as H1.
  destruct (iqs5xx_write_byte IQS5XX_SYS_CTRL1 state w0) as [error1 w1].
  cbn [snd] in H1.
  destruct (counts_quiet _ _ H1) as (A1 & A2 & A3 & A4 & _).
  unfold bind at 1.
  assert (Ha1 : client_addr (plat w1) = client_addr (plat w))
    by (now rewrite (proj1 H1)).
  pose proof (extends_weaken _ _ _ _ Hq
                (write_byte_events _ IQS5XX_END_COMM 0 w1 Ha1)) as H2.
  destruct (iqs5xx_write_byte IQS5XX_END_COMM 0 w1) as [error2 w2].
  cbn [snd] in H2.
  destruct (counts_quiet _ _ H2) as (B1 & B2 & B3 & B4 & _).
  unfold bind, usleep_range, act.
  assert (Hend : forall v, snd ((if negb (error1 =? 0) then pure error1
                                 else pure error2) v) = v)
    by (intros; destruct (negb _); reflexivity).
  intros E. apply (f_equal snd) in E. rewrite Hend in E. cbn [snd] in E.
  subst w'. cbn [trace emit].
  unfold count in *.
  cbn [filter is_lock is_unlock is_disable_irq is_enable_irq length].
  rewrite B1, B2, B3, B4, A1, A2, A3, A4.
  unfold w0. cbn. lia.
Qed.

(** X6: on every path the flash operation releases the lock as often as
    it takes it and enables the interrupt line as often as it disables
    it; the image buffer is freed on every path on which it was
    allocated, and [kfree] is not called when the allocation failed or was
    never made.  The power-state operation keeps lock and interrupt line
    balanced as well. *)
Theorem flash_releases_what_it_takes (w : world) (fw_file : string)
    (state : Z) :
  (let w' := snd (iqs5xx_fw_file_write fw_file w) in
   (count is_lock (trace w') + count is_unlock (trace w)
    = count is_unlock (trace w') + count is_lock (trace w))%nat /\
   (count is_disable_irq (trace w') + count is_enable_irq (trace w)
    = count is_enable_irq (trace w') + count is_disable_irq (trace w))%nat /\
   (count is_kfree (trace w') =
    count is_kfree (trace w) +
    (if negb (bl_status w =? IQS5XX_BL_STATUS_NONE)%Z && kzalloc_ok (plat w)
     then 1 else 0))%nat) /\
  (let w' := snd (iqs5xx_set_state state w) in
   (count is_lock (trace w') + count is_unlock (trace w)
    = count is_unlock (trace w') + count is_lock (trace w))%nat /\
   (count is_disable_irq (trace w') + count is_enable_irq (trace w)
    = count is_enable_irq (trace w') + count is_disable_irq (trace w))%nat).
Proof.
  split; cbv zeta.
  - apply (fw_file_write_counts w _ fw_file
             (fst (iqs5xx_fw_file_write fw_file w))).
    apply surjective_pairing.
  - apply (set_state_counts w _ state (fst (iqs5xx_set_state state w))).
    apply surjective_pairing.
Qed.

(** ** Bus transport: the retry loops *)

Lemma read_burst_loop_fail (n : nat) :
  forall msgs len last w,
    (forall j, (j < n)%nat -> ret (bus (plat w) (nxfer w + j)) <> 2) ->
    exists w',
      read_burst_loop n msgs len last w =
        (inl (match n with
              | O => last
              | S n' => ret (bus (plat w) (nxfer w + n'))
              end), w') /\
      plat w' = plat w /\ nxfer w' = (nxfer w + n)%nat /\
      count is_sleep (trace w') = (count is_sleep (trace w) + n)%nat.
Proof.
  induction n as [|n IH]; intros msgs len last w Hf.
  - exists w. cbn [read_burst_loop]. unfold pure. repeat split; lia.
  - cbn [read_burst_loop]. unfold bind at 1, i2c_transfer.
    assert (H0 : ret (bus (plat w) (nxfer w)) <> 2).
    { specialize (Hf 0%nat ltac:(lia)). now rewrite Nat.add_0_r in Hf. }
    destruct (Z.eqb_spec (ret (bus (plat w) (nxfer w))) 2) as [|_];
      [contradiction|].
    unfold bind at 1, usleep_range, act, emit.
    cbn [plat nxfer trace bl_status input].
    match goal with
    | |- context [read_burst_loop n msgs len ?l ?w1] =>
        destruct (IH msgs len l w1) as (w' & E & Hp & Hn & Hc)
    end.
    { intros j Hj. cbn [plat nxfer].
      replace (S (nxfer w) + j)%nat with (nxfer w + S j)%nat by lia.
      apply Hf. lia. }
    cbn [plat nxfer trace] in *.
    exists w'. rewrite E. repeat split.
    + do 2 f_equal. destruct n as [|n'].
      * now rewrite Nat.add_0_r.
      * do 2 f_equal. lia.
    + exact Hp.
    + lia.
    + rewrite Hc. unfold count. cbn [filter is_sleep length]. lia.
Qed.

Lemma read_burst_loop_hit (n : nat) :
  forall msgs len last w k,
    (k < n)%nat ->
    (forall j, (j < k)%nat -> ret (bus (plat w) (nxfer w + j)) <> 2) ->
    ret (bus (plat w) (nxfer w + k)) = 2 ->
    exists w',
      read_burst_loop n msgs len last w =
        (inr (rx_bytes len (bus (plat w) (nxfer w + k))), w') /\
      plat w' = plat w /\ nxfer w' = (nxfer w + k + 1)%nat /\
      count is_sleep (trace w') = (count is_sleep (trace w) + k)%nat.
Proof.
  induction n as [|n IH]; intros msgs len last w k Hk Hf Hok; [lia|].
  cbn [read_burst_loop]. unfold bind at 1, i2c_transfer.
  destruct k as [|k].
  - rewrite Nat.add_0_r in Hok. rewrite Hok. cbn [Z.eqb Pos.eqb].
    eexists. split; [unfold pure; rewrite Nat.add_0_r; reflexivity|].
    cbn [plat nxfer trace]. repeat split; try lia.
    unfold count. cbn [filter is_sleep length]. lia.
  - assert (H0 : ret (bus (plat w) (nxfer w)) <> 2).
    { specialize (Hf 0%nat ltac:(lia)). now rewrite Nat.add_0_r in Hf. }
    destruct (Z.eqb_spec (ret (bus (plat w) (nxfer w))) 2) as [|_];
      [contradiction|].
    unfold bind at 1, usleep_range, act, emit.
    cbn [plat nxfer trace bl_status input].
    match goal with
    | |- context [read_burst_loop n msgs len ?l ?w1] =>
        destruct (IH msgs len l w1 k) as (w' & E & Hp & Hn & Hc)
    end.
    { lia. }
    { intros j Hj. cbn [plat nxfer].
      replace (S (nxfer w) + j)%nat with (nxfer w + S j)%nat by lia.
      apply Hf. lia. }
    { cbn [plat nxfer].
      replace (S (nxfer w) + k)%nat with (nxfer w + S k)%nat by lia.
      exact Hok. }
    cbn [plat nxfer trace] in *.
    exists w'. rewrite E. repeat split.
    + do 4 f_equal. lia.
    + exact Hp.
    + lia.
    + rewrite Hc. unfold count. cbn [filter is_sleep length]. lia.
Qed.

(** The three ways a burst read ends. *)
Lemma read_burst_cases (w : world) (reg : Z) (len : nat) :
  (forall k,
     (k < 10)%nat ->
     (forall j, (j < k)%nat -> ret (bus (plat w) (nxfer w + j)) <> 2) ->
     ret (bus (plat w) (nxfer w + k)) = 2 ->
     exists w',
       iqs5xx_read_burst reg len w =
         ((0, rx_bytes len (bus (plat w) (nxfer w + k))), w') /\
       nxfer w' = (nxfer w + k + 1)%nat /\
       count is_sleep (trace w') = (count is_sleep (trace w) + k)%nat) /\
  ((forall j, (j < 10)%nat -> ret (bus (plat w) (nxfer w + j)) <> 2) ->
   exists w',
     iqs5xx_read_burst reg len w =
       ((msg_fail (ret (bus (plat w) (nxfer w + 9))), []), w') /\
     msg_fail (ret (bus (plat w) (nxfer w + 9))) <> 0 /\
     nxfer w' = (nxfer w + 10)%nat /\
     count is_sleep (trace w') = (count is_sleep (trace w) + 10)%nat).
Proof.
  split.
  - intros k Hk Hf Hok. unfold iqs5xx_read_burst.
    unfold bind at 1, get at 1. unfold bind at 1.
    change IQS5XX_NUM_RETRIES with 10%nat.
    match goal with
    | |- context [read_burst_loop 10 ?m ?l ?z w] =>
        destruct (read_burst_loop_hit 10 m l z w k Hk Hf Hok)
          as (w' & E & Hp & Hn & Hc)
    end.
    exists w'. rewrite E. unfold pure. auto.
  - intros Hf. unfold iqs5xx_read_burst.
    unfold bind at 1, get at 1. unfold bind at 1.
    change IQS5XX_NUM_RETRIES with 10%nat.
    match goal with
    | |- context [read_burst_loop 10 ?m ?l ?z w] =>
        destruct (read_burst_loop_fail 10 m l z w Hf)
          as (w' & E & Hp & Hn & Hc)
    end.
    exists w'. rewrite E. unfold pure, msg_fail. repeat split; auto.
    destruct (ret (bus (plat w) (nxfer w + 9)) >=? 0) eqn:G;
      [discriminate|].
    intros Hz. rewrite Hz in G. discriminate.
Qed.

(** X7: [iqs5xx_read_burst] tries the two-message transfer up to ten
    times with a sleep after each failure.  If the transfer number [k]
    (counted from 0, [k < 10]) is the first to return 2, the read returns
    0 with the bytes of that transfer after [k + 1] transfers and [k]
    sleeps; if none of the ten does, it returns the error of the tenth
    ([-EIO] if that was not negative) after ten transfers and ten sleeps,
    and that error is not 0. *)
Theorem read_burst_retries (w : world) (reg : Z) (len : nat) :
  (forall k,
     (k < 10)%nat ->
     (forall j, (j < k)%nat -> ret (bus (plat w) (nxfer w + j)) <> 2) ->
     ret (bus (plat w) (nxfer w + k)) = 2 ->
     exists w',
       iqs5xx_read_burst reg len w =
         ((0, rx_bytes len (bus (plat w) (nxfer w + k))), w') /\
       nxfer w' = (nxfer w + k + 1)%nat /\
       count is_sleep (trace w') = (count is_sleep (trace w) + k)%nat) /\
  ((forall j, (j < 10)%nat -> ret (bus (plat w) (nxfer w + j)) <> 2) ->
   exists w',
     iqs5xx_read_burst reg len w =
       ((msg_fail (ret (bus (plat w) (nxfer w + 9))), []), w') /\
     msg_fail (ret (bus (plat w) (nxfer w + 9))) <> 0 /\
     nxfer w' = (nxfer w + 10)%nat /\
     count is_sleep (trace w') = (count is_sleep (trace w) + 10)%nat).
Proof. exact (read_burst_cases w reg len). Qed.

Lemma read_burst_retries_witness :
  (exists w',
     iqs5xx_read_burst IQS5XX_PROD_NUM 7
       (boot (board (script_bus [nak; nak; rd2 [0; 40; 0; 15; 2; 0; 0xA5]] nak)
                    eof_only_image) 0 false)
     = ((0, [0; 40; 0; 15; 2; 0; 0xA5]), w') /\ nxfer w' = 3%nat) /\
  (exists w',
     iqs5xx_read_burst IQS5XX_PROD_NUM 7 (boot demo_board 0 false)
     = ((- EIO, []), w') /\ nxfer w' = 10%nat).
Proof.
  split.
  - destruct (proj1 (read_burst_retries
                (boot (board (script_bus
                               [nak; nak; rd2 [0; 40; 0; 15; 2; 0; 0xA5]] nak)
                             eof_only_image) 0 false) IQS5XX_PROD_NUM 7)
                2%nat) as (w' & E & Hn & _).
    + lia.
    + intros [|[|j]] Hj; [discriminate|discriminate|lia].
    + reflexivity.
    + exists w'. split; [exact E|exact Hn].
  - destruct (proj2 (read_burst_retries (boot demo_board 0 false)
                       IQS5XX_PROD_NUM 7)) as (w' & E & _ & Hn & _).
    + intros j _. cbn. destruct j as [|[|j]]; discriminate.
    + exists w'. split; [exact E|exact Hn].
Defined.

Lemma write_burst_loop_fail (n : nat) :
  forall addr mbuf last w,
    (0 < length mbuf)%nat ->
    (forall j, (j < n)%nat -> ret (bus (plat w) (nxfer w + j)) <= 0) ->
    exists w',
      write_burst_loop n addr mbuf last w =
        (Some (match n with
               | O => last
               | S n' => ret (bus (plat w) (nxfer w + n'))
               end), w') /\
      plat w' = plat w /\ nxfer w' = (nxfer w + n)%nat /\
      count is_sleep (trace w') = (count is_sleep (trace w) + n)%nat.
Proof.
  induction n as [|n IH]; intros addr mbuf last w Hm Hf.
  - exists w. cbn [write_burst_loop]. unfold pure. repeat split; lia.
  - cbn [write_burst_loop]. unfold bind at 1, i2c_master_send.
    unfold bind at 1, i2c_transfer, pure.
    assert (H0 : ret (bus (plat w) (nxfer w)) <= 0).
    { specialize (Hf 0%nat ltac:(lia)). now rewrite Nat.add_0_r in Hf. }
    destruct (Z.eqb_spec (ret (bus (plat w) (nxfer w))) 1) as [|_]; [lia|].
    destruct (Z.eqb_spec (ret (bus (plat w) (nxfer w)))
                (Z.of_nat (length mbuf))) as [|_]; [lia|].
    unfold bind at 1, usleep_range, act, emit.
    cbn [plat nxfer trace bl_status input].
    match goal with
    | |- context [write_burst_loop n addr mbuf ?l ?w1] =>
        destruct (IH addr mbuf l w1 Hm) as (w' & E & Hp & Hn & Hc)
    end.
    { intros j Hj. cbn [plat nxfer].
      replace (S (nxfer w) + j)%nat with (nxfer w + S j)%nat by lia.
      apply Hf. lia. }
    cbn [plat nxfer trace] in *.
    exists w'. rewrite E. repeat split.
    + do 2 f_equal. destruct n as [|n'].
      * now rewrite Nat.add_0_r.
      * do 2 f_equal. lia.
    + exact Hp.
    + lia.
    + rewrite Hc. unfold count. cbn [filter is_sleep length]. lia.
Qed.

Lemma write_burst_loop_hit (n : nat) :
  forall addr mbuf last w k,
    (0 < length mbuf)%nat ->
    (k < n)%nat ->
    (forall j, (j < k)%nat -> ret (bus (plat w) (nxfer w + j)) <= 0) ->
    ret (bus (plat w) (nxfer w + k)) = 1 ->
    exists w',
      write_burst_loop n addr mbuf last w = (None, w') /\
      plat w' = plat w /\ nxfer w' = (nxfer w + k + 1)%nat /\
      count is_sleep (trace w') = (count is_sleep (trace w) + k)%nat /\
      hd_error (trace w') =
        Some (EvXfer [{| msg_addr := addr; msg_rd := false;
                         msg_len := Z.of_nat (length mbuf);
                         msg_buf := mbuf |}]).
Proof.
  induction n as [|n IH]; intros addr mbuf last w k Hm Hk Hf Hok; [lia|].
  cbn [write_burst_loop]. unfold bind at 1, i2c_master_send.
  unfold bind at 1, i2c_transfer, pure.
  destruct k as [|k].
  - rewrite Nat.add_0_r in Hok. rewrite Hok. cbn [Z.eqb Pos.eqb].
    rewrite Z.eqb_refl.
    eexists. split; [reflexivity|].
    cbn [plat nxfer trace hd_error]. repeat split; try lia.
    unfold count. cbn [filter is_sleep length]. lia.
  - assert (H0 : ret (bus (plat w) (nxfer w)) <= 0).
    { specialize (Hf 0%nat ltac:(lia)). now rewrite Nat.add_0_r in Hf. }
    destruct (Z.eqb_spec (ret (bus (plat w) (nxfer w))) 1) as [|_]; [lia|].
    destruct (Z.eqb_spec (ret (bus (plat w) (nxfer w)))
                (Z.of_nat (length mbuf))) as [|_]; [lia|].
    unfold bind at 1, usleep_range, act, emit.
    cbn [plat nxfer trace bl_status input].
    match goal with
    | |- context [write_burst_loop n addr mbuf ?l ?w1] =>
        destruct (IH addr mbuf l w1 k Hm) as (w' & E & Hp & Hn & Hc & Hh)
    end.
    { lia. }
    { intros j Hj. cbn [plat nxfer].
      replace (S (nxfer w) + j)%nat with (nxfer w + S j)%nat by lia.
      apply Hf. lia. }
    { cbn [plat nxfer].
      replace (S (nxfer w) + k)%nat with (nxfer w + S k)%nat by lia.
      exact Hok. }
    cbn [plat nxfer trace] in *.
    exists w'. rewrite E. repeat split.
    + exact Hp.
    + lia.
    + rewrite Hc. unfold count. cbn [filter is_sleep length]. lia.
    + exact Hh.
Qed.

(** The three ways a burst write ends. *)
Lemma write_burst_cases (w : world) (reg : Z) (val : list Z) :
  (2 < Z.of_nat (length val) -> iqs5xx_write_burst reg val w = (- EINVAL, w)) /\
  (Z.of_nat (length val) <= 2 ->
   forall k,
     (k < 10)%nat ->
     (forall j, (j < k)%nat -> ret (bus (plat w) (nxfer w + j)) <= 0) ->
     ret (bus (plat w) (nxfer w + k)) = 1 ->
     exists w',
       iqs5xx_write_burst reg val w = (0, w') /\
       nxfer w' = (nxfer w + k + 1)%nat /\
       count is_sleep (trace w') = (count is_sleep (trace w) + k)%nat /\
       hd_error (trace w') =
         Some (EvXfer [{| msg_addr := client_addr (plat w); msg_rd := false;
                          msg_len := Z.of_nat (length (put_be16 reg ++ val));
                          msg_buf := put_be16 reg ++ val |}])) /\
  (Z.of_nat (length val) <= 2 ->
   (forall j, (j < 10)%nat -> ret (bus (plat w) (nxfer w + j)) <= 0) ->
   exists w',
     iqs5xx_write_burst reg val w =
       (msg_fail (ret (bus (plat w) (nxfer w + 9))), w') /\
     msg_fail (ret (bus (plat w) (nxfer w + 9))) <> 0 /\
     nxfer w' = (nxfer w + 10)%nat /\
     count is_sleep (trace w') = (count is_sleep (trace w) + 10)%nat).
Proof.
  split; [|split].
  - intros Hl. unfold iqs5xx_write_burst.
    destruct (Z.gtb_spec (Z.of_nat (length val)) IQS5XX_WR_BYTES_MAX) as [_|G];
      [reflexivity|unfold IQS5XX_WR_BYTES_MAX in G; lia].
  - intros Hl k Hk Hf Hok. unfold iqs5xx_write_burst.
    destruct (Z.gtb_spec (Z.of_nat (length val)) IQS5XX_WR_BYTES_MAX) as [G|_];
      [unfold IQS5XX_WR_BYTES_MAX in G; lia|].
    unfold bind at 1, get at 1. unfold bind at 1.
    change IQS5XX_NUM_RETRIES with 10%nat.
    destruct (write_burst_loop_hit 10 (client_addr (plat w))
                (put_be16 reg ++ val) 0 w k ltac:(cbn; lia) Hk Hf Hok)
      as (w' & E & Hp & Hn & Hc & Hh).
    exists w'. rewrite E. unfold pure. auto.
  - intros Hl Hf. unfold iqs5xx_write_burst.
    destruct (Z.gtb_spec (Z.of_nat (length val)) IQS5XX_WR_BYTES_MAX) as [G|_];
      [unfold IQS5XX_WR_BYTES_MAX in G; lia|].
    unfold bind at 1, get at 1. unfold bind at 1.
    change IQS5XX_NUM_RETRIES with 10%nat.
    destruct (write_burst_loop_fail 10 (client_addr (plat w))
                (put_be16 reg ++ val) 0 w ltac:(cbn; lia) Hf)
      as (w' & E & Hp & Hn & Hc).
    exists w'. rewrite E. unfold pure, msg_fail. repeat split; auto.
    destruct (ret (bus (plat w) (nxfer w + 9)) >=? 0) eqn:G;
      [discriminate|].
    intros Hz. rewrite Hz in G. discriminate.
Qed.

(** X8: [iqs5xx_write_burst] refuses more than two bytes with [-EINVAL]
    before it touches the bus.  Otherwise it sends the register address
    and the bytes in one message, up to ten times with a sleep after each
    failure: if attempt [k < 10] is the first the adapter accepts, the
    write returns 0 after [k + 1] transfers and [k] sleeps; if the adapter
    refuses all ten, the write returns the error of the tenth ([-EIO] for
    a refusal that is no error code), which is not 0. *)
Theorem write_burst_retries (w : world) (reg : Z) (val : list Z) :
  (2 < Z.of_nat (length val) -> iqs5xx_write_burst reg val w = (- EINVAL, w)) /\
  (Z.of_nat (length val) <= 2 ->
   forall k,
     (k < 10)%nat ->
     (forall j, (j < k)%nat -> ret (bus (plat w) (nxfer w + j)) <= 0) ->
     ret (bus (plat w) (nxfer w + k)) = 1 ->
     exists w',
       iqs5xx_write_burst reg val w = (0, w') /\
       nxfer w' = (nxfer w + k + 1)%nat /\
       count is_sleep (trace w') = (count is_sleep (trace w) + k)%nat /\
       hd_error (trace w') =
         Some (EvXfer [{| msg_addr := client_addr (plat w); msg_rd := false;
                          msg_len := Z.of_nat (length (put_be16 reg ++ val));
                          msg_buf := put_be16 reg ++ val |}])) /\
  (Z.of_nat (length val) <= 2 ->
   (forall j, (j < 10)%nat -> ret (bus (plat w) (nxfer w + j)) <= 0) ->
   exists w',
     iqs5xx_write_burst reg val w =
       (msg_fail (ret (bus (plat w) (nxfer w + 9))), w') /\
     msg_fail (ret (bus (plat w) (nxfer w + 9))) <> 0 /\
     nxfer w' = (nxfer w + 10)%nat /\
     count is_sleep (trace w') = (count is_sleep (trace w) + 10)%nat).
Proof. exact (write_burst_cases w reg val). Qed.

Lemma write_burst_retries_witness :
  iqs5xx_write_burst IQS5XX_X_RES [1; 2; 3] (boot demo_board 0 false)
    = (- EINVAL, boot demo_board 0 false) /\
  (exists w',
     iqs5xx_write_burst IQS5XX_END_COMM [0]
       (boot (board (script_bus [nak; ack] nak) eof_only_image) 0 false)
     = (0, w') /\ nxfer w' = 2%nat) /\
  (exists w',
     iqs5xx_write_burst IQS5XX_END_COMM [0]
       (boot (board (script_bus [] nak) eof_only_image) 0 false)
     = (-6, w') /\ nxfer w' = 10%nat).
Proof.
  split; [|split].
  - apply (proj1 (write_burst_retries (boot demo_board 0 false)
                    IQS5XX_X_RES [1; 2; 3])).
    cbn. lia.
  - destruct (proj1 (proj2 (write_burst_retries
                (boot (board (script_bus [nak; ack] nak) eof_only_image)
                      0 false) IQS5XX_END_COMM [0]))
                ltac:(cbn; lia) 1%nat) as (w' & E & Hn & _).
    + lia.
    + intros [|j] Hj; [cbn; lia|lia].
    + reflexivity.
    + exists w'. split; [exact E|exact Hn].
  - destruct (proj2 (proj2 (write_burst_retries
                (boot (board (script_bus [] nak) eof_only_image) 0 false)
                IQS5XX_END_COMM [0])) ltac:(cbn; lia))
      as (w' & E & _ & Hn & _).
    + intros j _. cbn. destruct j as [|[|j]]; cbn; lia.
    + exists w'. split; [exact E|exact Hn].
Defined.

Lemma u8_u8 (v : Z) : u8 (u8 v) = u8 v.
Proof. unfold u8. apply Z.mod_mod. lia. Qed.

Lemma u8_range (v : Z) : 0 <= u8 v < 256.
Proof. unfold u8. apply Z.mod_pos_bound. lia. Qed.

Lemma put_be16_u16 (v : Z) : put_be16 v = put_be16 (u16 v).
Proof.
  unfold put_be16, u16, u8. rewrite Z.mod_mod by lia.
  do 2 f_equal.
  rewrite Z.mod_mod_divide; [reflexivity|]. now exists 256.
Qed.

Lemma get_be16_put (v : Z) :
  get_be16 (nth 0 (map u8 (put_be16 v)) 0) (nth 1 (map u8 (put_be16 v)) 0)
  = u16 v.
Proof.
  rewrite put_be16_u16.
  rewrite <- (get_put_be16 (u16 v)) at 3
    by (unfold u16; apply Z.mod_pos_bound; lia).
  unfold put_be16. cbn [map nth]. now rewrite !u8_u8.
Qed.

(** X9: a word goes over the bus big-endian in both directions: the two
    bytes [iqs5xx_write_word] sends after the register address, handed
    back by the device to [iqs5xx_read_word], read as the value written
    (modulo 2^16). *)
Theorem word_round_trip (w1 w2 : world) (reg val : Z) :
  ret (bus (plat w1) (nxfer w1)) = 1 ->
  ret (bus (plat w2) (nxfer w2)) = 2 ->
  rx (bus (plat w2) (nxfer w2)) = put_be16 val ->
  exists w1',
    iqs5xx_write_word reg val w1 = (0, w1') /\
    hd_error (trace w1') =
      Some (EvXfer [{| msg_addr := client_addr (plat w1); msg_rd := false;
                       msg_len := 4;
                       msg_buf := put_be16 reg ++ put_be16 val |}]) /\
    fst (iqs5xx_read_word reg w2) = (0, u16 val).
Proof.
  intros Hw Hr Hrx.
  destruct (proj1 (proj2 (write_burst_cases w1 reg (put_be16 val)))
              ltac:(cbn; lia) 0%nat) as (w1' & E & _ & _ & Hh).
  - lia.
  - intros j Hj. lia.
  - now rewrite Nat.add_0_r.
  - exists w1'. unfold iqs5xx_write_word. rewrite E.
    split; [reflexivity|]. split; [exact Hh|].
    destruct (proj1 (read_burst_cases w2 reg 2) 0%nat) as (w2' & E2 & _).
    + lia.
    + intros j Hj. lia.
    + now rewrite Nat.add_0_r.
    + unfold iqs5xx_read_word, bind. rewrite E2. cbn [Z.eqb fst pure].
      rewrite Nat.add_0_r. unfold rx_bytes. rewrite Hrx.
      unfold pure. cbn [fst]. f_equal.
      change (firstn 2 (map u8 (put_be16 val) ++ repeat 0 2))
        with (map u8 (put_be16 val)).
      apply get_be16_put.
Qed.

Lemma word_round_trip_witness :
  exists w1',
    iqs5xx_write_word IQS5XX_X_RES 768 (boot demo_board 0xA5 true)
      = (0, w1') /\
    hd_error (trace w1') =
      Some (EvXfer [{| msg_addr := 0x74; msg_rd := false; msg_len := 4;
                       msg_buf := [0x06; 0x6E; 3; 0] |}]) /\
    fst (iqs5xx_read_word IQS5XX_X_RES
           (boot (board (script_bus [rd2 [3; 0]] nak) eof_only_image)
                 0xA5 true)) = (0, 768).
Proof.
  apply (word_round_trip (boot demo_board 0xA5 true)
           (boot (board (script_bus [rd2 [3; 0]] nak) eof_only_image)
                 0xA5 true) IQS5XX_X_RES 768); reflexivity.
Defined.

(** ** Bootloader commands *)

(** X10: the outcome of a bootloader command.  An opcode other than
    Version, Read, Execute, CRC is refused with [-EINVAL] before the bus.
    A Version probe returns 0 exactly when the command write and the
    two-byte read both get through and the ID read is 0x0200; a CRC
    command returns 0 exactly when both transfers get through and the
    byte read is 0 (pass), and its result is never read without the 50 ms
    wait after the command.  Execute is one write followed by a 10 ms
    wait, with nothing read back. *)
Theorem bl_cmd_outcome (w : world) :
  (forall bl_cmd bl_addr,
     bl_cmd <> IQS5XX_BL_CMD_VER -> bl_cmd <> IQS5XX_BL_CMD_READ ->
     bl_cmd <> IQS5XX_BL_CMD_EXEC -> bl_cmd <> IQS5XX_BL_CMD_CRC ->
     iqs5xx_bl_cmd bl_cmd bl_addr w = (- EINVAL, w)) /\
  (fst (iqs5xx_bl_cmd IQS5XX_BL_CMD_VER 0 w) = 0 <->
   ret (bus (plat w) (nxfer w)) = 1 /\
   ret (bus (plat w) (S (nxfer w))) = 1 /\
   ~ wrong_id (bus (plat w) (S (nxfer w)))) /\
  (fst (iqs5xx_bl_cmd IQS5XX_BL_CMD_CRC 0 w) = 0 <->
   ret (bus (plat w) (nxfer w)) = 1 /\
   ret (bus (plat w) (S (nxfer w))) = 1 /\
   nth 0 (rx_bytes 1 (bus (plat w) (S (nxfer w)))) 0 = IQS5XX_BL_CRC_PASS) /\
  (ret (bus (plat w) (nxfer w)) = 1 ->
   trace (snd (iqs5xx_bl_cmd IQS5XX_BL_CMD_CRC 0 w)) =
     EvXfer [bl_msg (client_addr (plat w)) true 1 []]
     :: EvSleep 50000
     :: EvXfer [bl_msg (client_addr (plat w)) false 1 [IQS5XX_BL_CMD_CRC]]
     :: trace w) /\
  (ret (bus (plat w) (nxfer w)) = 1 ->
   iqs5xx_bl_cmd IQS5XX_BL_CMD_EXEC 0 w =
     (0, emit (EvSleep 10000)
           (snd (i2c_transfer
                   [bl_msg (client_addr (plat w)) false 1
                      [IQS5XX_BL_CMD_EXEC]] w)))).
Proof.
  assert (Hmf : forall r, msg_fail r <> 0).
  { intros r. unfold msg_fail. destruct (Z.geb_spec r 0); [discriminate|lia]. }
  split; [|split; [|split; [|split]]].
  - intros c x H0 H1 H2 H3. unfold iqs5xx_bl_cmd, bind, get.
    destruct (Z.eqb_spec c IQS5XX_BL_CMD_VER); [contradiction|].
    destruct (Z.eqb_spec c IQS5XX_BL_CMD_CRC); [contradiction|].
    destruct (Z.eqb_spec c IQS5XX_BL_CMD_EXEC); [contradiction|].
    destruct (Z.eqb_spec c IQS5XX_BL_CMD_READ); [contradiction|].
    reflexivity.
  - unfold iqs5xx_bl_cmd, bind, get, i2c_transfer, wrong_id. cbn -[rx_bytes get_be16 nth].
    destruct (Z.eqb_spec (ret (bus (plat w) (nxfer w))) 1) as [E1|N1]; cbn -[rx_bytes get_be16 nth].
    + destruct (Z.eqb_spec (ret (bus (plat w) (S (nxfer w)))) 1) as [E2|N2];
        cbn -[rx_bytes get_be16 nth].
      * destruct (Z.eqb_spec
                    (get_be16
                       (nth 0 (rx_bytes 2 (bus (plat w) (S (nxfer w)))) 0)
                       (nth 1 (rx_bytes 2 (bus (plat w) (S (nxfer w)))) 0))
                    IQS5XX_BL_ID) as [Ei|Ni]; cbn -[rx_bytes get_be16 nth].
        -- split; [intros _; repeat split; auto|reflexivity].
        -- split; [discriminate|]. intros (_ & _ & H). now elim H.
      * split; [intros H; now elim (Hmf _ H)|]. intros (_ & H & _).
        contradiction.
    + split; [intros H; now elim (Hmf _ H)|]. intros (H & _). contradiction.
  - unfold iqs5xx_bl_cmd, bind, get, i2c_transfer, msleep, act. cbn -[rx_bytes get_be16 nth].
    destruct (Z.eqb_spec (ret (bus (plat w) (nxfer w))) 1) as [E1|N1]; cbn -[rx_bytes get_be16 nth].
    + destruct (Z.eqb_spec (ret (bus (plat w) (S (nxfer w)))) 1) as [E2|N2];
        cbn -[rx_bytes get_be16 nth].
      * destruct (Z.eqb_spec
                    (nth 0 (rx_bytes 1 (bus (plat w) (S (nxfer w)))) 0)
                    IQS5XX_BL_CRC_PASS) as [Ei|Ni]; cbn -[rx_bytes get_be16 nth].
        -- split; [intros _; repeat split; auto|reflexivity].
        -- split; [discriminate|]. intros (_ & _ & H). contradiction.
      * split; [intros H; now elim (Hmf _ H)|]. intros (_ & H & _).
        contradiction.
    + split; [intros H; now elim (Hmf _ H)|]. intros (H & _). contradiction.
  - intros E1. unfold iqs5xx_bl_cmd, bind, get, i2c_transfer, msleep, act.
    cbn -[rx_bytes get_be16 nth]. rewrite E1. cbn -[rx_bytes get_be16 nth].
    destruct (negb (ret (bus (plat w) (S (nxfer w))) =? 1)); cbn -[rx_bytes get_be16 nth];
      [reflexivity|].
    destruct (negb _); reflexivity.
  - intros E1. unfold iqs5xx_bl_cmd, bind, get, i2c_transfer, usleep_range,
      act. cbn -[rx_bytes get_be16 nth]. rewrite E1. reflexivity.
Qed.

Lemma bl_cmd_outcome_witness :
  iqs5xx_bl_cmd 4 0 (boot demo_board 0 false)
    = (- EINVAL, boot demo_board 0 false) /\
  trace (snd (iqs5xx_bl_cmd IQS5XX_BL_CMD_CRC 0 (boot demo_board 0 false))) =
    [EvXfer [bl_msg 0x74 true 1 []]; EvSleep 50000;
     EvXfer [bl_msg 0x74 false 1 [IQS5XX_BL_CMD_CRC]]].
Proof.
  destruct (bl_cmd_outcome (boot demo_board 0 false))
    as (H1 & _ & _ & H4 & _).
  split.
  - apply H1; discriminate.
  - apply H4. reflexivity.
Defined.

Lemma bl_cmd_ver_answer (w : world) :
  ret (bus (plat w) (nxfer w)) = 1 ->
  ret (bus (plat w) (S (nxfer w))) = 1 ->
  ~ wrong_id (bus (plat w) (S (nxfer w))) ->
  iqs5xx_bl_cmd IQS5XX_BL_CMD_VER 0 w =
  (0,
   {| plat := plat w; nxfer := S (S (nxfer w));
      trace := EvXfer [bl_msg (client_addr (plat w)) true 2 []]
               :: EvXfer [bl_msg (client_addr (plat w)) false 1 [0]]
               :: trace w;
      bl_status := bl_status w; input := input w |}).
Proof.
  intros H1 H2 H3. unfold iqs5xx_bl_cmd, bind, get, i2c_transfer.
  cbn -[rx_bytes get_be16 nth].
  rewrite H1. cbn -[rx_bytes get_be16 nth]. rewrite H2.
  cbn -[rx_bytes get_be16 nth].
  unfold wrong_id in H3. cbv zeta in H3.
  destruct (Z.eqb_spec
              (get_be16 (nth 0 (rx_bytes 2 (bus (plat w) (S (nxfer w)))) 0)
                        (nth 1 (rx_bytes 2 (bus (plat w) (S (nxfer w)))) 0))
              IQS5XX_BL_ID) as [_|N]; [reflexivity|].
  now elim H3.
Qed.

Lemma bl_open_probe_hit (j : nat) :
  forall w last k,
    (k < j)%nat ->
    (forall i, (i < k)%nat -> silent (bus (plat w) (nxfer w + i))) ->
    ret (bus (plat w) (nxfer w + k)) = 1 ->
    ret (bus (plat w) (nxfer w + k + 1)) = 1 ->
    ~ wrong_id (bus (plat w) (nxfer w + k + 1)) ->
    exists w',
      bl_open_probe j last w = (inr 0, w') /\
      same_driver w w' /\
      nxfer w' = (nxfer w + k + 2)%nat /\
      resets (trace w') = resets (trace w) /\
      probes (trace w') = (probes (trace w) + k + 1)%nat.
Proof.
  induction j as [|j IH]; intros w last k Hk Hs H1 H2 H3; [lia|].
  cbn [bl_open_probe]. unfold bind at 1.
  destruct k as [|k].
  - rewrite Nat.add_0_r in *.
    replace (nxfer w + 1)%nat with (S (nxfer w)) in * by lia.
    rewrite (bl_cmd_ver_answer w H1 H2 H3). cbn [Z.eqb orb].
    eexists. split; [reflexivity|].
    unfold same_driver. cbn [plat nxfer trace bl_status input].
    repeat split; try lia. unfold probes. cbn. lia.
  - assert (S0 : silent (bus (plat w) (nxfer w))).
    { specialize (Hs 0%nat ltac:(lia)). now rewrite Nat.add_0_r in Hs. }
    rewrite (bl_cmd_ver_no_answer w (proj1 S0)).
    rewrite (msg_fail_silent _ S0).
    set (w1 := {| plat := plat w; nxfer := S (nxfer w);
                  trace := EvXfer [bl_msg (client_addr (plat w)) false 1 [0]]
                           :: trace w;
                  bl_status := bl_status w; input := input w |}).
    destruct (IH w1 (msg_fail (ret (bus (plat w) (nxfer w)))) k)
      as (w' & E & (Hp & Hb & Hi) & Hn & Hr & Hq).
    + lia.
    + intros i Hi. cbn [plat nxfer w1].
      replace (S (nxfer w) + i)%nat with (nxfer w + S i)%nat by lia.
      apply Hs. lia.
    + cbn [plat nxfer w1].
      replace (S (nxfer w) + k)%nat with (nxfer w + S k)%nat by lia.
      exact H1.
    + cbn [plat nxfer w1].
      replace (S (nxfer w) + k + 1)%nat with (nxfer w + S k + 1)%nat by lia.
      exact H2.
    + cbn [plat nxfer w1].
      replace (S (nxfer w) + k + 1)%nat with (nxfer w + S k + 1)%nat by lia.
      exact H3.
    + assert (F2 : nxfer w1 = S (nxfer w)) by reflexivity.
      assert (F3 : resets (trace w1) = resets (trace w)) by reflexivity.
      assert (F4 : probes (trace w1) = S (probes (trace w))) by reflexivity.
      assert (F1 : plat w1 = plat w) by reflexivity.
      assert (F5 : bl_status w1 = bl_status w) by reflexivity.
      assert (F6 : input w1 = input w) by reflexivity.
      clearbody w1.
      exists w'. rewrite E. split; [reflexivity|].
      unfold same_driver. rewrite Hp, Hb, Hi.
      repeat split; auto; lia.
Qed.

Lemma bl_open_attempt_hit (i : nat) :
  forall w last m,
    (m < i * 10)%nat ->
    (forall j, (j < m)%nat -> silent (bus (plat w) (nxfer w + j))) ->
    ret (bus (plat w) (nxfer w + m)) = 1 ->
    ret (bus (plat w) (nxfer w + m + 1)) = 1 ->
    ~ wrong_id (bus (plat w) (nxfer w + m + 1)) ->
    exists w',
      bl_open_attempt i last w = (0, w') /\
      same_driver w w' /\
      nxfer w' = (nxfer w + m + 2)%nat /\
      resets (trace w') = (resets (trace w) + m / 10 + 1)%nat /\
      probes (trace w') = (probes (trace w) + m + 1)%nat.
Proof.
  induction i as [|i IH]; intros w last m Hm Hs H1 H2 H3; [lia|].
  cbn [bl_open_attempt]. unfold bind at 1. rewrite iqs5xx_reset_eq.
  set (w0 := emit (EvGpio 0) (emit (EvSleep 200) (emit (EvGpio 1) w))).
  assert (F1 : plat w0 = plat w) by reflexivity.
  assert (F2 : nxfer w0 = nxfer w) by reflexivity.
  assert (F3 : resets (trace w0) = S (resets (trace w))) by reflexivity.
  assert (F4 : probes (trace w0) = probes (trace w)) by reflexivity.
  assert (F5 : bl_status w0 = bl_status w) by reflexivity.
  assert (F6 : input w0 = input w) by reflexivity.
  clearbody w0.
  unfold bind at 1. change IQS5XX_NUM_RETRIES with 10%nat.
  destruct (Nat.lt_ge_cases m 10) as [Hlt|Hge].
  - destruct (bl_open_probe_hit 10 w0 last m Hlt)
      as (w' & E & (Hp & Hb & Hi) & Hn & Hr & Hq).
    + intros j Hj. rewrite F1, F2. now apply Hs.
    + now rewrite F1, F2.
    + now rewrite F1, F2.
    + now rewrite F1, F2.
    + exists w'. rewrite E. split; [reflexivity|].
      unfold same_driver. rewrite Hp, Hb, Hi.
      rewrite (Nat.div_small m 10 Hlt).
      repeat split; auto; lia.
  - pose proof (bl_open_probe_silent 10 w0 last) as P. cbv iota in P.
    destruct P as (w1 & E & (Hp & Hb & Hi) & Hn & Hr & Hq).
    { intros n Hn. rewrite F1.
      replace n with (nxfer w + (n - nxfer w))%nat by lia.
      apply Hs. lia. }
    rewrite E.
    destruct (IH w1 (msg_fail (ret (bus (plat w0) (nxfer w0 + 9))))
                (m - 10)%nat)
      as (w' & E' & (Hp' & Hb' & Hi') & Hn' & Hr' & Hq').
    + lia.
    + intros j Hj. rewrite Hp, F1, Hn, F2.
      replace (nxfer w + 10 + j)%nat with (nxfer w + (10 + j))%nat by lia.
      apply Hs. lia.
    + rewrite Hp, F1, Hn, F2.
      replace (nxfer w + 10 + (m - 10))%nat with (nxfer w + m)%nat by lia.
      exact H1.
    + rewrite Hp, F1, Hn, F2.
      replace (nxfer w + 10 + (m - 10) + 1)%nat with (nxfer w + m + 1)%nat
        by lia.
      exact H2.
    + rewrite Hp, F1, Hn, F2.
      replace (nxfer w + 10 + (m - 10) + 1)%nat with (nxfer w + m + 1)%nat
        by lia.
      exact H3.
    + exists w'. rewrite E'. split; [reflexivity|].
      unfold same_driver. rewrite Hp', Hb', Hi', Hp, Hb, Hi.
      assert (D : (m / 10 = S ((m - 10) / 10))%nat).
      { replace m with ((m - 10) + 1 * 10)%nat at 1 by lia.
        rewrite Nat.div_add by lia. lia. }
      repeat split; auto; lia.
Qed.



(** ** The error convention *)

Section Returns.
Variable C : platform -> Prop.

Lemma returns_pure {A} (Q : A -> Prop) (x : A) : Q x -> returns C Q (pure x).
Proof. intros H w _. split; [exact H|reflexivity]. Qed.

Lemma returns_get {A} (Q : A -> Prop) (f : world -> A) :
  (forall w, C (plat w) -> Q (f w)) -> returns C Q (get f).
Proof. intros H w Hc. split; [now apply H|reflexivity]. Qed.

Lemma returns_act (Q : unit -> Prop) (e : event) :
  Q tt -> returns C Q (act e).
Proof. intros H w _. split; [exact H|reflexivity]. Qed.

Lemma returns_xfer (msgs : list i2c_msg) :
  returns C (fun _ => True) (i2c_transfer msgs).
Proof. intros w _. split; [exact I|reflexivity]. Qed.

Lemma returns_bind {A B} (QA : A -> Prop) (QB : B -> Prop)
    (c : M A) (k : A -> M B) :
  returns C QA c -> (forall x, QA x -> returns C QB (k x)) ->
  returns C QB (bind c k).
Proof.
  intros Hc Hk w Hw. unfold bind.
  specialize (Hc w Hw). destruct (c w) as [x w1]. cbn [fst snd] in Hc.
  destruct Hc as [Hx Hp].
  destruct (Hk x Hx w1) as [Hq Hp']; [now rewrite Hp|].
  split; [exact Hq|congruence].
Qed.

Lemma returns_weaken {A} (Q Q' : A -> Prop) (c : M A) :
  (forall x, Q x -> Q' x) -> returns C Q c -> returns C Q' c.
Proof.
  intros H Hc w Hw. destruct (Hc w Hw) as [Hq Hp]. split; auto.
Qed.
End Returns.

Lemma msg_fail_errno (r : Z) : errno (msg_fail r).
Proof. unfold errno, msg_fail. destruct (Z.geb_spec r 0); unfold EIO; lia. Qed.

Lemma msg_fail_nonzero (r : Z) : msg_fail r <> 0.
Proof. unfold msg_fail. destruct (Z.geb_spec r 0); [discriminate|lia]. Qed.

Create HintDb rets.
#[local] Hint Resolve msg_fail_errno : rets.

(** The value a step returns keeps to the convention. *)
Ltac errno_value :=
  try exact I;
  first
    [ assumption
    | apply msg_fail_errno
    | match goal with
      | |- errno (if ?r >=? 0 then _ else ?r) =>
          unfold errno; destruct (Z.geb_spec r 0); unfold EIO; lia
      end
    | solve [unfold errno, EINVAL, EIO, ENOMEM, EPERM, ENOENT in *; cbn; lia]
    | solve [cbn; unfold errno, EINVAL, EIO, ENOMEM, EPERM, ENOENT in *;
             cbn; lia] ].

Ltac returns_step :=
  match goal with
  | |- returns _ _ (bind (i2c_transfer _) _) =>
      eapply returns_bind; [apply returns_xfer|intros ? _]
  | |- returns _ _ (bind (act _) _) =>
      eapply returns_bind;
      [apply (returns_act _ (fun _ => True)); exact I|intros ? _]
  | |- returns _ _ (bind (usleep_range _) _) =>
      eapply returns_bind;
      [apply (returns_act _ (fun _ => True)); exact I|intros ? _]
  | |- returns _ _ (bind (msleep _) _) =>
      eapply returns_bind;
      [apply (returns_act _ (fun _ => True)); exact I|intros ? _]
  | |- returns _ _ (bind (get _) _) =>
      eapply returns_bind;
      [apply (returns_get _ (fun _ => True)); intros; exact I|intros ? _]
  | |- returns _ _ (bind _ _) =>
      eapply returns_bind; [solve [eauto with rets]|intros ? ?]
  | |- returns _ _ (pure _) => apply returns_pure; errno_value
  | |- returns _ _ (if ?b then _ else _) => destruct b
  | |- returns _ _ (match ?x with _ => _ end) => destruct x
  | |- returns _ _ _ => solve [eauto with rets]
  end.

Ltac returns_auto := repeat returns_step.

Section Convention.
Variable C : platform -> Prop.

Lemma read_burst_loop_rets (n : nat) :
  forall msgs len last,
    returns C (fun _ => True) (read_burst_loop n msgs len last).
Proof. induction n; intros; cbn [read_burst_loop]; returns_auto. Qed.

Lemma read_burst_rets (reg : Z) (len : nat) :
  returns C (fun ev => errno (fst ev)) (iqs5xx_read_burst reg len).
Proof.
  unfold iqs5xx_read_burst. returns_step.
  eapply returns_bind; [apply read_burst_loop_rets|intros o _].
  destruct o; apply returns_pure; cbn [fst]; errno_value.
Qed.

Lemma master_send_rets (addr : Z) (buf : list Z) :
  returns C (fun _ => True) (i2c_master_send addr buf).
Proof. unfold i2c_master_send. returns_auto. Qed.

Lemma write_burst_loop_rets (n : nat) :
  forall addr mbuf last,
    returns C (fun _ => True) (write_burst_loop n addr mbuf last).
Proof.
  induction n; intros; cbn [write_burst_loop]; [returns_auto|].
  eapply returns_bind; [apply master_send_rets|intros r _].
  returns_auto.
Qed.

Lemma write_burst_rets (reg : Z) (val : list Z) :
  returns C errno (iqs5xx_write_burst reg val).
Proof.
  unfold iqs5xx_write_burst. returns_step; [returns_auto|].
  returns_step.
  eapply returns_bind; [apply write_burst_loop_rets|intros o _].
  destruct o; apply returns_pure; errno_value.
Qed.
End Convention.

#[local] Hint Resolve read_burst_rets write_burst_rets : rets.

Section Convention2.
Variable C : platform -> Prop.

Lemma read_word_rets (reg : Z) :
  returns C (fun ev => errno (fst ev)) (iqs5xx_read_word reg).
Proof.
  unfold iqs5xx_read_word. returns_step. destruct x as [error v].
  cbn [fst] in *. destruct (Z.eqb_spec error 0) as [->|];
    apply returns_pure; cbn [fst]; errno_value.
Qed.

Lemma read_byte_rets (reg : Z) :
  returns C (fun ev => errno (fst ev)) (iqs5xx_read_byte reg).
Proof.
  unfold iqs5xx_read_byte. returns_step. destruct x as [error v].
  apply returns_pure. cbn [fst] in *. errno_value.
Qed.

Lemma write_word_rets (reg val : Z) :
  returns C errno (iqs5xx_write_word reg val).
Proof. unfold iqs5xx_write_word. returns_auto. Qed.

Lemma write_byte_rets (reg val : Z) :
  returns C errno (iqs5xx_write_byte reg val).
Proof. unfold iqs5xx_write_byte. returns_auto. Qed.

Lemma reset_rets : returns C (fun _ => True) iqs5xx_reset.
Proof.
  unfold iqs5xx_reset. returns_step. returns_step.
  apply returns_act. exact I.
Qed.

Lemma bl_cmd_rets (bl_cmd bl_addr : Z) :
  returns C errno (iqs5xx_bl_cmd bl_cmd bl_addr).
Proof. unfold iqs5xx_bl_cmd. returns_auto. Qed.
End Convention2.

#[local] Hint Resolve read_word_rets read_byte_rets write_word_rets
  write_byte_rets reset_rets bl_cmd_rets : rets.

Section Convention3.
Variable C : platform -> Prop.

Lemma bl_open_probe_rets (j : nat) :
  forall last,
    errno last ->
    returns C (fun o => match o with inl e | inr e => errno e end)
      (bl_open_probe j last).
Proof.
  induction j; intros last Hl; cbn [bl_open_probe]; returns_auto;
    try (now apply IHj).
Qed.

Lemma bl_open_attempt_rets (i : nat) :
  forall last, errno last -> returns C errno (bl_open_attempt i last).
Proof.
  induction i; intros last Hl; cbn [bl_open_attempt]; returns_auto.
  eapply returns_bind; [now apply bl_open_probe_rets|].
  intros [e|e] He; returns_auto; try (now apply IHi).
Qed.

Lemma bl_open_rets : returns C errno iqs5xx_bl_open.
Proof. apply bl_open_attempt_rets. unfold errno. lia. Qed.

Lemma bl_write_loop_rets (fuel : nat) :
  forall addr bl_addr pmap_data pmap_len i,
    returns C errno (bl_write_loop fuel addr bl_addr pmap_data pmap_len i).
Proof. induction fuel; intros; cbn [bl_write_loop]; returns_auto. Qed.

Lemma bl_write_rets (bl_addr : Z) (pmap_data : mem) (pmap_len : Z) :
  returns C errno (iqs5xx_bl_write bl_addr pmap_data pmap_len).
Proof.
  unfold iqs5xx_bl_write. returns_step; [returns_auto|].
  returns_step. apply bl_write_loop_rets.
Qed.

Lemma bl_verify_loop_rets (fuel : nat) :
  forall addr bl_addr pmap_data pmap_len i,
    returns C errno (bl_verify_loop fuel addr bl_addr pmap_data pmap_len i).
Proof. induction fuel; intros; cbn [bl_verify_loop]; returns_auto. Qed.

Lemma bl_verify_rets (bl_addr : Z) (pmap_data : mem) (pmap_len : Z) :
  returns C errno (iqs5xx_bl_verify bl_addr pmap_data pmap_len).
Proof.
  unfold iqs5xx_bl_verify. returns_step; [returns_auto|].
  returns_step. apply bl_verify_loop_rets.
Qed.
End Convention3.

#[local] Hint Resolve bl_open_rets bl_write_rets bl_verify_rets : rets.

Lemma set_input_rets (C : platform -> Prop) (b : bool) :
  returns C (fun _ => True) (fun w => (b, set_input b w)).
Proof. intros w _. split; [exact I|reflexivity]. Qed.

Lemma set_bl_status_rets (C : platform -> Prop) (v : Z) :
  returns C (fun _ => True) (fun w => (tt, set_bl_status v w)).
Proof. intros w _. split; [exact I|reflexivity]. Qed.

#[local] Hint Resolve set_input_rets set_bl_status_rets : rets.

Lemma set_state_rets (C : platform -> Prop) (state : Z) :
  returns C errno (iqs5xx_set_state state).
Proof. unfold iqs5xx_set_state. returns_auto. Qed.

Lemma flash_steps_rets (C : platform -> Prop) (pmap : mem) :
  returns C errno (flash_steps pmap).
Proof.
  unfold flash_steps. returns_step.
  eapply (returns_bind _ errno); [returns_auto|intros e He].
  returns_auto.
Qed.

Lemma axis_init_rets : returns input_core_ok errno iqs5xx_axis_init.
Proof.
  unfold iqs5xx_axis_init. returns_step.
  eapply (returns_bind _ (fun _ => True)); [returns_auto|intros alloc _].
  destruct (negb alloc); [returns_auto|].
  returns_step. returns_step. destruct x1 as [error val].
  cbn [fst] in *. destruct (negb (error =? 0)); [returns_auto|].
  returns_step. destruct x1 as [error0 val0].
  cbn [fst] in *. destruct (negb (error0 =? 0)); [returns_auto|].
  returns_step. destruct x1 as [error1 val1].
  cbn [fst] in *. destruct (negb (error1 =? 0)); [returns_auto|].
  destruct (if negb (Z.land val1 IQS5XX_SWITCH_XY_AXIS =? 0)
            then _ else _) as [max_x_hw max_y_hw].
  returns_step. destruct (negb (x1 =? 0)); [returns_auto|].
  destruct (max_x x0 >? max_x_hw); [returns_auto|].
  eapply (returns_bind _ (fun p => errno (fst p))).
  { destruct (max_x x0 =? 0); [|returns_auto].
    returns_step. destruct x2 as [e v]. cbn [fst] in *.
    destruct (negb (e =? 0)); returns_auto. }
  intros [e mx] He. cbn [fst] in He.
  destruct (negb (e =? 0)); [returns_auto|].
  destruct (max_y x0 >? max_y_hw); [returns_auto|].
  eapply (returns_bind _ (fun p => errno (fst p))).
  { destruct (max_y x0 =? 0); [|returns_auto].
    returns_step. destruct x2 as [e2 v]. cbn [fst] in *.
    destruct (negb (e2 =? 0)); returns_auto. }
  intros [e2 my] He2. cbn [fst] in He2.
  destruct (negb (e2 =? 0)); [returns_auto|].
  returns_step. destruct (negb (x2 =? 0)); [returns_auto|].
  returns_step. destruct (negb (x3 =? 0)); [returns_auto|].
  returns_step.
  apply returns_get. intros w Hc. apply Hc.
Qed.

#[local] Hint Resolve set_state_rets flash_steps_rets axis_init_rets : rets.

Lemma dev_init_rets : returns input_core_ok errno iqs5xx_dev_init.
Proof.
  unfold iqs5xx_dev_init. returns_step. destruct x as [error rxd].
  cbn [fst] in *. returns_auto.
  all: match goal with
       | |- returns _ _ (let '(_, _) := ?p in _) =>
           destruct p as [e v]; cbn [fst] in *
       end; returns_auto.
Qed.

Lemma decode_record_error (data : list Z) (pos : nat) (e : Z) :
  decode_record data pos = inl e -> e = - EINVAL.
Proof.
  unfold decode_record.
  repeat match goal with
         | |- (if ?b then _ else _) = _ -> _ => destruct b
         | |- match ?x with _ => _ end = _ -> _ => destruct x
         end; congruence.
Qed.

Lemma apply_record_error (r : ihex_rec) (pmap : mem) (e : Z) :
  apply_record r pmap = inl e -> e = - EINVAL.
Proof.
  unfold apply_record.
  repeat match goal with
         | |- (if ?b then _ else _) = _ -> _ => destruct b
         end; congruence.
Qed.

Lemma parse_loop_error (fuel : nat) :
  forall data pos pmap e pmap',
    parse_loop fuel data pos pmap = Some (e, pmap') ->
    e = 0 \/ e = - EINVAL.
Proof.
  induction fuel as [|fuel IH]; intros data pos pmap e pmap'; [discriminate|].
  cbn [parse_loop].
  destruct (decode_record data pos) as [e1|r] eqn:Ed.
  { intros [= <- <-]. right. eapply decode_record_error; eauto. }
  destruct (apply_record r pmap) as [e2|pm] eqn:Ea.
  { intros [= <- <-]. right. eapply apply_record_error; eauto. }
  destruct (negb _).
  - apply IH.
  - intros [= <- <-]. now left.
Qed.

Lemma fw_file_parse_rets (C : platform -> Prop) (fw_file : string)
    (pmap : mem) :
  returns C (fun ep => errno (fst ep)) (iqs5xx_fw_file_parse fw_file pmap).
Proof.
  unfold iqs5xx_fw_file_parse.
  eapply (returns_bind _ (fun ef => errno (fst ef))).
  { unfold reject_firmware. returns_auto. }
  intros [error data] He. cbn [fst] in He.
  destruct (negb (error =? 0)); [returns_auto|].
  unfold release_firmware. returns_step. apply returns_pure.
  destruct (parse_loop (S (length data)) data 0 pmap) as [[e p]|] eqn:Ep;
    cbn [fst].
  - destruct (parse_loop_error _ _ _ _ _ _ Ep) as [->| ->];
      unfold errno, EINVAL; lia.
  - unfold errno, EINVAL; lia.
Qed.

Lemma flash_resync_rets (error : Z) :
  returns input_core_ok errno (flash_resync error).
Proof.
  unfold flash_resync.
  eapply (returns_bind _ (fun _ => True)).
  { destruct (negb (error =? 0)); [|returns_auto].
    eapply (returns_bind _ (fun _ => True)); [apply reset_rets|intros _ _].
    apply returns_act. exact I. }
  intros _ _.
  eapply (returns_bind _ errno); [apply dev_init_rets|intros e He].
  returns_step. returns_step. returns_step. apply returns_pure.
  destruct ((e =? 0) && (x =? IQS5XX_BL_STATUS_RESET));
    [unfold errno, EINVAL; lia|exact He].
Qed.

#[local] Hint Resolve fw_file_parse_rets flash_resync_rets dev_init_rets
  : rets.

Lemma fw_file_write_rets (fw_file : string) :
  returns input_core_ok errno (iqs5xx_fw_file_write fw_file).
Proof.
  unfold iqs5xx_fw_file_write. returns_step.
  destruct (x =? IQS5XX_BL_STATUS_NONE); [returns_auto|].
  returns_step. returns_step. destruct (negb x1); [returns_auto|].
  returns_step. destruct x2 as [error pmap]. cbn [fst] in *.
  destruct (negb (error =? 0)); [returns_auto|].
  returns_step. returns_step.
  eapply (returns_bind _ (fun _ => True));
    [apply set_bl_status_rets|intros _ _].
  returns_auto.
Qed.

Lemma fw_file_store_result (w w' : world) (buf : string) (x : Z) :
  input_core_ok (plat w) ->
  fw_file_store buf w = (x, w') ->
  x < 0 \/ (x = Z.of_nat (String.length buf) /\ 0 < x).
Proof.
  intros H. unfold fw_file_store. unfold bind at 1, get at 1.
  destruct (Nat.eqb_spec (String.length buf) 0) as [|Hlen].
  { intros [= <- <-]. left. cbn. lia. }
  destruct (Z.of_nat _ >? IQS5XX_FW_FILE_LEN).
  { intros [= <- <-]. left. cbn. lia. }
  unfold bind at 1.
  match goal with
  | |- context [iqs5xx_fw_file_write ?f w] =>
      destruct (fw_file_write_rets f w H) as [He Hp];
      destruct (iqs5xx_fw_file_write f w) as [e w1]
  end.
  cbn [fst snd] in He, Hp. unfold errno in He.
  unfold fw_file_store_finish.
  destruct (Z.eqb_spec e 0) as [->|Hne]; cbn [negb].
  2:{ intros [= <- <-]. left. lia. }
  destruct (negb (input w)).
  - unfold bind at 1, act at 1. unfold bind at 1, get at 1.
    cbn [plat emit]. rewrite Hp.
    destruct H as [_ Hr]. unfold errno in Hr.
    destruct (Z.eqb_spec (input_register_ret (plat w)) 0) as [|Hn];
      cbn [negb]; intros [= <- <-].
    + right. lia.
    + left. lia.
  - intros [= <- <-]. right. lia.
Qed.

(** X12: the kernel's convention for results holds throughout the
    driver: the register accesses, the bootloader commands, the open
    sequence, the block write, the verify, the flash steps, the parser
    and the power-state operation return 0 or a negative error; on a
    platform whose input core does the same, so do the axis set-up, the
    identification and the flash operation, and a write to the fw_file
    control returns either a negative error or the number of bytes it was
    given, in which case that number is positive. *)
Theorem results_follow_errno_convention (w : world) :
  (forall reg len, errno (fst (fst (iqs5xx_read_burst reg len w)))) /\
  (forall reg val, errno (fst (iqs5xx_write_burst reg val w))) /\
  (forall bl_cmd bl_addr, errno (fst (iqs5xx_bl_cmd bl_cmd bl_addr w))) /\
  errno (fst (iqs5xx_bl_open w)) /\
  (forall bl_addr pmap_data pmap_len,
     errno (fst (iqs5xx_bl_write bl_addr pmap_data pmap_len w))) /\
  (forall bl_addr pmap_data pmap_len,
     errno (fst (iqs5xx_bl_verify bl_addr pmap_data pmap_len w))) /\
  (forall pmap, errno (fst (flash_steps pmap w))) /\
  (forall fw_file pmap,
     errno (fst (fst (iqs5xx_fw_file_parse fw_file pmap w)))) /\
  (forall state, errno (fst (iqs5xx_set_state state w))) /\
  (input_core_ok (plat w) ->
   errno (fst (iqs5xx_axis_init w)) /\
   errno (fst (iqs5xx_dev_init w)) /\
   (forall fw_file, errno (fst (iqs5xx_fw_file_write fw_file w))) /\
   (forall buf,
      fst (fw_file_store buf w) < 0 \/
      (fst (fw_file_store buf w) = Z.of_nat (String.length buf) /\
       0 < fst (fw_file_store buf w)))).
Proof.
  split; [intros reg len;
          apply (read_burst_rets (fun _ => True) reg len w I)|].
  split; [intros reg val;
          apply (write_burst_rets (fun _ => True) reg val w I)|].
  split; [intros c x; apply (bl_cmd_rets (fun _ => True) c x w I)|].
  split; [apply (bl_open_rets (fun _ => True) w I)|].
  split; [intros a p l; apply (bl_write_rets (fun _ => True) a p l w I)|].
  split; [intros a p l; apply (bl_verify_rets (fun _ => True) a p l w I)|].
  split; [intros p; apply (flash_steps_rets (fun _ => True) p w I)|].
  split; [intros f p; apply (fw_file_parse_rets (fun _ => True) f p w I)|].
  split; [intros s; apply (set_state_rets (fun _ => True) s w I)|].
  intros H.
  split; [now apply axis_init_rets|].
  split; [now apply dev_init_rets|].
  split; [intros f; now apply fw_file_write_rets|].
  intros buf.
  apply (fw_file_store_result w (snd (fw_file_store buf w)) buf _ H).
  apply surjective_pairing.
Qed.

Lemma results_follow_errno_convention_witness :
  errno (fst (iqs5xx_dev_init flash_ok_world)) /\
  (fst (fw_file_store "fw.hex" flash_ok_world) < 0 \/
   (fst (fw_file_store "fw.hex" flash_ok_world) = 6 /\
    0 < fst (fw_file_store "fw.hex" flash_ok_world))).
Proof.
  destruct (results_follow_errno_convention flash_ok_world)
    as (_ & _ & _ & _ & _ & _ & _ & _ & _ & H).
  destruct H as (_ & Hi & _ & Hs).
  - split; unfold errno; cbn; lia.
  - split; [exact Hi|apply (Hs "fw.hex"%string)].
Defined.

(** ** Block write and read-back *)

Lemma bl_write_loop_all (fuel : nat) :
  forall n a bl_addr pmap_data i w,
    (n <= fuel)%nat ->
    (forall k, (k < n)%nat -> ret (bus (plat w) (nxfer w + k)) = 1) ->
    bl_write_loop fuel a bl_addr pmap_data (i + 64 * Z.of_nat n) i w =
    (0, {| plat := plat w; nxfer := (nxfer w + n)%nat;
           trace := block_events a bl_addr pmap_data i n ++ trace w;
           bl_status := bl_status w; input := input w |}).
Proof.
  induction fuel as [|fuel IH]; intros n a bl_addr pmap_data i w Hn Hok.
  - assert (n = 0%nat) by lia. subst n. cbn [bl_write_loop block_events app].
    unfold pure. rewrite Nat.add_0_r. now destruct w.
  - cbn [bl_write_loop]. destruct n as [|n].
    + destruct (Z.ltb_spec i (i + 64 * Z.of_nat 0)); [lia|].
      unfold pure. cbn [block_events app]. rewrite Nat.add_0_r.
      now destruct w.
    + destruct (Z.ltb_spec i (i + 64 * Z.of_nat (S n))); [|lia].
      unfold bind at 1, i2c_transfer.
      assert (H0 : ret (bus (plat w) (nxfer w)) = 1).
      { specialize (Hok 0%nat ltac:(lia)). now rewrite Nat.add_0_r in Hok. }
      rewrite H0. cbn [Z.eqb Pos.eqb negb].
      unfold bind at 1, usleep_range, act, emit.
      cbn [plat nxfer trace bl_status input].
      replace (i + 64 * Z.of_nat (S n))
        with (i + IQS5XX_BL_BLK_LEN_MAX + 64 * Z.of_nat n)
        by (unfold IQS5XX_BL_BLK_LEN_MAX; lia).
      rewrite IH.
      * cbn [plat nxfer trace bl_status input block_events].
        unfold IQS5XX_BL_BLK_LEN_MAX.
        rewrite <- app_assoc. cbn [app].
        replace (S (nxfer w) + n)%nat with (nxfer w + S n)%nat by lia.
        reflexivity.
      * lia.
      * intros k Hk. cbn [plat nxfer].
        replace (S (nxfer w) + k)%nat with (nxfer w + S k)%nat by lia.
        apply Hok. lia.
Qed.

Lemma bl_write_loop_stop (fuel : nat) :
  forall n a bl_addr pmap_data i w k,
    (n <= fuel)%nat -> (k < n)%nat ->
    (forall j, (j < k)%nat -> ret (bus (plat w) (nxfer w + j)) = 1) ->
    ret (bus (plat w) (nxfer w + k)) <> 1 ->
    bl_write_loop fuel a bl_addr pmap_data (i + 64 * Z.of_nat n) i w =
    (msg_fail (ret (bus (plat w) (nxfer w + k))),
     {| plat := plat w; nxfer := (nxfer w + k + 1)%nat;
        trace := EvXfer [bl_msg a false 66
                           (put_be16 (bl_addr + (i + 64 * Z.of_nat k))
                            ++ mem_read pmap_data (i + 64 * Z.of_nat k) 64)]
                 :: block_events a bl_addr pmap_data i k ++ trace w;
        bl_status := bl_status w; input := input w |}).
Proof.
  induction fuel as [|fuel IH]; intros n a bl_addr pmap_data i w k Hn Hk Hok Hno;
    [lia|].
  cbn [bl_write_loop]. destruct n as [|n]; [lia|].
  destruct (Z.ltb_spec i (i + 64 * Z.of_nat (S n))); [|lia].
  unfold bind at 1, i2c_transfer.
  destruct k as [|k].
  - rewrite Nat.add_0_r in *.
    destruct (Z.eqb_spec (ret (bus (plat w) (nxfer w))) 1); [contradiction|].
    cbn [negb]. unfold pure. cbn [block_events app].
    replace (i + 64 * Z.of_nat 0) with i by lia.
    replace (nxfer w + 1)%nat with (S (nxfer w)) by lia.
    reflexivity.
  - assert (H0 : ret (bus (plat w) (nxfer w)) = 1).
    { specialize (Hok 0%nat ltac:(lia)). now rewrite Nat.add_0_r in Hok. }
    rewrite H0. cbn [Z.eqb Pos.eqb negb].
    unfold bind at 1, usleep_range, act, emit.
    cbn [plat nxfer trace bl_status input].
    replace (i + 64 * Z.of_nat (S n))
      with (i + IQS5XX_BL_BLK_LEN_MAX + 64 * Z.of_nat n)
      by (unfold IQS5XX_BL_BLK_LEN_MAX; lia).
    rewrite (IH n a bl_addr pmap_data _ _ k).
    + cbn [plat nxfer trace bl_status input block_events].
      unfold IQS5XX_BL_BLK_LEN_MAX.
      replace (S (nxfer w) + k)%nat with (nxfer w + S k)%nat by lia.
      replace (i + 64 + 64 * Z.of_nat k) with (i + 64 * Z.of_nat (S k))
        by lia.
      rewrite <- app_assoc. cbn [app].
      replace (nxfer w + S k + 1)%nat with (S (nxfer w + S k)) by lia.
      replace (S (nxfer w) + k + 1)%nat with (S (nxfer w + S k)) by lia.
      reflexivity.
    + lia.
    + lia.
    + intros j Hj. cbn [plat nxfer].
      replace (S (nxfer w) + j)%nat with (nxfer w + S j)%nat by lia.
      apply Hok. lia.
    + cbn [plat nxfer].
      replace (S (nxfer w) + k)%nat with (nxfer w + S k)%nat by lia.
      exact Hno.
Qed.

(** X13: [iqs5xx_bl_write] sends an image of [n] blocks in ascending
    order, each as one message of the two address bytes and the 64 bytes
    of the image at that offset, and waits 10 ms after each.  If every
    block is acknowledged it returns 0 after exactly [n] transfers; at the
    first block that is not, it returns that error at once: the blocks
    after it are not sent. *)
Theorem bl_write_block_by_block (w : world) (bl_addr : Z) (pmap_data : mem)
    (n : nat) :
  ((forall k, (k < n)%nat -> ret (bus (plat w) (nxfer w + k)) = 1) ->
   iqs5xx_bl_write bl_addr pmap_data (64 * Z.of_nat n) w =
   (0, {| plat := plat w; nxfer := (nxfer w + n)%nat;
          trace := block_events (client_addr (plat w)) bl_addr pmap_data 0 n
                   ++ trace w;
          bl_status := bl_status w; input := input w |})) /\
  (forall k,
     (k < n)%nat ->
     (forall j, (j < k)%nat -> ret (bus (plat w) (nxfer w + j)) = 1) ->
     ret (bus (plat w) (nxfer w + k)) <> 1 ->
     iqs5xx_bl_write bl_addr pmap_data (64 * Z.of_nat n) w =
     (msg_fail (ret (bus (plat w) (nxfer w + k))),
      {| plat := plat w; nxfer := (nxfer w + k + 1)%nat;
         trace := EvXfer [bl_msg (client_addr (plat w)) false 66
                            (put_be16 (bl_addr + 64 * Z.of_nat k)
                             ++ mem_read pmap_data (64 * Z.of_nat k) 64)]
                  :: block_events (client_addr (plat w)) bl_addr pmap_data 0 k
                  ++ trace w;
         bl_status := bl_status w; input := input w |})).
Proof.
  assert (Hmod : negb ((64 * Z.of_nat n) mod IQS5XX_BL_BLK_LEN_MAX =? 0)
                 = false).
  { unfold IQS5XX_BL_BLK_LEN_MAX. rewrite Z.mul_comm, Z.mod_mul by lia.
    reflexivity. }
  split.
  - intros Hok. unfold iqs5xx_bl_write. rewrite Hmod.
    unfold bind, get.
    apply (bl_write_loop_all _ n _ bl_addr pmap_data 0 w); [lia|exact Hok].
  - intros k Hk Hok Hno. unfold iqs5xx_bl_write. rewrite Hmod.
    unfold bind, get.
    apply (bl_write_loop_stop _ n _ bl_addr pmap_data 0 w k);
      [lia|exact Hk|exact Hok|exact Hno].
Qed.

Lemma bl_write_block_by_block_witness :
  fst (iqs5xx_bl_write IQS5XX_CHKSM kzalloc_pmap (64 * Z.of_nat 241)
         (boot demo_board 0 false)) = 0 /\
  iqs5xx_bl_write IQS5XX_CHKSM kzalloc_pmap (64 * Z.of_nat 241)
    (boot (board (script_bus [ack; ack; nak] ack) eof_only_image) 0 false)
  = (-6,
     {| plat := board (script_bus [ack; ack; nak] ack) eof_only_image;
        nxfer := 3;
        trace := EvXfer [bl_msg 0x74 false 66
                           (put_be16 (IQS5XX_CHKSM + 64 * Z.of_nat 2)
                            ++ mem_read kzalloc_pmap (64 * Z.of_nat 2) 64)]
                 :: block_events 0x74 IQS5XX_CHKSM kzalloc_pmap 0 2 ++ [];
        bl_status := 0; input := false |}).
Proof.
  split.
  - rewrite (proj1 (bl_write_block_by_block (boot demo_board 0 false)
                      IQS5XX_CHKSM kzalloc_pmap 241)); [reflexivity|].
    intros k _. cbn. destruct k as [|[|k]]; reflexivity.
  - apply (proj2 (bl_write_block_by_block
                    (boot (board (script_bus [ack; ack; nak] ack)
                                 eof_only_image) 0 false)
                    IQS5XX_CHKSM kzalloc_pmap 241) 2%nat).
    + lia.
    + intros [|[|j]] Hj; [reflexivity|reflexivity|lia].
    + discriminate.
Defined.

Lemma block_eqb_eq (a b : list Z) :
  length a = length b -> (block_eqb a b = true <-> a = b).
Proof.
  unfold block_eqb. revert b.
  induction a as [|x a IH]; intros [|y b] Hl; try discriminate.
  - split; reflexivity.
  - cbn [combine forallb fst snd]. rewrite andb_true_iff, Z.eqb_eq.
    injection Hl as Hl. rewrite (IH b Hl).
    split; [intros [-> ->]; reflexivity|intros [= -> ->]; auto].
Qed.

Lemma rx_bytes_length (len : nat) (r : reply) : length (rx_bytes len r) = len.
Proof.
  unfold rx_bytes. rewrite firstn_length_le; [reflexivity|].
  rewrite length_app, repeat_length. lia.
Qed.

Lemma mem_read_length (p : mem) (off : Z) (len : nat) :
  length (mem_read p off len) = len.
Proof. unfold mem_read. now rewrite length_map, length_seq. Qed.

(** The Read command: one write, nothing read back. *)
Lemma bl_cmd_read_run (w : world) (bl_addr : Z) :
  iqs5xx_bl_cmd IQS5XX_BL_CMD_READ bl_addr w =
  (if ret (bus (plat w) (nxfer w)) =? 1 then 0
   else msg_fail (ret (bus (plat w) (nxfer w))),
   snd (i2c_transfer [bl_msg (client_addr (plat w)) false 3
                        (IQS5XX_BL_CMD_READ :: put_be16 bl_addr)] w)).
Proof.
  unfold iqs5xx_bl_cmd, bind, get, i2c_transfer. cbn -[put_be16].
  destruct (ret (bus (plat w) (nxfer w)) =? 1); reflexivity.
Qed.

(** One round of the verify loop, by the answers of the bus. *)
Lemma bl_verify_loop_step (fuel : nat) (a bl_addr : Z) (pmap_data : mem)
    (pmap_len i : Z) (w : world) :
  i < pmap_len ->
  let w1 := snd (i2c_transfer [bl_msg (client_addr (plat w)) false 3
                   (IQS5XX_BL_CMD_READ :: put_be16 (u16 (bl_addr + i)))] w) in
  let w2 := snd (i2c_transfer [bl_msg a true 64 []] w1) in
  let r1 := bus (plat w) (nxfer w) in
  let r2 := bus (plat w) (S (nxfer w)) in
  bl_verify_loop (S fuel) a bl_addr pmap_data pmap_len i w =
  if negb (ret r1 =? 1) then (msg_fail (ret r1), w1)
  else if negb (ret r2 =? 1) then (msg_fail (ret r2), w2)
  else if negb (block_eqb (rx_bytes 64 r2) (mem_read pmap_data i 64))
  then (- EIO, w2)
  else bl_verify_loop fuel a bl_addr pmap_data pmap_len
         (i + IQS5XX_BL_BLK_LEN_MAX) w2.
Proof.
  intros Hlt. cbv zeta. cbn [bl_verify_loop].
  rewrite (proj2 (Z.ltb_lt _ _) Hlt).
  unfold bind at 1. rewrite bl_cmd_read_run. cbn [snd fst].
  destruct (Z.eqb_spec (ret (bus (plat w) (nxfer w))) 1) as [E1|N1];
    cbn [negb].
  2:{ rewrite (proj2 (Z.eqb_neq _ _) (msg_fail_nonzero _)). reflexivity. }
  cbn [Z.eqb negb]. unfold bind at 1. unfold i2c_transfer.
  cbn [snd fst plat nxfer trace bl_status input].
  destruct (Z.eqb_spec (ret (bus (plat w) (S (nxfer w)))) 1) as [E2|N2];
    cbn [negb]; [|reflexivity].
  destruct (block_eqb _ _); reflexivity.
Qed.

Lemma bl_verify_loop_iff (fuel : nat) :
  forall n a bl_addr pmap_data i w,
    (n <= fuel)%nat ->
    (fst (bl_verify_loop fuel a bl_addr pmap_data (i + 64 * Z.of_nat n) i w)
       = 0 <->
     readback_ok (plat w) (nxfer w) pmap_data i n).
Proof.
  induction fuel as [|fuel IH]; intros n a bl_addr pmap_data i w Hn.
  - assert (n = 0%nat) by lia. subst n. cbn [bl_verify_loop].
    split; [intros _ k Hk; lia|reflexivity].
  - destruct n as [|n].
    + cbn [bl_verify_loop].
      destruct (Z.ltb_spec i (i + 64 * Z.of_nat 0)) as [Hlt|Hge]; [lia|].
      split; [intros _ k Hk; lia|reflexivity].
    + rewrite bl_verify_loop_step by lia.
      assert (H0 : forall P : nat -> Prop, P (nxfer w + 2 * 0)%nat -> P (nxfer w))
        by (intros P; now rewrite Nat.mul_0_r, Nat.add_0_r).
      assert (H1 : forall P : nat -> Prop,
                 P (nxfer w + 2 * 0 + 1)%nat -> P (S (nxfer w)))
        by (intros P; now rewrite Nat.mul_0_r, Nat.add_0_r, Nat.add_1_r).
      destruct (Z.eqb_spec (ret (bus (plat w) (nxfer w))) 1) as [E1|N1];
        cbn [negb].
      2:{ cbn [fst]. split.
          - intros H. now elim (msg_fail_nonzero _ H).
          - intros H. destruct (H 0%nat ltac:(lia)) as (Ha & _).
            apply (H0 (fun m => ret (bus (plat w) m) = 1)) in Ha.
            contradiction. }
      destruct (Z.eqb_spec (ret (bus (plat w) (S (nxfer w)))) 1) as [E2|N2];
        cbn [negb].
      2:{ cbn [fst]. split.
          - intros H. now elim (msg_fail_nonzero _ H).
          - intros H. destruct (H 0%nat ltac:(lia)) as (_ & Hb & _).
            apply (H1 (fun m => ret (bus (plat w) m) = 1)) in Hb.
            contradiction. }
      destruct (block_eqb (rx_bytes 64 (bus (plat w) (S (nxfer w))))
                  (mem_read pmap_data i 64)) eqn:Eb; cbn [negb].
      2:{ cbn [fst]. split; [discriminate|].
          intros H. destruct (H 0%nat ltac:(lia)) as (_ & _ & Hc).
          apply (H1 (fun m => rx_bytes 64 (bus (plat w) m) = _)) in Hc.
          replace (i + 64 * Z.of_nat 0) with i in Hc by lia.
          apply block_eqb_eq in Hc;
            [congruence|now rewrite rx_bytes_length, mem_read_length]. }
      apply block_eqb_eq in Eb;
        [|now rewrite rx_bytes_length, mem_read_length].
      replace (i + 64 * Z.of_nat (S n))
        with (i + IQS5XX_BL_BLK_LEN_MAX + 64 * Z.of_nat n)
        by (unfold IQS5XX_BL_BLK_LEN_MAX; lia).
      rewrite IH by lia. unfold i2c_transfer. cbn [snd plat nxfer].
      unfold IQS5XX_BL_BLK_LEN_MAX.
      split.
      * intros H k Hk. destruct k as [|k].
        -- rewrite Nat.mul_0_r, Nat.add_0_r, Nat.add_1_r.
           replace (i + 64 * Z.of_nat 0) with i by lia. auto.
        -- destruct (H k ltac:(lia)) as (Ha & Hb & Hc).
           replace (nxfer w + 2 * S k)%nat with (S (S (nxfer w)) + 2 * k)%nat
             by lia.
           replace (i + 64 * Z.of_nat (S k))
             with (i + 64 + 64 * Z.of_nat k) by lia.
           auto.
      * intros H k Hk. destruct (H (S k) ltac:(lia)) as (Ha & Hb & Hc).
        replace (nxfer w + 2 * S k)%nat with (S (S (nxfer w)) + 2 * k)%nat
          in * by lia.
        replace (i + 64 * Z.of_nat (S k))
          with (i + 64 + 64 * Z.of_nat k) in Hc by lia.
        auto.
Qed.

(** The transfers of the verify loop, whatever their outcome: the blocks
    are asked for one after the other by their addresses. *)
Lemma bl_verify_loop_trace (fuel : nat) :
  forall n bl_addr pmap_data i w e w',
    (n <= fuel)%nat ->
    bl_verify_loop fuel (client_addr (plat w)) bl_addr pmap_data
      (i + 64 * Z.of_nat n) i w = (e, w') ->
    plat w' = plat w /\
    exists k tail,
      (k <= n)%nat /\
      trace w' =
        tail ++ verify_events (client_addr (plat w)) bl_addr i k ++ trace w /\
      ((e = 0 /\ k = n /\ tail = []) \/
       (e <> 0 /\ (k < n)%nat /\
        (tail = [read_cmd_event (client_addr (plat w)) bl_addr
                   (i + 64 * Z.of_nat k)] \/
         tail = [read_block_event (client_addr (plat w));
                 read_cmd_event (client_addr (plat w)) bl_addr
                   (i + 64 * Z.of_nat k)]))).
Proof.
  induction fuel as [|fuel IH]; intros n bl_addr pmap_data i w e w' Hn E.
  - assert (n = 0%nat) by lia. subst n. cbn [bl_verify_loop] in E.
    injection E as <- <-. split; [reflexivity|].
    exists 0%nat, []. split; [lia|]. split; [reflexivity|]. left. auto.
  - destruct n as [|n].
    + cbn [bl_verify_loop] in E.
      destruct (Z.ltb_spec i (i + 64 * Z.of_nat 0)) as [Hlt|Hge]; [lia|].
      injection E as <- <-. split; [reflexivity|].
      exists 0%nat, []. split; [lia|]. split; [reflexivity|]. left. auto.
    + rewrite bl_verify_loop_step in E by lia.
      unfold i2c_transfer in E. cbn [snd plat nxfer trace] in E.
      fold (read_cmd_event (client_addr (plat w)) bl_addr i) in E.
      fold (read_block_event (client_addr (plat w))) in E.
      destruct (Z.eqb_spec (ret (bus (plat w) (nxfer w))) 1) as [E1|N1];
        cbn [negb] in E.
      2:{ injection E as <- <-. split; [reflexivity|].
          exists 0%nat, [read_cmd_event (client_addr (plat w)) bl_addr i].
          split; [lia|]. split; [reflexivity|]. right.
          split; [apply msg_fail_nonzero|]. split; [lia|]. left.
          now replace (i + 64 * Z.of_nat 0) with i by lia. }
      destruct (Z.eqb_spec (ret (bus (plat w) (S (nxfer w)))) 1) as [E2|N2];
        cbn [negb] in E.
      2:{ injection E as <- <-. split; [reflexivity|].
          exists 0%nat, [read_block_event (client_addr (plat w));
                         read_cmd_event (client_addr (plat w)) bl_addr i].
          split; [lia|]. split; [reflexivity|]. right.
          split; [apply msg_fail_nonzero|]. split; [lia|]. right.
          now replace (i + 64 * Z.of_nat 0) with i by lia. }
      destruct (block_eqb _ _); cbn [negb] in E.
      2:{ injection E as <- <-. split; [reflexivity|].
          exists 0%nat, [read_block_event (client_addr (plat w));
                         read_cmd_event (client_addr (plat w)) bl_addr i].
          split; [lia|]. split; [reflexivity|]. right.
          split; [discriminate|]. split; [lia|]. right.
          now replace (i + 64 * Z.of_nat 0) with i by lia. }
      replace (i + 64 * Z.of_nat (S n))
        with (i + IQS5XX_BL_BLK_LEN_MAX + 64 * Z.of_nat n) in E
        by (unfold IQS5XX_BL_BLK_LEN_MAX; lia).
      match type of E with
      | bl_verify_loop _ _ _ _ _ _ ?w2 = _ =>
          change (client_addr (plat w)) with (client_addr (plat w2)) in E at 1;
          apply IH in E; [|lia]
      end.
      cbn [plat trace] in E. unfold IQS5XX_BL_BLK_LEN_MAX in E.
      destruct E as (Hp & k & tail & Hk & Ht & Hcase).
      split; [exact Hp|].
      exists (S k), tail. split; [lia|]. split.
      * rewrite Ht. cbn [verify_events]. now rewrite <- !app_assoc.
      * replace (i + 64 * Z.of_nat (S k)) with (i + 64 + 64 * Z.of_nat k)
          by lia.
        destruct Hcase as [(He & Hkn & Htl)|(He & Hkn & Htl)].
        -- left. split; [exact He|]. split; [lia|exact Htl].
        -- right. split; [exact He|]. split; [lia|exact Htl].
Qed.

(** X14: [iqs5xx_bl_verify] returns 0 exactly when the device reads back
    every block of the region as it is in the image: for each of the [n]
    blocks, in ascending order, the Read command and the 64-byte read both
    get through and the 64 bytes read equal the image's.  The blocks are
    those of the region: block [k] is asked for with the Read command for
    the address [bl_addr + 64 * k], followed by one 64-byte read.  A run
    that returns 0 has done so for all [n] blocks and nothing else; a run
    that fails has done so for the [k] blocks before the failing one and
    stops at block [k], after its Read command or after its read. *)
Theorem bl_verify_passes_iff_image_read_back (w : world) (bl_addr : Z)
    (pmap_data : mem) (n : nat) :
  let r := iqs5xx_bl_verify bl_addr pmap_data (64 * Z.of_nat n) w in
  (fst r = 0 <-> readback_ok (plat w) (nxfer w) pmap_data 0 n) /\
  (exists k tail,
     (k <= n)%nat /\
     trace (snd r) =
       tail ++ verify_events (client_addr (plat w)) bl_addr 0 k ++ trace w /\
     ((fst r = 0 /\ k = n /\ tail = []) \/
      (fst r <> 0 /\ (k < n)%nat /\
       (tail = [read_cmd_event (client_addr (plat w)) bl_addr
                  (64 * Z.of_nat k)] \/
        tail = [read_block_event (client_addr (plat w));
                read_cmd_event (client_addr (plat w)) bl_addr
                  (64 * Z.of_nat k)])))).
Proof.
  cbv zeta.
  assert (Hm : negb ((64 * Z.of_nat n) mod IQS5XX_BL_BLK_LEN_MAX =? 0)
               = false).
  { unfold IQS5XX_BL_BLK_LEN_MAX. rewrite Z.mul_comm, Z.mod_mul by lia.
    reflexivity. }
  split.
  - unfold iqs5xx_bl_verify. rewrite Hm. unfold bind, get.
    apply (bl_verify_loop_iff _ n _ bl_addr pmap_data 0 w). lia.
  - destruct (iqs5xx_bl_verify bl_addr pmap_data (64 * Z.of_nat n) w)
      as [e w'] eqn:E.
    unfold iqs5xx_bl_verify in E. rewrite Hm in E. unfold bind, get in E.
    cbn [fst snd].
    apply (bl_verify_loop_trace _ n bl_addr pmap_data 0 w e w') in E; [|lia].
    exact (proj2 E).
Qed.

(** *** Execute comes last *)

Lemma bl_cmd_quiet (a bl_cmd bl_addr : Z) :
  bl_cmd <> IQS5XX_BL_CMD_EXEC ->
  keeps a (extends quiet_bl) (iqs5xx_bl_cmd bl_cmd bl_addr).
Proof.
  intros Hc. unfold iqs5xx_bl_cmd. apply keeps_addr; auto with keeps.
  destruct (Z.eqb_spec bl_cmd IQS5XX_BL_CMD_VER) as [->|Hv];
    [cbn -[put_be16]; keeps_auto|].
  destruct (Z.eqb_spec bl_cmd IQS5XX_BL_CMD_CRC) as [->|Hr];
    [cbn -[put_be16]; keeps_auto|].
  destruct (Z.eqb_spec bl_cmd IQS5XX_BL_CMD_EXEC) as [->|_];
    [contradiction|].
  destruct (Z.eqb_spec bl_cmd IQS5XX_BL_CMD_READ) as [->|Hd];
    cbn -[put_be16]; keeps_auto.
Qed.

Lemma bl_cmd_ver_quiet (a bl_addr : Z) :
  keeps a (extends quiet_bl) (iqs5xx_bl_cmd IQS5XX_BL_CMD_VER bl_addr).
Proof. now apply bl_cmd_quiet. Qed.

Lemma bl_cmd_read_quiet (a bl_addr : Z) :
  keeps a (extends quiet_bl) (iqs5xx_bl_cmd IQS5XX_BL_CMD_READ bl_addr).
Proof. now apply bl_cmd_quiet. Qed.

Lemma bl_cmd_crc_quiet (a bl_addr : Z) :
  keeps a (extends quiet_bl) (iqs5xx_bl_cmd IQS5XX_BL_CMD_CRC bl_addr).
Proof. now apply bl_cmd_quiet. Qed.

Lemma reset_quiet (a : Z) : keeps a (extends quiet_bl) iqs5xx_reset.
Proof. unfold iqs5xx_reset. keeps_auto. Qed.

#[local] Hint Resolve bl_cmd_ver_quiet bl_cmd_read_quiet bl_cmd_crc_quiet
  reset_quiet : keeps.

Lemma bl_open_probe_quiet (a : Z) (j : nat) :
  forall last, keeps a (extends quiet_bl) (bl_open_probe j last).
Proof. induction j; intros; cbn [bl_open_probe]; keeps_auto. Qed.

Lemma bl_open_quiet (a : Z) : keeps a (extends quiet_bl) iqs5xx_bl_open.
Proof.
  unfold iqs5xx_bl_open. generalize 0. generalize IQS5XX_BL_ATTEMPTS.
  induction n; intros; cbn [bl_open_attempt]; keeps_auto.
  apply bl_open_probe_quiet.
Qed.

Lemma bl_verify_loop_quiet (a : Z) (fuel : nat) :
  forall bl_addr pmap_data pmap_len i,
    keeps a (extends quiet_bl)
      (bl_verify_loop fuel a bl_addr pmap_data pmap_len i).
Proof. induction fuel; intros; cbn [bl_verify_loop]; keeps_auto. Qed.

Lemma bl_verify_quiet (a bl_addr : Z) (pmap_data : mem) (pmap_len : Z) :
  keeps a (extends quiet_bl) (iqs5xx_bl_verify bl_addr pmap_data pmap_len).
Proof.
  unfold iqs5xx_bl_verify. keeps_step; [keeps_auto|].
  keeps_step. apply bl_verify_loop_quiet.
Qed.

Lemma quiet_bl_counts (w w' : world) :
  extends quiet_bl w w' ->
  count is_exec (trace w') = count is_exec (trace w) /\
  count is_block_write (trace w') = count is_block_write (trace w).
Proof.
  intros H. split;
    (eapply count_extends; [|exact H]; unfold quiet_bl; intros e He;
     apply andb_true_iff in He; destruct He as [H1 H2];
     apply negb_true_iff in H1, H2; assumption).
Qed.

Lemma count_cons (f : event -> bool) (e : event) (tr : list event) :
  count f (e :: tr) = if f e then S (count f tr) else count f tr.
Proof. unfold count. cbn [filter]. now destruct (f e). Qed.

(** The write loop sends no Execute, and one block for each of its rounds
    when it returns 0. *)
Lemma bl_write_loop_counts (fuel : nat) :
  forall n a bl_addr pmap_data i w e w',
    (n <= fuel)%nat ->
    bl_write_loop fuel a bl_addr pmap_data (i + 64 * Z.of_nat n) i w
      = (e, w') ->
    count is_exec (trace w') = count is_exec (trace w) /\
    (e = 0 ->
     count is_block_write (trace w')
       = (count is_block_write (trace w) + n)%nat).
Proof.
  induction fuel as [|fuel IH]; intros n a bl_addr pmap_data i w e w' Hn E.
  - assert (n = 0%nat) by lia. subst n. cbn [bl_write_loop] in E.
    injection E as <- <-. split; [reflexivity|intros _; lia].
  - cbn [bl_write_loop] in E. destruct n as [|n].
    + destruct (Z.ltb_spec i (i + 64 * Z.of_nat 0)) as [Hlt|Hge]; [lia|].
      injection E as <- <-. split; [reflexivity|intros _; lia].
    + destruct (Z.ltb_spec i (i + 64 * Z.of_nat (S n))) as [Hlt|Hge];
        [|lia].
      unfold bind at 1, i2c_transfer in E. cbn [fst snd] in E.
      destruct (Z.eqb_spec (ret (bus (plat w) (nxfer w))) 1) as [E1|N1];
        cbn [negb] in E.
      2:{ injection E as <- <-. cbn [trace]. split; [reflexivity|].
          intros H. now elim (msg_fail_nonzero _ H). }
      unfold bind at 1, usleep_range, act, emit in E.
      cbn [plat nxfer trace bl_status input] in E.
      replace (i + 64 * Z.of_nat (S n))
        with (i + IQS5XX_BL_BLK_LEN_MAX + 64 * Z.of_nat n) in E
        by (unfold IQS5XX_BL_BLK_LEN_MAX; lia).
      apply IH in E; [|lia]. cbn [trace] in E.
      destruct E as (Ex & Eb). split.
      * rewrite Ex. reflexivity.
      * intros H. rewrite (Eb H), !count_cons.
        change (is_block_write (EvSleep 10000)) with false. cbv iota.
        change (is_block_write (EvXfer _)) with true. cbv iota. lia.
Qed.

Lemma bl_write_counts (w w' : world) (pmap_data : mem) (e : Z) :
  iqs5xx_bl_write IQS5XX_CHKSM pmap_data IQS5XX_PMAP_LEN w = (e, w') ->
  count is_exec (trace w') = count is_exec (trace w) /\
  (e = 0 ->
   count is_block_write (trace w')
     = (count is_block_write (trace w) + 241)%nat).
Proof.
  unfold iqs5xx_bl_write.
  change (negb (IQS5XX_PMAP_LEN mod IQS5XX_BL_BLK_LEN_MAX =? 0)) with false.
  cbv iota. unfold bind, get.
  change IQS5XX_PMAP_LEN with (0 + 64 * Z.of_nat 241) at 2.
  apply bl_write_loop_counts.
  change IQS5XX_PMAP_LEN with 15424. lia.
Qed.

(** The Execute command, run: its message, and 10 ms when it got through. *)
Lemma bl_cmd_exec_run (w : world) (bl_addr : Z) :
  exists post e,
    trace (snd (iqs5xx_bl_cmd IQS5XX_BL_CMD_EXEC bl_addr w))
      = post ++ e :: trace w /\
    is_exec e = true /\ forallb is_sleep post = true.
Proof.
  unfold iqs5xx_bl_cmd, bind, get, i2c_transfer. cbn.
  destruct (ret (bus (plat w) (nxfer w)) =? 1); cbn.
  - eexists [_], _. split; [reflexivity|]. split; reflexivity.
  - eexists [], _. split; [reflexivity|]. split; reflexivity.
Qed.

Lemma flash_steps_exec (w w' : world) (pmap : mem) (x : Z) :
  flash_steps pmap w = (x, w') ->
  (count is_exec (trace w') = count is_exec (trace w) /\ x <> 0) \/
  (exists post e rest,
     trace w' = post ++ e :: rest /\
     is_exec e = true /\ forallb is_sleep post = true /\
     count is_exec rest = count is_exec (trace w) /\
     count is_block_write rest
       = (count is_block_write (trace w) + 241)%nat).
Proof.
  unfold flash_steps. intros E.
  set (a := client_addr (plat w)).
  assert (Ha : client_addr (plat w) = a) by reflexivity.
  unfold bind at 1 in E.
  destruct (iqs5xx_bl_cmd IQS5XX_BL_CMD_VER 0 w) as [e1 w1] eqn:E1.
  pose proof (keeps_run _ _ _ _ _ _ (bl_cmd_ver_quiet a 0) Ha E1) as Q1.
  assert (Ha1 : client_addr (plat w1) = a)
    by (now rewrite (extends_plat _ _ _ Q1)).
  apply quiet_bl_counts in Q1. destruct Q1 as (X1 & B1).
  unfold bind at 1 in E.
  destruct ((if negb (e1 =? 0) then iqs5xx_bl_open else pure 0) w1)
    as [e2 w2] eqn:E2.
  assert (Q2 : extends quiet_bl w1 w2).
  { destruct (negb (e1 =? 0)).
    - exact (keeps_run _ _ _ _ _ _ (bl_open_quiet a) Ha1 E2).
    - injection E2 as _ <-. apply extends_refl. }
  assert (Ha2 : client_addr (plat w2) = a)
    by (now rewrite (extends_plat _ _ _ Q2)).
  apply quiet_bl_counts in Q2. destruct Q2 as (X2 & B2).
  destruct (Z.eqb_spec e2 0) as [Z2|N2]; cbn [negb] in E;
    [|injection E as <- <-; left; split; [congruence|assumption]].
  unfold bind at 1 in E.
  destruct (iqs5xx_bl_write IQS5XX_CHKSM pmap IQS5XX_PMAP_LEN w2)
    as [e3 w3] eqn:E3.
  pose proof (keeps_run _ _ _ _ _ _ (bl_write_events a _ _ _) Ha2 E3) as P3.
  assert (Ha3 : client_addr (plat w3) = a)
    by (now rewrite (extends_plat _ _ _ P3)).
  apply bl_write_counts in E3. destruct E3 as (X3 & B3).
  destruct (Z.eqb_spec e3 0) as [Z3|N3]; cbn [negb] in E;
    [|injection E as <- <-; left; split; [congruence|assumption]].
  specialize (B3 Z3).
  unfold bind at 1 in E.
  destruct (iqs5xx_bl_cmd IQS5XX_BL_CMD_CRC 0 w3) as [e4 w4] eqn:E4.
  pose proof (keeps_run _ _ _ _ _ _ (bl_cmd_crc_quiet a 0) Ha3 E4) as Q4.
  assert (Ha4 : client_addr (plat w4) = a)
    by (now rewrite (extends_plat _ _ _ Q4)).
  apply quiet_bl_counts in Q4. destruct Q4 as (X4 & B4).
  destruct (Z.eqb_spec e4 0) as [Z4|N4]; cbn [negb] in E;
    [|injection E as <- <-; left; split; [congruence|assumption]].
  unfold bind at 1 in E.
  match type of E with
  | context [iqs5xx_bl_verify ?x ?y ?z w4] =>
      destruct (iqs5xx_bl_verify x y z w4) as [e5 w5] eqn:E5;
      pose proof (keeps_run _ _ _ _ _ _ (bl_verify_quiet a x y z) Ha4 E5)
        as Q5
  end.
  apply quiet_bl_counts in Q5. destruct Q5 as (X5 & B5).
  destruct (Z.eqb_spec e5 0) as [Z5|N5]; cbn [negb] in E;
    [|injection E as <- <-; left; split; [congruence|assumption]].
  right. destruct (bl_cmd_exec_run w5 0) as (post & e & Et & He & Hp).
  rewrite E in Et. cbn [snd] in Et.
  exists post, e, (trace w5). repeat split; try assumption; congruence.
Qed.

(** X15: [flash_steps] sends the Execute command at most once, as its last
    transfer (only the 10 ms wait follows it), and only after all 241 blocks
    of the image were written; a run without Execute returns an error. *)
Theorem execute_follows_the_full_image (w : world) (pmap : mem) :
  let r := flash_steps pmap w in
  (count is_exec (trace (snd r)) = count is_exec (trace w) /\ fst r <> 0) \/
  (exists post e rest,
     trace (snd r) = post ++ e :: rest /\
     is_exec e = true /\ forallb is_sleep post = true /\
     count is_exec rest = count is_exec (trace w) /\
     count is_block_write rest
       = (count is_block_write (trace w) + 241)%nat).
Proof.
  cbv zeta. apply (flash_steps_exec w _ pmap). apply surjective_pairing.
Qed.

(** ** The interrupt handler *)

Lemma get_be16_range (hi lo : Z) : 0 <= get_be16 hi lo < 65536.
Proof.
  unfold get_be16.
  pose proof (u8_range hi) as Hh. pose proof (u8_range lo) as Hl.
  assert (Hs : 0 <= Z.shiftl (u8 hi) 8 <= 65280)
    by (rewrite Z.shiftl_mul_pow2 by lia; change (2 ^ 8) with 256; lia).
  pose proof (Z.add_lor_land (Z.shiftl (u8 hi) 8) (u8 lo)) as Ha.
  assert (0 <= Z.land (Z.shiftl (u8 hi) 8) (u8 lo))
    by (apply Z.land_nonneg; lia).
  assert (0 <= Z.lor (Z.shiftl (u8 hi) 8) (u8 lo))
    by (apply Z.lor_nonneg; lia).
  lia.
Qed.

Lemma touch_slots_length (n : nat) :
  forall touch_data, length (touch_slots n touch_data) = n.
Proof. induction n; intros; cbn [touch_slots length]; auto. Qed.

Lemma touch_slots_ok (n : nat) :
  forall touch_data, Forall report_ok (touch_slots n touch_data).
Proof.
  induction n as [|n IH]; intros touch_data; cbn [touch_slots];
    constructor; [|apply IH].
  unfold slot_report, touch_of_bytes. cbn [strength abs_x abs_y].
  match goal with |- context [negb (?p =? 0)] =>
    destruct (Z.eqb_spec p 0) as [E|N]; cbn [negb report_ok]; [exact I|];
    pose proof (get_be16_range (nth 4 (firstn 7 touch_data) 0)
                  (nth 5 (firstn 7 touch_data) 0))
  end.
  repeat split; try apply get_be16_range; lia.
Qed.

(** X16: the interrupt handler.  In the reset/unknown state it returns
    [IRQ_NONE] and touches nothing.  Otherwise it reports either no frame
    (the read failed) or a frame of exactly five slots, each without a
    contact or with a 16-bit position and a non-zero 16-bit pressure; it
    returns [IRQ_HANDLED] only after such a frame, and never changes the
    driver's data. *)
Theorem irq_reports_whole_frames (w w' : world) (handled : bool)
    (frame : list (option (Z * Z * Z))) :
  iqs5xx_irq w = (handled, frame, w') ->
  (bl_status w = IQS5XX_BL_STATUS_RESET ->
   handled = false /\ frame = [] /\ w' = w) /\
  (frame = [] \/ length frame = 5%nat) /\
  (handled = true -> length frame = 5%nat) /\
  Forall report_ok frame /\
  same_driver w w'.
Proof.
  intros E.
  assert (Hs : same_driver w w')
    by (exact (keeps_run _ _ _ _ _ _ (irq_same _) eq_refl E)).
  revert E. unfold iqs5xx_irq. unfold bind at 1, get.
  destruct (Z.eqb_spec (bl_status w) IQS5XX_BL_STATUS_RESET) as [Hr|Hr].
  { intros [= <- <- <-].
    split; [auto|]. split; [now left|]. split; [discriminate|].
    split; [constructor|assumption]. }
  unfold bind at 1.
  destruct (iqs5xx_read_burst IQS5XX_ABS_X 35 w) as [[error td] w1].
  destruct (negb (error =? 0)).
  { intros [= <- <- <-].
    split; [intros; contradiction|]. split; [now left|].
    split; [discriminate|]. split; [constructor|assumption]. }
  unfold bind at 1.
  destruct (iqs5xx_write_byte IQS5XX_END_COMM 0 w1) as [e2 w2].
  pose proof (touch_slots_length (Z.to_nat IQS5XX_NUM_CONTACTS) td) as Hl.
  change (Z.to_nat IQS5XX_NUM_CONTACTS) with 5%nat in Hl at 2.
  pose proof (touch_slots_ok (Z.to_nat IQS5XX_NUM_CONTACTS) td) as Hf.
  destruct (negb (e2 =? 0)).
  - intros [= <- <- <-].
    split; [intros; contradiction|]. split; [now right|].
    split; [discriminate|]. split; assumption.
  - unfold bind, usleep_range, act, pure. intros [= <- <- <-].
    split; [intros; contradiction|]. split; [now right|].
    split; [now intros|]. split; assumption.
Qed.

Lemma irq_reports_whole_frames_witness :
  (bl_status touch_world = IQS5XX_BL_STATUS_RESET ->
   true = false /\
   [Some (10, 20, 5); None; None; None; None] = [] /\
   snd (iqs5xx_irq touch_world) = touch_world) /\
  ([Some (10, 20, 5); None; None; None; None] = [] \/
   length [Some (10, 20, 5); None; None; None; None] = 5%nat) /\
  (true = true ->
   length [Some (10, 20, 5); None; None; None; None] = 5%nat) /\
  Forall report_ok [Some (10, 20, 5); None; None; None; None] /\
  same_driver touch_world (snd (iqs5xx_irq touch_world)).
Proof.
  apply (irq_reports_whole_frames touch_world).
  rewrite (surjective_pairing (iqs5xx_irq touch_world)) at 1.
  apply (f_equal2 pair); [vm_compute; reflexivity|reflexivity].
Defined.

(** ** The image parser *)

Lemma sum_u8_spec (l : list Z) :
  forall acc, u8 (sum_u8 acc l) = u8 (acc + sum_bytes l).
Proof.
  unfold sum_u8, u8.
  induction l as [|b l IH]; intros acc; cbn [fold_left sum_bytes fold_right].
  - now rewrite Z.add_0_r.
  - rewrite IH. fold (sum_bytes l).
    rewrite Zplus_mod_idemp_l. f_equal. lia.
Qed.

Lemma rec_checksum_spec (hdr data : list Z) :
  rec_checksum hdr data = (- (sum_bytes hdr + sum_bytes data)) mod 256.
Proof.
  unfold rec_checksum. cbv zeta.
  replace (Z.lnot (sum_u8 (sum_u8 0 hdr) data) + 1)
    with (- sum_u8 (sum_u8 0 hdr) data) by (unfold Z.lnot; lia).
  pose proof (sum_u8_spec data (sum_u8 0 hdr)) as H1.
  pose proof (sum_u8_spec hdr 0) as H2.
  unfold u8 in *.
  rewrite <- Zplus_mod_idemp_l, H2, Zplus_mod_idemp_l, Z.add_0_l in H1.
  set (c := sum_u8 (sum_u8 0 hdr) data) in *.
  set (s := sum_bytes hdr + sum_bytes data) in *.
  clearbody c s.
  rewrite <- (Z.sub_0_l c), <- (Z.sub_0_l s).
  rewrite Zminus_mod, H1, <- Zminus_mod. reflexivity.
Qed.

(** X17: the checksum the parser computes for a record equals the
    record's checksum byte exactly when the header bytes, the data bytes
    and the checksum byte add up to 0 modulo 256. *)
Theorem record_checksum_sums_to_zero (hdr data : list Z) (chksm : Z) :
  0 <= chksm < 256 ->
  (rec_checksum hdr data = chksm <->
   (sum_bytes hdr + sum_bytes data + chksm) mod 256 = 0).
Proof.
  intros Hc. rewrite rec_checksum_spec.
  set (s := sum_bytes hdr + sum_bytes data). clearbody s.
  split.
  - intros <-. rewrite Zplus_mod_idemp_r.
    replace (s + - s) with 0 by lia. reflexivity.
  - intros H. apply Z.mod_divide in H; [|lia]. destruct H as [q Hq].
    replace (- s) with (chksm + (- q) * 256) by lia.
    rewrite Z_mod_plus_full. apply Z.mod_small. assumption.
Qed.

Lemma record_checksum_sums_to_zero_witness :
  rec_checksum [2; 0xBF; 0xFF; 0] [0xAA; 0xBB] = 0xDB <->
  (sum_bytes [2; 0xBF; 0xFF; 0] + sum_bytes [0xAA; 0xBB] + 0xDB) mod 256 = 0.
Proof. apply record_checksum_sums_to_zero. lia. Defined.

Lemma hex_to_bin_range (ch : Z) : hex_to_bin ch < 16.
Proof.
  unfold hex_to_bin.
  destruct (Z.leb_spec 48 ch); destruct (Z.leb_spec ch 57); cbn [andb];
    try lia;
    destruct (Z.leb_spec 65 ch); destruct (Z.leb_spec ch 90); cbn [andb];
    match goal with
    | |- context [(97 <=? ?x) && (?x <=? 102)] =>
        destruct (Z.leb_spec 97 x); destruct (Z.leb_spec x 102); cbn [andb]
    end; lia.
Qed.

Lemma hex2bin_bytes (count : nat) :
  forall src dst, hex2bin src count = Some dst ->
    length dst = count /\ bytes_ok dst.
Proof.
  induction count as [|count IH]; intros src dst; cbn [hex2bin].
  - intros [= <-]. split; [reflexivity|constructor].
  - cbv zeta.
    destruct (Z.ltb_spec (hex_to_bin (nth 0 src 0)) 0) as [|Hh];
      [discriminate|].
    destruct (Z.ltb_spec (hex_to_bin (nth 1 src 0)) 0) as [|Hl];
      [discriminate|].
    cbn [orb].
    destruct (hex2bin (skipn 2 src) count) as [d|] eqn:E; [|discriminate].
    intros [= <-]. destruct (IH _ _ E) as (Hn & Hb).
    split; [cbn [length]; now rewrite Hn|].
    constructor; [|assumption].
    pose proof (hex_to_bin_range (nth 0 src 0)).
    pose proof (hex_to_bin_range (nth 1 src 0)).
    set (hi := hex_to_bin (nth 0 src 0)) in *.
    set (lo := hex_to_bin (nth 1 src 0)) in *.
    assert (Hs : 0 <= Z.shiftl hi 4 <= 240)
      by (rewrite Z.shiftl_mul_pow2 by lia; change (2 ^ 4) with 16; lia).
    pose proof (Z.add_lor_land (Z.shiftl hi 4) lo).
    assert (0 <= Z.land (Z.shiftl hi 4) lo) by (apply Z.land_nonneg; lia).
    assert (0 <= Z.lor (Z.shiftl hi 4) lo) by (apply Z.lor_nonneg; lia).
    change (0 <= Z.lor (Z.shiftl hi 4) lo < 256). lia.
Qed.

(** A decoded record holds as many data bytes as its length byte says,
    255 at most. *)
Lemma decode_record_data (data : list Z) (pos : nat) (r : ihex_rec) :
  decode_record data pos = inr r ->
  (length (rec_data r) <= 255)%nat.
Proof.
  unfold decode_record.
  destruct (_ <? _)%nat; [discriminate|].
  destruct (negb _); [discriminate|].
  destruct (hex2bin (skipn 1 _) _) as [hdr|] eqn:Eh; [|discriminate].
  cbv zeta.
  destruct (_ <? _)%nat; [discriminate|].
  destruct (hex2bin (skipn 9 _) _) as [dat|] eqn:Ed; [|discriminate].
  destruct (hex2bin _ 1) as [ck|]; [|discriminate].
  intros [= <-]. cbn [rec_data].
  apply hex2bin_bytes in Eh, Ed. destruct Eh as (Hn & Hb), Ed as (Hd & _).
  rewrite Hd.
  assert (0 <= nth 0 hdr 0 < 256).
  { destruct hdr as [|h hdr]; [discriminate|].
    cbn [nth]. now inversion Hb. }
  lia.
Qed.

Lemma parse_loop_frame (fuel : nat) :
  forall data pos pmap error pmap' k,
    parse_loop fuel data pos pmap = Some (error, pmap') ->
    pmap' k <> pmap k ->
    0 <= k < IQS5XX_PMAP_LEN + 254.
Proof.
  induction fuel as [|fuel IH]; intros data pos pmap error pmap' k;
    cbn [parse_loop]; [discriminate|].
  destruct (decode_record data pos) as [e|r] eqn:Ed.
  { intros [= <- <-] Hk. now elim Hk. }
  destruct (apply_record r pmap) as [e|pmap1] eqn:Ea.
  { intros [= <- <-] Hk. now elim Hk. }
  assert (Hstep : pmap1 k <> pmap k -> 0 <= k < IQS5XX_PMAP_LEN + 254).
  { intros Hk.
    destruct (apply_record_frame _ _ _ _ Ea Hk) as (_ & Hr & Hkk).
    pose proof (decode_record_data _ _ _ Ed).
    unfold IQS5XX_PMAP_LEN, IQS5XX_PMAP_END, IQS5XX_CHKSM in *. lia. }
  destruct (negb _).
  - intros E Hk.
    destruct (Z.eq_dec (pmap1 k) (pmap k)) as [Heq|Hne]; [|auto].
    apply (IH _ _ _ _ _ k E). congruence.
  - intros [= <- <-]. exact Hstep.
Qed.

(** X18: whatever the file holds, the parser writes nowhere but into the
    image buffer and the 254 bytes that follow it: never before the
    buffer, never further. *)
Theorem parser_writes_stay_near_the_image (w : world) (fw_file : string)
    (pmap : mem) (k : Z) :
  snd (fst (iqs5xx_fw_file_parse fw_file pmap w)) k <> pmap k ->
  0 <= k < IQS5XX_PMAP_LEN + 254.
Proof.
  unfold iqs5xx_fw_file_parse, reject_firmware, release_firmware.
  unfold bind, act, get, pure. cbn [fst snd plat emit].
  destruct (firmware (plat w) fw_file) as [data|]; cbn [fst snd negb Z.eqb].
  2:{ intros Hk. now elim Hk. }
  destruct (parse_loop (S (length data)) data 0 pmap) as [[e pmap']|] eqn:E;
    cbn [fst snd].
  - apply (parse_loop_frame _ _ _ _ _ _ _ E).
  - intros Hk. now elim Hk.
Qed.

Lemma parser_writes_stay_near_the_image_witness :
  0 <= IQS5XX_PMAP_LEN < IQS5XX_PMAP_LEN + 254.
Proof.
  apply (parser_writes_stay_near_the_image
           (boot (board (script_bus [] ack) overrun_image) 0 false)
           "fw.hex" kzalloc_pmap IQS5XX_PMAP_LEN).
  vm_compute. discriminate.
Defined.

(** *** Nothing is read past the end-of-file record *)

Lemma skipn_app_le {A} (n : nat) (l extra : list A) :
  (n <= length l)%nat -> skipn n (l ++ extra) = skipn n l ++ extra.
Proof.
  intros H. rewrite skipn_app.
  replace (n - length l)%nat with 0%nat by lia. reflexivity.
Qed.

Lemma hex2bin_app (count : nat) :
  forall src extra,
    (2 * count <= length src)%nat ->
    hex2bin (src ++ extra) count = hex2bin src count.
Proof.
  induction count as [|count IH]; intros src extra Hl; [reflexivity|].
  cbn [hex2bin]. rewrite !app_nth1 by lia.
  rewrite skipn_app_le by lia.
  rewrite IH; [reflexivity|]. rewrite length_skipn. lia.
Qed.

Lemma decode_record_app (data extra : list Z) (pos : nat) (r : ihex_rec) :
  decode_record data pos = inr r ->
  decode_record (data ++ extra) pos = inr r.
Proof.
  unfold decode_record. rewrite length_app.
  destruct (Nat.ltb_spec (length data) (pos + sizeof_rec)) as [|H1];
    [discriminate|].
  destruct (Nat.ltb_spec (length data + length extra) (pos + sizeof_rec));
    [lia|].
  unfold sizeof_rec in H1.
  rewrite (skipn_app_le pos) by lia.
  assert (Hr : length (skipn pos data) = (length data - pos)%nat)
    by apply length_skipn.
  set (rec := skipn pos data) in *. clearbody rec.
  rewrite (app_nth1 rec extra) by lia.
  destruct (negb _); [discriminate|].
  rewrite (skipn_app_le 1) by lia.
  rewrite hex2bin_app
    by (rewrite length_skipn; unfold IQS5XX_REC_HDR_LEN; lia).
  destruct (hex2bin (skipn 1 rec) IQS5XX_REC_HDR_LEN) as [hdr|];
    [|discriminate].
  cbv zeta.
  destruct (Nat.ltb_spec (length data)
              (pos + sizeof_rec + Z.to_nat (nth 0 hdr 0) * 2)) as [|H2];
    [discriminate|].
  destruct (Nat.ltb_spec (length data + length extra)
              (pos + sizeof_rec + Z.to_nat (nth 0 hdr 0) * 2)); [lia|].
  unfold sizeof_rec in H2.
  rewrite (skipn_app_le 9) by lia.
  rewrite hex2bin_app by (rewrite length_skipn; lia).
  rewrite (skipn_app_le (9 + Z.to_nat (nth 0 hdr 0) * 2)) by lia.
  rewrite (hex2bin_app 1) by (rewrite length_skipn; lia).
  auto.
Qed.

Lemma skip_to_start_app (rest extra : list Z) :
  forall pos,
    (skip_to_start rest pos < pos + length rest)%nat ->
    skip_to_start (rest ++ extra) pos = skip_to_start rest pos.
Proof.
  induction rest as [|c rest IH]; intros pos; cbn [skip_to_start length app].
  - lia.
  - destruct (c =? 58); [reflexivity|].
    intros H. apply IH. lia.
Qed.

Lemma parse_loop_app (fuel : nat) :
  forall fuel' data extra pos pmap pmap',
    parse_loop fuel data pos pmap = Some (0, pmap') ->
    (fuel <= fuel')%nat ->
    parse_loop fuel' (data ++ extra) pos pmap = Some (0, pmap').
Proof.
  induction fuel as [|fuel IH];
    intros fuel' data extra pos pmap pmap' E Hf; [discriminate|].
  destruct fuel' as [|fuel']; [lia|].
  cbn [parse_loop] in *.
  destruct (decode_record data pos) as [e|r] eqn:Ed.
  { injection E as E _. apply decode_record_error in Ed.
    rewrite E in Ed. discriminate. }
  rewrite (decode_record_app _ extra _ _ Ed).
  destruct (apply_record r pmap) as [e|pmap1] eqn:Ea.
  { injection E as E _. apply apply_record_error in Ea.
    rewrite E in Ea. discriminate. }
  destruct (negb (rec_type r =? IQS5XX_REC_TYPE_EOF)); [|exact E].
  cbv zeta in *.
  pose proof (decode_record_end _ _ _ Ed) as (_ & He).
  rewrite (skipn_app_le (rec_end r)) by lia.
  rewrite skip_to_start_app.
  - apply IH; [exact E|lia].
  - rewrite length_skipn.
    destruct fuel as [|fuel0]; [discriminate|].
    cbn [parse_loop] in E.
    destruct (decode_record data _) as [e|r'] eqn:Ed' in E.
    { injection E as E _. apply decode_record_error in Ed'.
      rewrite E in Ed'. discriminate. }
    apply decode_record_end in Ed'. unfold sizeof_rec in Ed'. lia.
Qed.

(** X19: parsing ends at the end-of-file record: when the parse of a file
    succeeds, whatever follows in the file is never looked at, and the
    same file with anything appended parses to the same image. *)
Theorem parse_ignores_what_follows_eof (data extra : list Z)
    (pmap pmap' : mem) :
  parse_loop (S (length data)) data 0 pmap = Some (0, pmap') ->
  parse_loop (S (length (data ++ extra))) (data ++ extra) 0 pmap
    = Some (0, pmap').
Proof.
  intros E. apply (parse_loop_app _ _ _ _ _ _ _ E).
  rewrite length_app. lia.
Qed.

Lemma parse_ignores_what_follows_eof_witness :
  parse_loop (S (length (bytes_of_string overrun_image
                           ++ bytes_of_string ":zz")))
    (bytes_of_string overrun_image ++ bytes_of_string ":zz") 0 kzalloc_pmap
  = Some (0, memcpy kzalloc_pmap (0xBFFF - IQS5XX_CHKSM) [0xAA; 0xBB]).
Proof.
  apply parse_ignores_what_follows_eof.
  vm_compute. reflexivity.
Defined.

(** * Whole runs: power state, parser, open sequence, flash *)

(** ** Power state while the status is reset/unknown *)

(** C9: while the stored bootloader status is reset/unknown, the
    power-state operation returns 0 and the world is unchanged (no lock
    taken, no bus write); so it is for input open and close.  Suspend and
    resume return 0 as well and make no bus transfer either: they leave
    the world unchanged when there is no input device, and otherwise only
    take and release the input device's mutex around the call. *)
Theorem set_state_in_reset_is_noop (w : world) (state : Z) (users : bool) :
  bl_status w = IQS5XX_BL_STATUS_RESET ->
  iqs5xx_set_state state w = (0, w) /\
  iqs5xx_open w = (0, w) /\
  iqs5xx_close w = (tt, w) /\
  iqs5xx_suspend users w =
    (0, if input w
        then emit EvInputMutexUnlock (emit EvInputMutexLock w) else w) /\
  iqs5xx_resume users w =
    (0, if input w
        then emit EvInputMutexUnlock (emit EvInputMutexLock w) else w).
Proof.
  intros H.
  assert (S : forall st w0, bl_status w0 = IQS5XX_BL_STATUS_RESET ->
                            iqs5xx_set_state st w0 = (0, w0)).
  { intros st w0 H0. unfold iqs5xx_set_state, bind, get. rewrite H0.
    reflexivity. }
  repeat split.
  - now apply S.
  - now apply S.
  - unfold iqs5xx_close, bind. rewrite S by assumption. reflexivity.
  - unfold iqs5xx_suspend. unfold bind at 1, get.
    destruct (input w); cbn [negb]; [|reflexivity].
    unfold bind at 1, act at 1. unfold bind at 1.
    destruct users; [rewrite S by exact H|]; reflexivity.
  - unfold iqs5xx_resume. unfold bind at 1, get.
    destruct (input w); cbn [negb]; [|reflexivity].
    unfold bind at 1, act at 1. unfold bind at 1.
    destruct users; [rewrite S by exact H|]; reflexivity.
Qed.

Lemma set_state_in_reset_is_noop_witness :
  iqs5xx_set_state IQS5XX_SUSPEND
    (boot (board (script_bus [] ack) eof_only_image) 0 true)
  = (0, boot (board (script_bus [] ack) eof_only_image) 0 true) /\
  iqs5xx_suspend true
    (boot (board (script_bus [] ack) eof_only_image) 0 true)
  = (0, emit EvInputMutexUnlock
          (emit EvInputMutexLock
             (boot (board (script_bus [] ack) eof_only_image) 0 true))).
Proof.
  destruct (set_state_in_reset_is_noop
              (boot (board (script_bus [] ack) eof_only_image) 0 true)
              IQS5XX_SUSPEND true eq_refl) as (H1 & _ & _ & H4 & _).
  split; [exact H1|exact H4].
Defined.

(** ** The parser: a wrong checksum, record by record *)

Lemma parse_reaches_loop (n : nat) :
  forall data pos0 pmap0 pos pmap1 fuel,
    parse_reaches n data pos0 pmap0 = Some (pos, pmap1) ->
    parse_loop (n + fuel) data pos0 pmap0 = parse_loop fuel data pos pmap1.
Proof.
  induction n as [|n IH]; intros data pos0 pmap0 pos pmap1 fuel.
  - intros [= <- <-]. reflexivity.
  - cbn [parse_reaches Nat.add parse_loop].
    destruct (decode_record data pos0) as [e|r]; [discriminate|].
    destruct (apply_record r pmap0) as [e|pmap']; [discriminate|].
    destruct (negb (rec_type r =? IQS5XX_REC_TYPE_EOF)); [|discriminate].
    apply IH.
Qed.

Lemma parse_reaches_snoc (n : nat) :
  forall data pos0 pmap0 pos pmap1 r pmap2,
    parse_reaches n data pos0 pmap0 = Some (pos, pmap1) ->
    decode_record data pos = inr r ->
    apply_record r pmap1 = inr pmap2 ->
    rec_type r <> IQS5XX_REC_TYPE_EOF ->
    parse_reaches (S n) data pos0 pmap0 =
      Some (skip_to_start (skipn (rec_end r) data) (rec_end r), pmap2).
Proof.
  induction n as [|n IH]; intros data pos0 pmap0 pos pmap1 r pmap2.
  - intros [= <- <-] Hd Ha Ht. cbn [parse_reaches]. rewrite Hd, Ha.
    destruct (Z.eqb_spec (rec_type r) IQS5XX_REC_TYPE_EOF);
      [contradiction|reflexivity].
  - intros Hr Hd Ha Ht. cbn [parse_reaches] in Hr |- *.
    destruct (decode_record data pos0) as [e|r0]; [discriminate|].
    destruct (apply_record r0 pmap0) as [e|pmap']; [discriminate|].
    destruct (negb (rec_type r0 =? IQS5XX_REC_TYPE_EOF)); [|discriminate].
    apply (IH _ _ _ _ _ _ _ Hr Hd Ha Ht).
Qed.

Lemma parse_loop_more (fuel : nat) :
  forall k data pos pmap res,
    parse_loop fuel data pos pmap = Some res ->
    parse_loop (fuel + k) data pos pmap = Some res.
Proof.
  induction fuel as [|fuel IH]; intros k data pos pmap res; [discriminate|].
  cbn [parse_loop Nat.add].
  destruct (decode_record data pos) as [e|r]; [auto|].
  destruct (apply_record r pmap) as [e|pmap']; [auto|].
  destruct (negb _); [apply IH|auto].
Qed.

(** The result of the loop is the same with any fuel that suffices. *)
Lemma parse_loop_any_fuel (f1 f2 : nat) (data : list Z) (pos : nat)
    (pmap : mem) (r1 r2 : Z * mem) :
  parse_loop f1 data pos pmap = Some r1 ->
  parse_loop f2 data pos pmap = Some r2 -> r1 = r2.
Proof.
  intros H1 H2.
  apply (parse_loop_more _ f2) in H1. apply (parse_loop_more _ f1) in H2.
  rewrite Nat.add_comm in H2. congruence.
Qed.

(** What [iqs5xx_fw_file_parse] returns for a file the loader holds. *)
Lemma fw_file_parse_result (w : world) (fw_file : string) (data : list Z)
    (pmap : mem) (fuel : nat) (res : Z * mem) :
  firmware (plat w) fw_file = Some data ->
  parse_loop fuel data 0 pmap = Some res ->
  fst (iqs5xx_fw_file_parse fw_file pmap w) = res.
Proof.
  intros Hfw Hp.
  unfold iqs5xx_fw_file_parse, reject_firmware, release_firmware.
  unfold bind, act, get, pure. cbn [fst snd plat emit]. rewrite Hfw.
  cbn [fst snd Z.eqb negb].
  destruct (parse_total data pmap) as (res' & E). rewrite E. cbn [fst].
  symmetry. exact (parse_loop_any_fuel _ _ _ _ _ _ _ Hp E).
Qed.

(** C2, as the code has it.  Take any file, and any record of it that the
    loop gets to (after [n] accepted records) whose recomputed checksum
    disagrees with the recorded one.  If its address is below 0xBE00 the
    parse fails: [iqs5xx_fw_file_parse] returns [-EINVAL].  From 0xBE00 up
    the recorded checksum is not looked at, the record is treated as the
    same record with a correct checksum: an end-of-file record ends the
    parse with 0, a data record in 0xBE00..0xBFFF is copied into the image
    and the loop goes on with the next record.  So for a record the type
    switch accepts, the mismatch is refused if and only if the address is
    below 0xBE00. *)
Theorem checksum_mismatch_fails_below_cstm (w : world) (fw_file : string)
    (data : list Z) (pmap pmap1 : mem) (n pos : nat) (r : ihex_rec) :
  firmware (plat w) fw_file = Some data ->
  parse_reaches n data 0 pmap = Some (pos, pmap1) ->
  decode_record data pos = inr r ->
  rec_checksum (rec_hdr r) (rec_data r) <> rec_chksm r ->
  (rec_addr r < IQS5XX_CSTM ->
   fst (iqs5xx_fw_file_parse fw_file pmap w) = (- EINVAL, pmap1)) /\
  (IQS5XX_CSTM <= rec_addr r ->
   apply_record r pmap1 =
   apply_record (with_chksm r (rec_checksum (rec_hdr r) (rec_data r))) pmap1) /\
  (IQS5XX_CSTM <= rec_addr r -> rec_type r = IQS5XX_REC_TYPE_EOF ->
   fst (iqs5xx_fw_file_parse fw_file pmap w) = (0, pmap1)) /\
  (IQS5XX_CSTM <= rec_addr r <= IQS5XX_PMAP_END ->
   rec_type r = IQS5XX_REC_TYPE_DATA ->
   parse_reaches (S n) data 0 pmap =
     Some (skip_to_start (skipn (rec_end r) data) (rec_end r),
           memcpy pmap1 (rec_addr r - IQS5XX_CHKSM) (rec_data r))) /\
  (well_placed r ->
   ((exists e, apply_record r pmap1 = inl e) <-> rec_addr r < IQS5XX_CSTM)).
Proof.
  intros Hfw Hreach Hd Hm.
  assert (Hneq : negb (rec_checksum (rec_hdr r) (rec_data r) =? rec_chksm r)
                 = true).
  { destruct (Z.eqb_spec (rec_checksum (rec_hdr r) (rec_data r)) (rec_chksm r));
      [contradiction|reflexivity]. }
  assert (Hlow : rec_addr r < IQS5XX_CSTM ->
                 apply_record r pmap1 = inl (- EINVAL)).
  { intros Ha. unfold apply_record. rewrite Hneq.
    destruct (Z.ltb_spec (rec_addr r) IQS5XX_CSTM); [reflexivity|lia]. }
  assert (Hhigh : IQS5XX_CSTM <= rec_addr r ->
            apply_record r pmap1 =
            (if rec_type r =? IQS5XX_REC_TYPE_DATA then
               if (rec_addr r <? IQS5XX_CHKSM) || (rec_addr r >? IQS5XX_PMAP_END)
               then inl (- EINVAL)
               else inr (memcpy pmap1 (rec_addr r - IQS5XX_CHKSM) (rec_data r))
             else if rec_type r =? IQS5XX_REC_TYPE_EOF then inr pmap1
             else inl (- EINVAL))).
  { intros Ha. unfold apply_record.
    destruct (Z.ltb_spec (rec_addr r) IQS5XX_CSTM); [lia|].
    rewrite andb_false_r. reflexivity. }
  assert (Hrun : forall res,
            parse_loop 1 data pos pmap1 = Some res ->
            fst (iqs5xx_fw_file_parse fw_file pmap w) = res).
  { intros res H1.
    apply (fw_file_parse_result w fw_file data pmap (n + 1) res Hfw).
    now rewrite (parse_reaches_loop _ _ _ _ _ _ 1%nat Hreach). }
  split; [|split; [|split; [|split]]].
  - intros Ha. apply Hrun. cbn [parse_loop]. rewrite Hd, (Hlow Ha).
    reflexivity.
  - intros Ha. rewrite (Hhigh Ha). unfold apply_record at 1. simpl.
    rewrite Z.eqb_refl. reflexivity.
  - intros Ha Ht. apply Hrun. cbn [parse_loop]. rewrite Hd, (Hhigh Ha), Ht.
    reflexivity.
  - intros [Hlo Hhi] Ht.
    apply (parse_reaches_snoc _ _ _ _ _ _ _ _ Hreach Hd).
    + rewrite (Hhigh Hlo), Ht. cbn [Z.eqb IQS5XX_REC_TYPE_DATA].
      destruct (Z.ltb_spec (rec_addr r) IQS5XX_CHKSM);
        [unfold IQS5XX_CHKSM, IQS5XX_CSTM in *; lia|].
      destruct (Z.gtb_spec (rec_addr r) IQS5XX_PMAP_END); [lia|].
      reflexivity.
    + rewrite Ht. discriminate.
  - intros Hw. split.
    + intros [e He].
      destruct (Z.lt_ge_cases (rec_addr r) IQS5XX_CSTM) as [|Ha]; [assumption|].
      exfalso. rewrite (Hhigh Ha) in He.
      destruct Hw as [Ht|[Ht [Hlo Hhi]]]; rewrite Ht in He; simpl in He.
      * discriminate.
      * destruct (Z.ltb_spec (rec_addr r) IQS5XX_CHKSM); [lia|].
        destruct (Z.gtb_spec (rec_addr r) IQS5XX_PMAP_END); [lia|].
        discriminate.
    + intros Ha. exists (- EINVAL). now apply Hlow.
Qed.

Lemma checksum_mismatch_fails_below_cstm_witness :
  fst (iqs5xx_fw_file_parse "fw.hex" kzalloc_pmap
         (boot (board (script_bus [] ack) bad_app_image) 0 false))
    = (- EINVAL, kzalloc_pmap) /\
  parse_reaches 1 (bytes_of_string bad_cstm_image) 0 kzalloc_pmap =
    Some (16%nat, memcpy kzalloc_pmap (0xBE00 - IQS5XX_CHKSM) [0xAA; 0xBB]) /\
  fst (iqs5xx_fw_file_parse "fw.hex" kzalloc_pmap
         (boot (board (script_bus [] ack) lenient_then_bad_image) 0 false))
    = (- EINVAL, memcpy kzalloc_pmap (0xBE00 - IQS5XX_CHKSM) [0xAA; 0xBB]).
Proof.
  split; [|split].
  - apply (proj1 (checksum_mismatch_fails_below_cstm
                    (boot (board (script_bus [] ack) bad_app_image) 0 false)
                    "fw.hex" (bytes_of_string bad_app_image)
                    kzalloc_pmap kzalloc_pmap 0 0 bad_app_rec
                    eq_refl eq_refl
                    ltac:(vm_compute; reflexivity)
                    ltac:(vm_compute; discriminate))).
    vm_compute. reflexivity.
  - change 16%nat
      with (skip_to_start
              (skipn (rec_end bad_cstm_rec) (bytes_of_string bad_cstm_image))
              (rec_end bad_cstm_rec)).
    apply (proj1 (proj2 (proj2 (proj2
             (checksum_mismatch_fails_below_cstm
                (boot (board (script_bus [] ack) bad_cstm_image) 0 false)
                "fw.hex" (bytes_of_string bad_cstm_image)
                kzalloc_pmap kzalloc_pmap 0 0 bad_cstm_rec
                eq_refl eq_refl
                ltac:(vm_compute; reflexivity)
                ltac:(vm_compute; discriminate)))))).
    + split; vm_compute; discriminate.
    + reflexivity.
  - apply (proj1 (checksum_mismatch_fails_below_cstm
                    (boot (board (script_bus [] ack) lenient_then_bad_image)
                          0 false)
                    "fw.hex" (bytes_of_string lenient_then_bad_image)
                    kzalloc_pmap
                    (memcpy kzalloc_pmap (0xBE00 - IQS5XX_CHKSM) [0xAA; 0xBB])
                    1 16
                    {| rec_hdr := [2; 0x84; 0; 0]; rec_len := 2;
                       rec_addr := 0x8400; rec_type := 0;
                       rec_data := [0xAA; 0xBB]; rec_chksm := 0;
                       rec_end := 31 |}
                    eq_refl
                    ltac:(vm_compute; reflexivity)
                    ltac:(vm_compute; reflexivity)
                    ltac:(vm_compute; discriminate))).
    vm_compute. reflexivity.
Defined.

(** ** The open sequence, probe by probe *)

Lemma repeat_snoc {A} (x : A) (n : nat) (l : list A) :
  repeat x n ++ x :: l = repeat x (S n) ++ l.
Proof.
  induction n as [|n IH]; [reflexivity|].
  cbn [repeat app]. now rewrite IH.
Qed.

Lemma concat_repeat_snoc {A} (c : list A) (n : nat) (l : list A) :
  concat (repeat c n) ++ c ++ l = concat (repeat c (S n)) ++ l.
Proof.
  induction n as [|n IH]; cbn [repeat concat app].
  - now rewrite app_nil_r.
  - rewrite <- !app_assoc. f_equal. rewrite IH. cbn [repeat concat].
    now rewrite <- app_assoc.
Qed.

(** [j] probes in a row that do not get through: one transfer each. *)
Lemma bl_open_probe_unanswered (j : nat) :
  forall w last,
    (forall n, (n < j)%nat -> silent (bus (plat w) (nxfer w + n))) ->
    exists w',
      bl_open_probe j last w =
        (inl (match j with
              | O => last
              | S j' => msg_fail (ret (bus (plat w) (nxfer w + j')))
              end), w') /\
      same_driver w w' /\
      nxfer w' = (nxfer w + j)%nat /\
      trace w' = repeat (probe_event (client_addr (plat w))) j ++ trace w.
Proof.
  induction j as [|j IH]; intros w last Hs.
  - exists w. cbn [bl_open_probe repeat app]. unfold pure, same_driver.
    repeat split; lia.
  - assert (S0 : silent (bus (plat w) (nxfer w))).
    { specialize (Hs 0%nat ltac:(lia)). now rewrite Nat.add_0_r in Hs. }
    cbn [bl_open_probe]. unfold bind at 1.
    rewrite (bl_cmd_ver_no_answer w (proj1 S0)).
    rewrite (msg_fail_silent _ S0).
    set (w1 := {| plat := plat w; nxfer := S (nxfer w);
                  trace := EvXfer [bl_msg (client_addr (plat w)) false 1 [0]]
                           :: trace w;
                  bl_status := bl_status w; input := input w |}).
    destruct (IH w1 (msg_fail (ret (bus (plat w) (nxfer w)))))
      as (w' & E & (Hp & Hb & Hi) & Hn & Ht).
    { intros n Hn. cbn [w1 plat nxfer].
      replace (S (nxfer w) + n)%nat with (nxfer w + S n)%nat by lia.
      apply Hs. lia. }
    exists w'. rewrite E. cbn [w1 plat nxfer trace] in *.
    split; [|split; [|split]].
    + do 2 f_equal. destruct j as [|j'].
      * now rewrite Nat.add_0_r.
      * do 3 f_equal. lia.
    + unfold same_driver. rewrite Hp, Hb, Hi. auto.
    + lia.
    + rewrite Ht. apply repeat_snoc.
Qed.

(** [p] probes that do not get through, then one answered with a wrong
    bootloader ID: the loop is left with [-EINVAL]. *)
Lemma bl_open_probe_wrong_id (j : nat) :
  forall w last p,
    (p < j)%nat ->
    (forall n, (n < p)%nat -> silent (bus (plat w) (nxfer w + n))) ->
    ret (bus (plat w) (nxfer w + p)) = 1 ->
    ret (bus (plat w) (nxfer w + p + 1)) = 1 ->
    wrong_id (bus (plat w) (nxfer w + p + 1)) ->
    exists w',
      bl_open_probe j last w = (inr (- EINVAL), w') /\
      same_driver w w' /\
      nxfer w' = (nxfer w + p + 2)%nat /\
      trace w' =
        EvXfer [bl_msg (client_addr (plat w)) true 2 []]
        :: repeat (probe_event (client_addr (plat w))) (S p) ++ trace w.
Proof.
  induction j as [|j IH]; intros w last p Hp Hs H1 H2 H3; [lia|].
  cbn [bl_open_probe]. unfold bind at 1.
  destruct p as [|p].
  - rewrite Nat.add_0_r in H1. rewrite Nat.add_0_r, Nat.add_1_r in H2, H3.
    rewrite (bl_cmd_ver_wrong_id w H1 H2 H3).
    cbn [Z.eqb orb]. rewrite Z.eqb_refl, orb_true_r. unfold pure.
    eexists. split; [reflexivity|].
    unfold same_driver. cbn [plat nxfer trace bl_status input].
    repeat split; lia.
  - assert (S0 : silent (bus (plat w) (nxfer w))).
    { specialize (Hs 0%nat ltac:(lia)). now rewrite Nat.add_0_r in Hs. }
    rewrite (bl_cmd_ver_no_answer w (proj1 S0)).
    rewrite (msg_fail_silent _ S0).
    set (w1 := {| plat := plat w; nxfer := S (nxfer w);
                  trace := EvXfer [bl_msg (client_addr (plat w)) false 1 [0]]
                           :: trace w;
                  bl_status := bl_status w; input := input w |}).
    destruct (IH w1 (msg_fail (ret (bus (plat w) (nxfer w)))) p)
      as (w' & E & (Hq & Hb & Hi) & Hn & Ht).
    + lia.
    + intros n Hn. cbn [w1 plat nxfer].
      replace (S (nxfer w) + n)%nat with (nxfer w + S n)%nat by lia.
      apply Hs. lia.
    + cbn [w1 plat nxfer].
      now replace (S (nxfer w) + p)%nat with (nxfer w + S p)%nat by lia.
    + cbn [w1 plat nxfer].
      now replace (S (nxfer w) + p + 1)%nat with (nxfer w + S p + 1)%nat
        by lia.
    + cbn [w1 plat nxfer].
      now replace (S (nxfer w) + p + 1)%nat with (nxfer w + S p + 1)%nat
        by lia.
    + exists w'. rewrite E. cbn [w1 plat nxfer trace] in *.
      split; [reflexivity|]. split; [|split].
      * unfold same_driver. rewrite Hq, Hb, Hi. auto.
      * lia.
      * rewrite Ht. f_equal. apply (repeat_snoc _ (S p)).
Qed.

(** [i] whole cycles in which no probe gets through. *)
Lemma bl_open_attempt_unanswered (i : nat) :
  forall w last,
    (forall n, (n < i * 10)%nat -> silent (bus (plat w) (nxfer w + n))) ->
    exists w',
      bl_open_attempt i last w =
        (match i with
         | O => last
         | S _ => msg_fail (ret (bus (plat w) (nxfer w + i * 10 - 1)))
         end, w') /\
      same_driver w w' /\
      nxfer w' = (nxfer w + i * 10)%nat /\
      trace w' =
        concat (repeat (open_cycle (client_addr (plat w))) i) ++ trace w.
Proof.
  induction i as [|i IH]; intros w last Hs.
  - exists w. cbn [bl_open_attempt repeat concat app].
    unfold pure, same_driver. repeat split; lia.
  - cbn [bl_open_attempt]. unfold bind at 1. rewrite iqs5xx_reset_eq.
    set (w0 := emit (EvGpio 0) (emit (EvSleep 200) (emit (EvGpio 1) w))).
    assert (F1 : plat w0 = plat w) by reflexivity.
    assert (F2 : nxfer w0 = nxfer w) by reflexivity.
    assert (F3 : trace w0 = reset_pulse ++ trace w) by reflexivity.
    assert (F5 : bl_status w0 = bl_status w) by reflexivity.
    assert (F6 : input w0 = input w) by reflexivity.
    clearbody w0.
    pose proof (bl_open_probe_unanswered 10 w0 last) as P. cbv iota in P.
    destruct P as (w1 & E & (Hp & Hb & Hi) & Hn & Ht).
    { intros n Hn. rewrite F1, F2. apply Hs. lia. }
    unfold bind at 1. change IQS5XX_NUM_RETRIES with 10%nat. rewrite E.
    destruct (IH w1 (msg_fail (ret (bus (plat w0) (nxfer w0 + 9)))))
      as (w' & E' & (Hp' & Hb' & Hi') & Hn' & Ht').
    { intros n Hn0. rewrite Hp, Hn, F1, F2.
      replace (nxfer w + 10 + n)%nat with (nxfer w + (10 + n))%nat by lia.
      apply Hs. lia. }
    exists w'. rewrite E'.
    split; [|split; [|split]].
    + f_equal. destruct i as [|i'].
      * rewrite F1, F2. do 3 f_equal. lia.
      * rewrite Hp, Hn, F1, F2. do 3 f_equal. lia.
    + unfold same_driver. rewrite Hp', Hb', Hi', Hp, Hb, Hi. auto.
    + lia.
    + rewrite Ht', Ht, F3, Hp, F1.
      rewrite <- concat_repeat_snoc. unfold open_cycle.
      now rewrite <- !app_assoc.
Qed.

(** [q] whole cycles and [p] probes without an answer, then a wrong
    bootloader ID. *)
Lemma bl_open_attempt_wrong_id (i : nat) :
  forall w last q p,
    (q < i)%nat -> (p < 10)%nat ->
    (forall n, (n < q * 10 + p)%nat ->
               silent (bus (plat w) (nxfer w + n))) ->
    ret (bus (plat w) (nxfer w + (q * 10 + p))) = 1 ->
    ret (bus (plat w) (nxfer w + (q * 10 + p) + 1)) = 1 ->
    wrong_id (bus (plat w) (nxfer w + (q * 10 + p) + 1)) ->
    exists w',
      bl_open_attempt i last w = (- EINVAL, w') /\
      same_driver w w' /\
      nxfer w' = (nxfer w + (q * 10 + p) + 2)%nat /\
      trace w' =
        EvXfer [bl_msg (client_addr (plat w)) true 2 []]
        :: repeat (probe_event (client_addr (plat w))) (S p)
        ++ reset_pulse
        ++ concat (repeat (open_cycle (client_addr (plat w))) q)
        ++ trace w.
Proof.
  induction i as [|i IH]; intros w last q p Hq Hp Hs H1 H2 H3; [lia|].
  cbn [bl_open_attempt]. unfold bind at 1. rewrite iqs5xx_reset_eq.
  set (w0 := emit (EvGpio 0) (emit (EvSleep 200) (emit (EvGpio 1) w))).
  assert (F1 : plat w0 = plat w) by reflexivity.
  assert (F2 : nxfer w0 = nxfer w) by reflexivity.
  assert (F3 : trace w0 = reset_pulse ++ trace w) by reflexivity.
  assert (F5 : bl_status w0 = bl_status w) by reflexivity.
  assert (F6 : input w0 = input w) by reflexivity.
  clearbody w0.
  unfold bind at 1. change IQS5XX_NUM_RETRIES with 10%nat.
  destruct q as [|q].
  - cbn [Nat.mul Nat.add] in *.
    destruct (bl_open_probe_wrong_id 10 w0 last p Hp)
      as (w1 & E & (Hp1 & Hb1 & Hi1) & Hn1 & Ht1);
      try (rewrite F1, F2; assumption).
    rewrite E. unfold pure. exists w1.
    split; [reflexivity|]. split; [|split].
    + unfold same_driver. rewrite Hp1, Hb1, Hi1. auto.
    + lia.
    + rewrite Ht1, F3, F1. reflexivity.
  - pose proof (bl_open_probe_unanswered 10 w0 last) as P. cbv iota in P.
    destruct P as (w1 & E & (Hp1 & Hb1 & Hi1) & Hn1 & Ht1).
    { intros n Hn. rewrite F1, F2. apply Hs. lia. }
    rewrite E.
    assert (Hw1 : forall k, (nxfer w1 + k = nxfer w + (10 + k))%nat)
      by (intros k; lia).
    destruct (IH w1 (msg_fail (ret (bus (plat w0) (nxfer w0 + 9)))) q p)
      as (w' & E' & (Hp' & Hb' & Hi') & Hn' & Ht'); try lia.
    + intros n Hn. rewrite Hp1, F1, Hw1. apply Hs. lia.
    + rewrite Hp1, F1, Hw1.
      now replace (10 + (q * 10 + p))%nat with (S q * 10 + p)%nat by lia.
    + rewrite Hp1, F1.
      now replace (nxfer w1 + (q * 10 + p) + 1)%nat
        with (nxfer w + (S q * 10 + p) + 1)%nat by lia.
    + rewrite Hp1, F1.
      now replace (nxfer w1 + (q * 10 + p) + 1)%nat
        with (nxfer w + (S q * 10 + p) + 1)%nat by lia.
    + exists w'. rewrite E'.
      split; [reflexivity|]. split; [|split].
      * unfold same_driver. rewrite Hp', Hb', Hi', Hp1, Hb1, Hi1. auto.
      * lia.
      * rewrite Ht', Ht1, F3, Hp1, F1. do 3 f_equal.
        rewrite <- concat_repeat_snoc. unfold open_cycle.
        now rewrite <- !app_assoc.
Qed.



(** ** The flash operation: identification afterwards *)

(** C4, as the code has it.  Whatever the call, a flash that returns 0
    leaves a stored status other than reset/unknown.  A call that gets
    past the status check, the allocation and the parse of the image runs
    the flash steps and then, whether they succeeded ([e0 = 0]) or not
    (then after a reset pulse and 10 ms), the identification sequence;
    when the stored status still reads reset/unknown after it, the call
    reports a failure.  A call that stops at one of the three checks
    returns the error of that check without any bus transfer, so without
    identifying the device again, and with the stored status as it was. *)
Theorem flash_resyncs_after_the_steps (w : world) (fw_file : string) :
  (forall e w',
     iqs5xx_fw_file_write fw_file w = (e, w') ->
     e = 0 -> bl_status w' <> IQS5XX_BL_STATUS_RESET) /\
  (bl_status w <> IQS5XX_BL_STATUS_NONE ->
   kzalloc_ok (plat w) = true ->
   forall data pmap,
     firmware (plat w) fw_file = Some data ->
     parse_loop (S (length data)) data 0 kzalloc_pmap = Some (0, pmap) ->
     forall e0 w4 e1 w2,
       flash_steps pmap (flash_entry fw_file w) = (e0, w4) ->
       iqs5xx_dev_init (after_steps e0 w4) = (e1, w2) ->
       snd (iqs5xx_fw_file_write fw_file w) =
         emit EvKfree (emit EvMutexUnlock (emit EvEnableIrq w2)) /\
       (bl_status w2 = IQS5XX_BL_STATUS_RESET ->
        fst (iqs5xx_fw_file_write fw_file w) <> 0)) /\
  (bl_status w = IQS5XX_BL_STATUS_NONE ->
   iqs5xx_fw_file_write fw_file w = (- EPERM, w)) /\
  (bl_status w <> IQS5XX_BL_STATUS_NONE ->
   kzalloc_ok (plat w) = false ->
   iqs5xx_fw_file_write fw_file w = (- ENOMEM, emit EvKzalloc w)) /\
  (bl_status w <> IQS5XX_BL_STATUS_NONE ->
   kzalloc_ok (plat w) = true ->
   forall e pmap w3,
     iqs5xx_fw_file_parse fw_file kzalloc_pmap (emit EvKzalloc w)
       = ((e, pmap), w3) ->
     e <> 0 ->
     iqs5xx_fw_file_write fw_file w = (e, emit EvKfree w3) /\
     nxfer w3 = nxfer w /\
     bl_status w3 = bl_status w /\
     (trace w3 = EvFwRequest fw_file :: EvKzalloc :: trace w \/
      trace w3 = EvFwRelease :: EvFwRequest fw_file :: EvKzalloc :: trace w)).
Proof.
  split; [|split; [|split; [|split]]].
  - intros e w'. unfold iqs5xx_fw_file_write.
    unfold bind at 1, get at 1.
    destruct (bl_status w =? IQS5XX_BL_STATUS_NONE);
      [intros [= <- <-]; discriminate|].
    unfold bind at 1, act at 1. unfold bind at 1, get at 1.
    cbn [plat emit].
    destruct (kzalloc_ok (plat w)); cbn [negb];
      [|intros [= <- <-]; discriminate].
    unfold bind at 1.
    destruct (iqs5xx_fw_file_parse _ _ _) as [[error pmap] w3].
    destruct (Z.eqb_spec error 0) as [->|Hne]; cbn [negb].
    + unfold bind at 1, act at 1. unfold bind at 1, act at 1.
      unfold bind at 1. unfold bind at 1.
      destruct (flash_steps pmap _) as [e0 w4].
      unfold bind at 1.
      rewrite flash_resync_runs_dev_init.
      destruct (iqs5xx_dev_init _) as [e1 w2].
      unfold bind at 1, act at 1. unfold pure.
      intros [= <- <-]. cbn [bl_status emit].
      destruct (Z.eqb_spec e1 0) as [->|]; cbn [andb].
      * destruct (Z.eqb_spec (bl_status w2) IQS5XX_BL_STATUS_RESET);
          [discriminate|auto].
      * intros; contradiction.
    + unfold bind at 1, act at 1. unfold pure.
      intros [= <- <-] E0. contradiction.
  - intros Hst Hk data pmap Hfw Hparse e0 w4 e1 w2 Hsteps Hinit.
    assert (E : iqs5xx_fw_file_write fw_file w =
                (if (e1 =? 0) && (bl_status w2 =? IQS5XX_BL_STATUS_RESET)
                 then - EINVAL else e1,
                 emit EvKfree (emit EvMutexUnlock (emit EvEnableIrq w2)))).
    { unfold iqs5xx_fw_file_write.
      unfold bind at 1, get at 1.
      destruct (Z.eqb_spec (bl_status w) IQS5XX_BL_STATUS_NONE);
        [contradiction|].
      unfold bind at 1, act at 1. unfold bind at 1, get at 1.
      cbn [plat emit]. rewrite Hk. cbn [negb].
      unfold bind at 1.
      unfold iqs5xx_fw_file_parse, reject_firmware, release_firmware.
      unfold bind at 1. unfold bind at 1, act at 1.
      unfold bind at 1, get at 1.
      cbn [plat emit]. rewrite Hfw. unfold pure at 1.
      cbn [Z.eqb negb]. rewrite Hparse.
      unfold bind at 1, act at 1. unfold pure at 1.
      cbn [Z.eqb negb].
      unfold bind at 1, act at 1. unfold bind at 1, act at 1.
      unfold bind at 1. unfold bind at 1.
      unfold flash_entry in Hsteps. rewrite Hsteps.
      unfold bind at 1.
      rewrite flash_resync_runs_dev_init, Hinit.
      reflexivity. }
    rewrite E. cbn [fst snd]. split; [reflexivity|].
    intros Hr. rewrite Hr, Z.eqb_refl, andb_true_r.
    destruct (Z.eqb_spec e1 0); [discriminate|assumption].
  - intros Hst. unfold iqs5xx_fw_file_write, bind, get. rewrite Hst.
    reflexivity.
  - intros Hst Hk. unfold iqs5xx_fw_file_write.
    unfold bind at 1, get at 1.
    destruct (Z.eqb_spec (bl_status w) IQS5XX_BL_STATUS_NONE);
      [contradiction|].
    unfold bind at 1, act at 1. unfold bind at 1, get at 1.
    cbn [plat emit]. rewrite Hk. reflexivity.
  - intros Hst Hk e pmap w3 Hparse Hne.
    split.
    + unfold iqs5xx_fw_file_write.
      unfold bind at 1, get at 1.
      destruct (Z.eqb_spec (bl_status w) IQS5XX_BL_STATUS_NONE);
        [contradiction|].
      unfold bind at 1, act at 1. unfold bind at 1, get at 1.
      cbn [plat emit]. rewrite Hk. cbn [negb].
      unfold bind at 1. rewrite Hparse.
      destruct (Z.eqb_spec e 0); [contradiction|]. reflexivity.
    + revert Hparse.
      unfold iqs5xx_fw_file_parse, reject_firmware, release_firmware.
      unfold bind, act, get, pure. cbn [fst snd plat emit].
      destruct (firmware (plat w) fw_file) as [data|];
        cbn [fst snd negb Z.eqb].
      * intros H. apply (f_equal snd) in H. cbn [snd] in H. subst w3.
        cbn [nxfer bl_status trace]. auto.
      * intros H. apply (f_equal snd) in H. cbn [snd] in H. subst w3.
        cbn [nxfer bl_status trace]. auto.
Qed.

Lemma flash_resyncs_after_the_steps_witness :
  snd (iqs5xx_fw_file_write "fw.hex" flash_ok_world) =
    emit EvKfree (emit EvMutexUnlock (emit EvEnableIrq
      (snd (iqs5xx_dev_init
              (snd (flash_steps kzalloc_pmap
                      (flash_entry "fw.hex" flash_ok_world))))))) /\
  fst (iqs5xx_fw_file_write "fw.hex" dead_world) <> 0 /\
  iqs5xx_fw_file_write "missing.hex" dead_world =
    (- ENOENT, emit EvKfree (emit (EvFwRequest "missing.hex")
                               (emit EvKzalloc dead_world))).
Proof.
  split; [|split].
  - destruct (flash_resyncs_after_the_steps flash_ok_world "fw.hex")
      as (_ & Hrun & _).
    apply (Hrun ltac:(vm_compute; discriminate) eq_refl
             (bytes_of_string eof_only_image) kzalloc_pmap eq_refl
             ltac:(vm_compute; reflexivity) 0
             (snd (flash_steps kzalloc_pmap
                     (flash_entry "fw.hex" flash_ok_world)))
             (fst (iqs5xx_dev_init
                     (snd (flash_steps kzalloc_pmap
                             (flash_entry "fw.hex" flash_ok_world)))))).
    + rewrite (surjective_pairing
                 (flash_steps kzalloc_pmap (flash_entry "fw.hex" flash_ok_world)))
        at 1.
      apply (f_equal2 pair); [vm_compute; reflexivity|reflexivity].
    + apply surjective_pairing.
  - destruct (flash_resyncs_after_the_steps dead_world "fw.hex")
      as (_ & Hrun & _).
    apply (Hrun ltac:(vm_compute; discriminate) eq_refl
             (bytes_of_string eof_only_image) kzalloc_pmap eq_refl
             ltac:(vm_compute; reflexivity) (-6)
             (snd (flash_steps kzalloc_pmap (flash_entry "fw.hex" dead_world)))
             (fst (iqs5xx_dev_init
                     (after_steps (-6)
                        (snd (flash_steps kzalloc_pmap
                                (flash_entry "fw.hex" dead_world))))))
             (snd (iqs5xx_dev_init
                     (after_steps (-6)
                        (snd (flash_steps kzalloc_pmap
                                (flash_entry "fw.hex" dead_world))))))).
    + rewrite (surjective_pairing
                 (flash_steps kzalloc_pmap (flash_entry "fw.hex" dead_world)))
        at 1.
      apply (f_equal2 pair); [vm_compute; reflexivity|reflexivity].
    + apply surjective_pairing.
    + vm_compute. reflexivity.
  - destruct (flash_resyncs_after_the_steps dead_world "missing.hex")
      as (_ & _ & _ & _ & Hparse).
    apply (Hparse ltac:(vm_compute; discriminate) eq_refl
             (- ENOENT) kzalloc_pmap
             (emit (EvFwRequest "missing.hex") (emit EvKzalloc dead_world))).
    + reflexivity.
    + discriminate.
Defined.

(** ** The flash operation: where blocks are written *)

(** Everything but [iqs5xx_bl_write] sends short messages only: no
    66-byte write. *)
Lemma read_burst_loop_nb (a : Z) (n : nat) :
  forall m1 m2 len last,
    keeps a (extends not_block) (read_burst_loop n [m1; m2] len last).
Proof. induction n; intros; cbn [read_burst_loop]; keeps_auto. Qed.

Lemma read_burst_nb (a reg : Z) (len : nat) :
  keeps a (extends not_block) (iqs5xx_read_burst reg len).
Proof.
  unfold iqs5xx_read_burst. keeps_step. keeps_step.
  - apply read_burst_loop_nb.
  - keeps_auto.
Qed.

Lemma write_burst_loop_nb (a : Z) (n : nat) :
  forall mbuf last,
    Z.of_nat (length mbuf) <> 66 ->
    keeps a (extends not_block) (write_burst_loop n a mbuf last).
Proof.
  induction n; intros mbuf last Hl; cbn [write_burst_loop];
    unfold i2c_master_send; keeps_auto.
  apply keeps_ext_xfer. unfold not_block, is_block_write, block_write_addr.
  cbn [msg_rd msg_len negb andb].
  destruct (Z.eqb_spec (Z.of_nat (length mbuf)) 66); [contradiction|].
  reflexivity.
Qed.

Lemma write_burst_nb (a reg : Z) (val : list Z) :
  keeps a (extends not_block) (iqs5xx_write_burst reg val).
Proof.
  unfold iqs5xx_write_burst.
  destruct (Z.gtb_spec (Z.of_nat (length val)) IQS5XX_WR_BYTES_MAX) as [|Hl];
    [keeps_auto|].
  keeps_step. keeps_step; [|keeps_auto].
  apply write_burst_loop_nb. rewrite length_app.
  unfold IQS5XX_WR_BYTES_MAX in Hl. cbn [put_be16 length]. lia.
Qed.

#[local] Hint Resolve read_burst_nb write_burst_nb : keeps.

Lemma read_word_nb (a reg : Z) :
  keeps a (extends not_block) (iqs5xx_read_word reg).
Proof. unfold iqs5xx_read_word. keeps_auto. Qed.

Lemma read_byte_nb (a reg : Z) :
  keeps a (extends not_block) (iqs5xx_read_byte reg).
Proof. unfold iqs5xx_read_byte. keeps_auto. Qed.

Lemma write_word_nb (a reg val : Z) :
  keeps a (extends not_block) (iqs5xx_write_word reg val).
Proof. unfold iqs5xx_write_word. keeps_auto. Qed.

Lemma write_byte_nb (a reg val : Z) :
  keeps a (extends not_block) (iqs5xx_write_byte reg val).
Proof. unfold iqs5xx_write_byte. keeps_auto. Qed.

Lemma bl_cmd_nb (a bl_cmd bl_addr : Z) :
  keeps a (extends not_block) (iqs5xx_bl_cmd bl_cmd bl_addr).
Proof.
  unfold iqs5xx_bl_cmd. apply keeps_addr; auto with keeps.
  destruct (Z.eqb_spec bl_cmd IQS5XX_BL_CMD_VER) as [->|Hv];
    [cbn -[put_be16]; keeps_auto|].
  destruct (Z.eqb_spec bl_cmd IQS5XX_BL_CMD_CRC) as [->|Hr];
    [cbn -[put_be16]; keeps_auto|].
  destruct (Z.eqb_spec bl_cmd IQS5XX_BL_CMD_EXEC) as [->|He];
    [cbn -[put_be16]; keeps_auto|].
  destruct (Z.eqb_spec bl_cmd IQS5XX_BL_CMD_READ) as [->|Hd];
    cbn -[put_be16]; keeps_auto.
Qed.

Lemma reset_nb (a : Z) : keeps a (extends not_block) iqs5xx_reset.
Proof. unfold iqs5xx_reset. keeps_auto. Qed.

#[local] Hint Resolve read_word_nb read_byte_nb write_word_nb write_byte_nb
  bl_cmd_nb reset_nb : keeps.

Lemma bl_open_probe_nb (a : Z) (j : nat) :
  forall last, keeps a (extends not_block) (bl_open_probe j last).
Proof. induction j; intros; cbn [bl_open_probe]; keeps_auto. Qed.

Lemma bl_open_nb (a : Z) : keeps a (extends not_block) iqs5xx_bl_open.
Proof.
  unfold iqs5xx_bl_open. generalize 0. generalize IQS5XX_BL_ATTEMPTS.
  induction n; intros; cbn [bl_open_attempt]; keeps_auto.
  apply bl_open_probe_nb.
Qed.

Lemma bl_verify_loop_nb (a : Z) (fuel : nat) :
  forall bl_addr pmap_data pmap_len i,
    keeps a (extends not_block)
      (bl_verify_loop fuel a bl_addr pmap_data pmap_len i).
Proof. induction fuel; intros; cbn [bl_verify_loop]; keeps_auto. Qed.

Lemma bl_verify_nb (a bl_addr : Z) (pmap_data : mem) (pmap_len : Z) :
  keeps a (extends not_block) (iqs5xx_bl_verify bl_addr pmap_data pmap_len).
Proof.
  unfold iqs5xx_bl_verify. keeps_step; [keeps_auto|].
  keeps_step. apply bl_verify_loop_nb.
Qed.

#[local] Hint Resolve bl_open_nb bl_verify_nb : keeps.

Lemma axis_init_nb (a : Z) : keeps a (extends not_block) iqs5xx_axis_init.
Proof. unfold iqs5xx_axis_init. keeps_auto. Qed.

#[local] Hint Resolve axis_init_nb : keeps.

Lemma dev_init_nb (a : Z) : keeps a (extends not_block) iqs5xx_dev_init.
Proof. unfold iqs5xx_dev_init. keeps_auto. Qed.

Lemma fw_file_parse_nb (a : Z) (fw_file : string) (pmap : mem) :
  keeps a (extends not_block) (iqs5xx_fw_file_parse fw_file pmap).
Proof.
  unfold iqs5xx_fw_file_parse, reject_firmware, release_firmware.
  keeps_auto.
Qed.

#[local] Hint Resolve dev_init_nb fw_file_parse_nb : keeps.

Lemma flash_resync_nb (a error : Z) :
  keeps a (extends not_block) (flash_resync error).
Proof. unfold flash_resync. keeps_auto. Qed.

(** Blocks inside the region, step after step. *)
Lemma blocks_in_pmap_refl (w : world) : blocks_in_pmap w w.
Proof. split; [reflexivity|]. exists []. split; [reflexivity|constructor]. Qed.

Lemma blocks_in_pmap_trans (w1 w2 w3 : world) :
  blocks_in_pmap w1 w2 -> blocks_in_pmap w2 w3 -> blocks_in_pmap w1 w3.
Proof.
  intros (A1 & n1 & T1 & F1) (A2 & n2 & T2 & F2).
  split; [congruence|]. exists (n2 ++ n1). split.
  - rewrite T2, T1. apply app_assoc.
  - rewrite block_addrs_app. apply Forall_app. now split.
Qed.

Lemma blocks_in_pmap_plat (w w' : world) :
  blocks_in_pmap w w' -> plat w' = plat w.
Proof. now intros (H & _). Qed.

Lemma not_block_blocks (w w' : world) :
  extends not_block w w' -> blocks_in_pmap w w'.
Proof.
  intros (A & new & T & F). split; [assumption|].
  exists new. split; [assumption|].
  replace (block_addrs new) with (@nil Z); [constructor|].
  clear T. induction new as [|e new IH]; [reflexivity|].
  cbn [forallb] in F. apply andb_true_iff in F. destruct F as [Fe Fn].
  change (block_addrs (e :: new))
    with (match block_write_addr e with Some x => [x] | None => [] end
          ++ block_addrs new).
  unfold not_block, is_block_write in Fe.
  destruct (block_write_addr e); [discriminate|]. now apply IH.
Qed.

Lemma keeps_not_block {A} (a : Z) (c : M A) :
  keeps a (extends not_block) c -> keeps a blocks_in_pmap c.
Proof. apply keeps_weaken. exact not_block_blocks. Qed.

(** The one call of the block write in the flash operation. *)
Lemma bl_write_pmap_blocks (a : Z) (pmap_data : mem) :
  keeps a blocks_in_pmap
    (iqs5xx_bl_write IQS5XX_CHKSM pmap_data IQS5XX_PMAP_LEN).
Proof.
  intros w Ha. split.
  - apply (bl_write_same a IQS5XX_CHKSM pmap_data IQS5XX_PMAP_LEN w Ha).
  - unfold iqs5xx_bl_write.
    change (negb (IQS5XX_PMAP_LEN mod IQS5XX_BL_BLK_LEN_MAX =? 0)) with false.
    cbv iota. unfold bind at 1, get.
    destruct (bl_write_loop_addrs (Z.to_nat IQS5XX_PMAP_LEN)
                (client_addr (plat w)) IQS5XX_CHKSM pmap_data IQS5XX_PMAP_LEN
                0 w) as (new & Et & Hf);
      try (vm_compute; congruence); try reflexivity.
    exists new. split; [exact Et|].
    eapply Forall_impl; [|exact Hf]. cbv beta. unfold in_pmap.
    change IQS5XX_PMAP_LEN with 0x3C40. change IQS5XX_CHKSM with 0x83C0.
    change IQS5XX_PMAP_END with 0xBFFF. change IQS5XX_BL_BLK_LEN_MAX with 64.
    intros x Hx. lia.
Qed.

Ltac blocks_bind lem :=
  apply keeps_bind;
  [exact blocks_in_pmap_trans|exact blocks_in_pmap_plat|lem|intros ?].

Ltac by_not_block := apply keeps_not_block; solve [eauto with keeps|keeps_auto].

Lemma flash_steps_blocks (a : Z) (pmap : mem) :
  keeps a blocks_in_pmap (flash_steps pmap).
Proof.
  unfold flash_steps.
  blocks_bind by_not_block.
  blocks_bind ltac:(destruct (negb _); by_not_block).
  destruct (negb _); [by_not_block|].
  blocks_bind ltac:(apply bl_write_pmap_blocks).
  destruct (negb _); [by_not_block|].
  blocks_bind by_not_block.
  destruct (negb _); [by_not_block|].
  blocks_bind by_not_block.
  destruct (negb _); by_not_block.
Qed.

Lemma fw_file_write_blocks (a : Z) (fw_file : string) :
  keeps a blocks_in_pmap (iqs5xx_fw_file_write fw_file).
Proof.
  unfold iqs5xx_fw_file_write.
  blocks_bind by_not_block.
  destruct (_ =? _); [by_not_block|].
  blocks_bind by_not_block.
  blocks_bind by_not_block.
  destruct (negb _); [by_not_block|].
  blocks_bind by_not_block.
  match goal with |- keeps _ _ (let '(_, _) := ?x in _) => destruct x end.
  destruct (negb _); [by_not_block|].
  blocks_bind by_not_block.
  blocks_bind by_not_block.
  blocks_bind ltac:(apply keeps_not_block, set_bl_status_events).
  blocks_bind ltac:(apply flash_steps_blocks).
  blocks_bind ltac:(apply keeps_not_block, flash_resync_nb).
  blocks_bind by_not_block.
  by_not_block.
Qed.

